(** * Mode coordinator of the Marich robot car (big_main.py)

    A shallow embedding of [BigMainApp] from [big_main.py] and of the LED,
    motor and buzzer helpers of [robot_hardware.py], followed by the
    properties of the mode coordinator, of the IR input router and of the
    worker bookkeeping.  The game logic of [rock_paper_scissors.py], the
    command handling, the conversation history and the sensor reactions of
    [chatbot_logic.py] and the touch, blinking and loop scheduling of
    [face_gui.py] are embedded as functions of their inputs, with their own
    properties.

    Conventions of the embedding.
    - The attributes of the Python object are the fields of [BigMainApp];
      the objects it owns (Tk root, face GUI, camera manager, hardware)
      are records of their own.  The three triples
      [x_thread / _x_stop_event / _x_started] are grouped in a [Worker]
      record each.
    - Every method is a computation in the monad [M]: it reads an
      environment [Env] (the outcomes the program cannot control: whether
      the camera opens, whether a detector start raises, whether a thread
      joins within its timeout, ...), threads the application state and
      produces the list of effects it performed, in order.
    - Calls that the source wraps in [try/except] and whose failure does not
      change the control flow are taken to return normally.  Hardware calls
      outside any [try] are taken to return normally as well. *)

From Stdlib Require Import Bool List Ascii String ZArith QArith Lia.
Import ListNotations.

Local Open Scope string_scope.
Local Open Scope Z_scope.
Local Open Scope list_scope.

(** ** Data model *)

(** The values of [self.active_mode]:
    'color','face','gesture','object','plate','rps','presentation'. *)
Inductive Mode : Type :=
  | color | face | gesture | object | plate | rps | presentation.

Definition mode_name (m : Mode) : string :=
  match m with
  | color => "color" | face => "face" | gesture => "gesture"
  | object => "object" | plate => "plate" | rps => "rps"
  | presentation => "presentation"
  end.

Definition Mode_eqb (a b : Mode) : bool :=
  match a, b with
  | color, color | face, face | gesture, gesture | object, object
  | plate, plate | rps, rps | presentation, presentation => true
  | _, _ => false
  end.

(** The three background capabilities, named after their threads. *)
Inductive WorkerName : Type := ChatbotThread | RPSGameThread | PresentationThread.

(** The camera sub-detectors of [CameraMaster]. *)
Inductive Detector : Type :=
  | color_tracking | face_tracking | gesture_following
  | object_recognition | license_plate_recognition.

(** Callbacks handed to [root.after]. *)
Inductive Callback : Type :=
  | cb_start_rps_if_needed
  | cb_start_presentation_mode
  | cb_toggle_ai
  | cb_release_camera_completely
  | cb_destroy.

Definition Callback_eqb (a b : Callback) : bool :=
  match a, b with
  | cb_start_rps_if_needed, cb_start_rps_if_needed
  | cb_start_presentation_mode, cb_start_presentation_mode
  | cb_toggle_ai, cb_toggle_ai
  | cb_release_camera_completely, cb_release_camera_completely
  | cb_destroy, cb_destroy => true
  | _, _ => false
  end.

(** Effects, in the order the program performs them. *)
Inductive Event : Type :=
  | Print (msg : string)
  | Traceback                                  (* traceback.print_exc() *)
  | PrintHelp                                  (* _print_help() *)
  | LogIRCode (code : Z)                       (* "[IR] Code: 0x.." *)
  | LogUnmapped (code : Z)                     (* "[IR] Unmapped code: 0x.." *)
  | KillCameraProcesses                        (* _kill_camera_processes() *)
  | CameraCreate (ok : bool)                   (* CameraMaster(show_windows=True) *)
  | DetectorStart (d : Detector) (ok : bool)
  | DetectorStop (d : Detector)
  | CameraReleaseAll                           (* camera.release_all() *)
  | ThreadStart (w : WorkerName)
  | RequestStop (w : WorkerName)               (* request_stop(stop_event) *)
  | ThreadJoin (w : WorkerName) (in_time : bool)
  | MotorStop
  | LedAll (on : Z) (color_index : Z)          (* Ctrl_WQ2812_ALL *)
  | IRSwitch (on : Z)                          (* Ctrl_IR_Switch *)
  | Beep                                       (* trigger_beep() *)
  | FaceSuspend | FaceResume
  | FaceEmotion (emotion : string)
  | AnimationLoops (ok : bool)                 (* start_animation_loops() *)
  | PreloadModel
  | MemoryCleanup                              (* swap, process and cache housekeeping *)
  | GarbageCollect
  | After (ms : Z) (cb : Callback)             (* root.after(ms, cb) *)
  | Sleep (ms : Z).

(** [CameraMaster]: the device and which sub-detectors run, with their
    parameters. *)
Record CameraMaster : Type := mkCamera {
  cam_device_open : bool;         (* cleared by release_all() *)
  cam_color : option string;      (* start_color_tracking(color_name) *)
  cam_face : bool;
  cam_gesture : option bool;      (* start_gesture_following(enable_actions) *)
  cam_object : bool;
  cam_plate : bool
}.

(** [MarichFaceApp], as far as the coordinator touches it. *)
Record MarichFaceApp : Type := mkFace {
  current_emotion : string;
  animation_active : bool;
  suppress_initial_greeting : option bool   (* attribute created on first AI start *)
}.

(** The Tk root: window state and the callbacks scheduled with [after]. *)
Record TkRoot : Type := mkRoot {
  withdrawn : bool;
  after_queue : list (Z * Callback);
  destroyed : bool
}.

(** The robot hardware the coordinator commands. *)
Record Hardware : Type := mkHardware {
  ir_switch : bool;
  led : option Z;          (* None: LEDs off; Some i: all LEDs on with colour i *)
  motors_moving : bool
}.

(** One worker record: thread, stop event (its flag), started flag. *)
Record Worker : Type := mkWorker {
  thread : option WorkerName;
  stop_event : option bool;
  started : bool
}.

Record BigMainApp : Type := mkApp {
  root : TkRoot;
  face_app : MarichFaceApp;
  camera : option CameraMaster;
  _camera_initialized : bool;
  _camera_shutting_down : bool;
  _animations_started : bool;
  bot : Hardware;
  active_mode : option Mode;
  active_color : option string;
  ai_enabled : bool;
  chatbot : Worker;         (* chatbot_thread, _chatbot_stop_event, _chatbot_started *)
  rps_game : Worker;        (* rps_thread, _rps_stop_event, _rps_started *)
  presentation_w : Worker;  (* presentation_thread, _presentation_stop_event, _presentation_started *)
  _stop_flag : bool;
  _last_ir_code : Z;
  _last_ir_time : Q
}.

(** Field updates. *)
Definition set_root v (s : BigMainApp) :=
  let 'mkApp _ b c d e f g h i j k l m n o p := s in mkApp v b c d e f g h i j k l m n o p.
Definition set_face_app v (s : BigMainApp) :=
  let 'mkApp a _ c d e f g h i j k l m n o p := s in mkApp a v c d e f g h i j k l m n o p.
Definition set_camera v (s : BigMainApp) :=
  let 'mkApp a b _ d e f g h i j k l m n o p := s in mkApp a b v d e f g h i j k l m n o p.
Definition set_camera_initialized v (s : BigMainApp) :=
  let 'mkApp a b c _ e f g h i j k l m n o p := s in mkApp a b c v e f g h i j k l m n o p.
Definition set_camera_shutting_down v (s : BigMainApp) :=
  let 'mkApp a b c d _ f g h i j k l m n o p := s in mkApp a b c d v f g h i j k l m n o p.
Definition set_animations_started v (s : BigMainApp) :=
  let 'mkApp a b c d e _ g h i j k l m n o p := s in mkApp a b c d e v g h i j k l m n o p.
Definition set_bot v (s : BigMainApp) :=
  let 'mkApp a b c d e f _ h i j k l m n o p := s in mkApp a b c d e f v h i j k l m n o p.
Definition set_active_mode v (s : BigMainApp) :=
  let 'mkApp a b c d e f g _ i j k l m n o p := s in mkApp a b c d e f g v i j k l m n o p.
Definition set_active_color v (s : BigMainApp) :=
  let 'mkApp a b c d e f g h _ j k l m n o p := s in mkApp a b c d e f g h v j k l m n o p.
Definition set_ai_enabled v (s : BigMainApp) :=
  let 'mkApp a b c d e f g h i _ k l m n o p := s in mkApp a b c d e f g h i v k l m n o p.
Definition set_chatbot v (s : BigMainApp) :=
  let 'mkApp a b c d e f g h i j _ l m n o p := s in mkApp a b c d e f g h i j v l m n o p.
Definition set_rps_game v (s : BigMainApp) :=
  let 'mkApp a b c d e f g h i j k _ m n o p := s in mkApp a b c d e f g h i j k v m n o p.
Definition set_presentation_w v (s : BigMainApp) :=
  let 'mkApp a b c d e f g h i j k l _ n o p := s in mkApp a b c d e f g h i j k l v n o p.
Definition set_stop_flag v (s : BigMainApp) :=
  let 'mkApp a b c d e f g h i j k l m _ o p := s in mkApp a b c d e f g h i j k l m v o p.
Definition set_last_ir_code v (s : BigMainApp) :=
  let 'mkApp a b c d e f g h i j k l m n _ p := s in mkApp a b c d e f g h i j k l m n v p.
Definition set_last_ir_time v (s : BigMainApp) :=
  let 'mkApp a b c d e f g h i j k l m n o _ := s in mkApp a b c d e f g h i j k l m n o v.

(** The CONFIG SECTION of big_main.py: the constants a user edits. *)
Record Config : Type := mkConfig {
  IR_COLOR_RED : Z;
  IR_COLOR_BLUE : Z;
  IR_COLOR_GREEN : Z;
  IR_COLOR_YELLOW : Z;
  IR_FACE_MODE : Z;
  IR_GESTURE_MODE : Z;
  IR_OBJECT_MODE : Z;
  IR_PLATE_MODE : Z;
  IR_RPS_GAME : Z;
  IR_PRESENTATION : Z;
  IR_AI_TOGGLE : Z;
  IR_STOP_ALL : Z;
  IR_EXIT_APP : Z;
  IR_DEBOUNCE_SEC : Q;
  IR_DEBUG : bool
}.

(** The values the repository ships. *)
Definition default_config : Config := {|
  IR_COLOR_RED := 0x01;
  IR_COLOR_BLUE := 0x04;
  IR_COLOR_GREEN := 0x06;
  IR_COLOR_YELLOW := 0x09;
  IR_FACE_MODE := 0x10;
  IR_GESTURE_MODE := 0x11;
  IR_OBJECT_MODE := 0x12;
  IR_PLATE_MODE := 0x14;
  IR_RPS_GAME := 0x19;
  IR_PRESENTATION := 0x15;
  IR_AI_TOGGLE := 0x02;
  IR_STOP_ALL := 0x05;
  IR_EXIT_APP := 0x00;
  IR_DEBOUNCE_SEC := 0.4%Q;
  IR_DEBUG := false
|}.

(** What the program cannot decide by itself. *)
Record Env : Type := mkEnv {
  cam_ok : bool;                       (* CameraMaster(...) returns instead of raising *)
  det_ok : bool;                       (* camera.start_...(...) returns instead of raising *)
  anim_ok : bool;                      (* face_app.start_animation_loops() returns *)
  model_ok : bool;                     (* os.path.exists(model_path) *)
  labels_ok : bool;                    (* os.path.exists(label_map_path) *)
  join_in_time : WorkerName -> bool    (* thread.join(timeout=2.0) saw the thread exit *)
}.

(** ** The effect monad *)

Definition M (A : Type) : Type := Env -> BigMainApp -> A * BigMainApp * list Event.

Definition ret {A : Type} (a : A) : M A := fun _ s => (a, s, []).

Definition bind {A B : Type} (m : M A) (k : A -> M B) : M B :=
  fun env s =>
    let '(a, s1, t1) := m env s in
    let '(b, s2, t2) := k a env s1 in
    (b, s2, t1 ++ t2).

Declare Scope prog_scope.
Delimit Scope prog_scope with prog.
Notation "x <- c1 ;; c2" := (bind c1 (fun x => c2))
  (at level 61, c1 at next level, right associativity) : prog_scope.
Notation "c1 ;; c2" := (bind c1 (fun _ => c2))
  (at level 61, right associativity) : prog_scope.
Local Open Scope prog_scope.

Definition get : M BigMainApp := fun _ s => (s, s, []).
Definition gets {A : Type} (f : BigMainApp -> A) : M A := fun _ s => (f s, s, []).
Definition modify (f : BigMainApp -> BigMainApp) : M unit := fun _ s => (tt, f s, []).
Definition emit (e : Event) : M unit := fun _ s => (tt, s, [e]).
Definition ask {A : Type} (f : Env -> A) : M A := fun env s => (f env, s, []).
Definition when (b : bool) (m : M unit) : M unit := if b then m else ret tt.
Definition skip : M unit := ret tt.

Definition state_of {A : Type} (r : A * BigMainApp * list Event) : BigMainApp := snd (fst r).
Definition trace_of {A : Type} (r : A * BigMainApp * list Event) : list Event := snd r.
Definition value_of {A : Type} (r : A * BigMainApp * list Event) : A := fst (fst r).

Definition option_eqb {A : Type} (eqb : A -> A -> bool) (x y : option A) : bool :=
  match x, y with
  | Some a, Some b => eqb a b
  | None, None => true
  | _, _ => false
  end.

Definition is_some {A : Type} (o : option A) : bool :=
  match o with Some _ => true | None => false end.

(** ** robot_hardware.py *)

(** Modelled from the spec: the hardware handle ([Raspbot_Lib] and
    [McLumk_Wheel_Sports] are not among the sources).  [setLED] switches all
    LEDs on with a colour index or off, [motorStop] halts the motors,
    [setIRReceiver] enables or disables the IR receiver.  big_main.py imports
    [Raspbot_Lib] unconditionally, so [robot_hardware.bot] is a real handle
    whenever the coordinator runs. *)
Definition Ctrl_WQ2812_ALL (on color_index : Z) : M unit :=
  modify (fun s =>
    set_bot {| ir_switch := ir_switch (bot s);
               led := match on with 0 => None | _ => Some color_index end;
               motors_moving := motors_moving (bot s) |} s) ;;
  emit (LedAll on color_index).

(** Modelled from the spec: [setIRReceiver(enabled)] of the hardware handle. *)
Definition Ctrl_IR_Switch (on : Z) : M unit :=
  modify (fun s =>
    set_bot {| ir_switch := match on with 0 => false | _ => true end;
               led := led (bot s);
               motors_moving := motors_moving (bot s) |} s) ;;
  emit (IRSwitch on).

(** Modelled from the spec: [motorStop()] of the hardware handle
    ([stop] of [McLumk_Wheel_Sports], imported as [motor_stop]). *)
Definition motor_stop : M unit :=
  modify (fun s =>
    set_bot {| ir_switch := ir_switch (bot s);
               led := led (bot s);
               motors_moving := false |} s) ;;
  emit MotorStop.

Definition EMOTION_LED_MAP : list (string * Z) :=
  [("happy", 1); ("neutral", 2); ("angry", 0); ("shy", 4); ("confused", 3); ("scared", 0)].

(** [d.get(key, default)] on a dict written as an association list. *)
Fixpoint dict_get (d : list (string * Z)) (key : string) (default : Z) : Z :=
  match d with
  | [] => default
  | (k, v) :: rest => if String.eqb k key then v else dict_get rest key default
  end.

(** [set_emotion_led] and [turn_off_led] as big_main.py runs them, with the
    hardware handle: their test [if bot:] holds, since big_main.py imports
    [Raspbot_Lib] itself and does not start without it.  The function with
    its test is [set_emotion_led_of] below.  The console line of
    [set_emotion_led], which formats the colour index, is left out of the
    trace. *)
Definition set_emotion_led (emotion : string) : M unit :=
  let color_index := dict_get EMOTION_LED_MAP emotion (dict_get EMOTION_LED_MAP "neutral" 0) in
  Ctrl_WQ2812_ALL 1 color_index.

Definition turn_off_led : M unit :=
  Ctrl_WQ2812_ALL 0 0 ;;
  emit (Print "LEDs turned off.").

Definition trigger_beep : M unit := emit Beep.

(** ** face_gui.py *)

Definition root_withdraw : M unit :=
  modify (fun s =>
    set_root {| withdrawn := true;
                after_queue := after_queue (root s);
                destroyed := destroyed (root s) |} s).

Definition root_deiconify : M unit :=
  modify (fun s =>
    set_root {| withdrawn := false;
                after_queue := after_queue (root s);
                destroyed := destroyed (root s) |} s).

Definition root_after (ms : Z) (cb : Callback) : M unit :=
  modify (fun s =>
    set_root {| withdrawn := withdrawn (root s);
                after_queue := after_queue (root s) ++ [(ms, cb)];
                destroyed := destroyed (root s) |} s) ;;
  emit (After ms cb).

Definition face_set_emotion (emotion : string) : M unit :=
  modify (fun s =>
    set_face_app {| current_emotion := emotion;
                    animation_active := animation_active (face_app s);
                    suppress_initial_greeting := suppress_initial_greeting (face_app s) |} s) ;;
  emit (FaceEmotion emotion).

Definition face_suspend : M unit :=
  modify (fun s =>
    set_face_app {| current_emotion := current_emotion (face_app s);
                    animation_active := false;
                    suppress_initial_greeting := suppress_initial_greeting (face_app s) |} s) ;;
  root_withdraw ;;
  emit FaceSuspend.

Definition face_resume : M unit :=
  root_deiconify ;;
  emit FaceResume.

(** ** The camera manager *)

(** Modelled from the spec: the camera backend ([CameraLib.camera_master_lib]
    is not among the sources).  Each sub-detector is started and stopped
    independently; stopping one that does not run is a safe no-op;
    a start that raises leaves the detector stopped. *)
Definition new_camera : CameraMaster :=
  {| cam_device_open := true; cam_color := None; cam_face := false;
     cam_gesture := None; cam_object := false; cam_plate := false |}.

(** Modelled from the spec: the [stopX()] calls of the camera backend. *)
Definition camera_stop (d : Detector) (c : CameraMaster) : CameraMaster :=
  let 'mkCamera dev col fc ges obj plt := c in
  match d with
  | color_tracking => mkCamera dev None fc ges obj plt
  | face_tracking => mkCamera dev col false ges obj plt
  | gesture_following => mkCamera dev col fc None obj plt
  | object_recognition => mkCamera dev col fc ges false plt
  | license_plate_recognition => mkCamera dev col fc ges obj false
  end.

Definition stop_detector (d : Detector) : M unit :=
  modify (fun s =>
    match camera s with
    | Some c => set_camera (Some (camera_stop d c)) s
    | None => s
    end) ;;
  emit (DetectorStop d).

(** Modelled from the spec: [releaseAll()] of the camera backend, every
    detector stopped and the device handle released. *)
Definition release_all : M unit :=
  modify (fun s =>
    match camera s with
    | Some c =>
        set_camera (Some {| cam_device_open := false; cam_color := None;
                            cam_face := false; cam_gesture := None;
                            cam_object := false; cam_plate := false |}) s
    | None => s
    end) ;;
  emit CameraReleaseAll.

(** Modelled from the spec: the [startX(...)] calls of the camera backend,
    as they stand inside [try: assert self.camera is not None; ...]; the call
    returns [true] when the body of the [try] goes on, [false] when the
    [except] branch is taken.  A call that raises is taken to leave the
    camera object as it was, with no detector started. *)
Definition start_detector (d : Detector) (started_camera : CameraMaster -> CameraMaster) : M bool :=
  s <- get ;;
  match camera s with
  | None => ret false
  | Some c =>
      ok <- ask det_ok ;;
      emit (DetectorStart d ok) ;;
      if ok then modify (set_camera (Some (started_camera c))) ;; ret true
      else ret false
  end.

Definition start_color_tracking (color_name : string) : M bool :=
  start_detector color_tracking
    (fun '(mkCamera dev _ fc ges obj plt) => mkCamera dev (Some color_name) fc ges obj plt).
Definition start_face_tracking : M bool :=
  start_detector face_tracking
    (fun '(mkCamera dev col _ ges obj plt) => mkCamera dev col true ges obj plt).
Definition start_gesture_following (enable_actions : bool) : M bool :=
  start_detector gesture_following
    (fun '(mkCamera dev col fc _ obj plt) => mkCamera dev col fc (Some enable_actions) obj plt).
Definition start_object_recognition : M bool :=
  start_detector object_recognition
    (fun '(mkCamera dev col fc ges _ plt) => mkCamera dev col fc ges true plt).
Definition start_license_plate_recognition : M bool :=
  start_detector license_plate_recognition
    (fun '(mkCamera dev col fc ges obj _) => mkCamera dev col fc ges obj true).

Definition detectors_stopped (c : CameraMaster) : bool :=
  negb (is_some (cam_color c)) && negb (cam_face c) && negb (is_some (cam_gesture c))
  && negb (cam_object c) && negb (cam_plate c).

(** ** big_main.py: worker control *)

Definition w_set_thread (v : option WorkerName) (w : Worker) : Worker :=
  mkWorker v (stop_event w) (started w).
Definition w_set_stop_event (v : option bool) (w : Worker) : Worker :=
  mkWorker (thread w) v (started w).
Definition w_set_started (v : bool) (w : Worker) : Worker :=
  mkWorker (thread w) (stop_event w) v.

(** [request_stop(stop_event)] of chatbot_logic.py and rock_paper_scissors.py
    (the one of presentation_sequence.py is taken to be the same): sets the
    event when there is one. *)
Definition request_stop (w : WorkerName) (ev : option bool) : M (option bool) :=
  match ev with
  | Some _ => emit (RequestStop w) ;; ret (Some true)
  | None => ret None
  end.

(** [if thread: thread.join(timeout=2.0)]. *)
Definition join_thread (w : WorkerName) (th : option WorkerName) : M unit :=
  match th with
  | Some _ => j <- ask (fun env => join_in_time env w) ;; emit (ThreadJoin w j)
  | None => skip
  end.

Definition _start_chatbot_if_needed (suppress_greeting : bool) : M unit :=
  s <- get ;;
  if ai_enabled s && negb (started (chatbot s)) then
    modify (fun s => set_chatbot (w_set_stop_event (Some false) (chatbot s)) s) ;;
    modify (fun s => set_chatbot (w_set_thread (Some ChatbotThread) (chatbot s)) s) ;;
    emit (ThreadStart ChatbotThread) ;;
    modify (fun s => set_chatbot (w_set_started true (chatbot s)) s) ;;
    emit (Print "[AI] Chatbot thread launched.")
  else if negb (ai_enabled s) then
    emit (Print "[AI] Chatbot remains disabled.")
  else skip.

Definition _stop_chatbot_if_running : M unit :=
  s <- get ;;
  when (started (chatbot s) && is_some (stop_event (chatbot s))) (
    emit (Print "[AI] Stopping chatbot thread...") ;;
    ev <- request_stop ChatbotThread (stop_event (chatbot s)) ;;
    modify (fun s => set_chatbot (w_set_stop_event ev (chatbot s)) s) ;;
    join_thread ChatbotThread (thread (chatbot s)) ;;
    modify (fun s => set_chatbot (w_set_started false (chatbot s)) s) ;;
    modify (fun s => set_chatbot (w_set_thread None (chatbot s)) s) ;;
    modify (fun s => set_chatbot (w_set_stop_event None (chatbot s)) s) ;;
    emit (Print "[AI] Chatbot stopped.")).

Definition _stop_rps_if_running : M unit :=
  s <- get ;;
  when (started (rps_game s) && is_some (stop_event (rps_game s))) (
    emit (Print "[RPS] Stopping Rock Paper Scissors game...") ;;
    ev <- request_stop RPSGameThread (stop_event (rps_game s)) ;;
    modify (fun s => set_rps_game (w_set_stop_event ev (rps_game s)) s) ;;
    join_thread RPSGameThread (thread (rps_game s)) ;;
    modify (fun s => set_rps_game (w_set_started false (rps_game s)) s) ;;
    modify (fun s => set_rps_game (w_set_thread None (rps_game s)) s) ;;
    modify (fun s => set_rps_game (w_set_stop_event None (rps_game s)) s) ;;
    s <- get ;;
    when (option_eqb Mode_eqb (active_mode s) (Some rps)
          || option_eqb Mode_eqb (active_mode s) (Some gesture))
      (modify (set_active_mode None)) ;;
    emit (Print "[RPS] Rock Paper Scissors game stopped.")).

Definition _stop_presentation_if_running : M unit :=
  s <- get ;;
  when (started (presentation_w s) && is_some (stop_event (presentation_w s))) (
    emit (Print "[Presentation] Stopping presentation...") ;;
    ev <- request_stop PresentationThread (stop_event (presentation_w s)) ;;
    modify (fun s => set_presentation_w (w_set_stop_event ev (presentation_w s)) s) ;;
    join_thread PresentationThread (thread (presentation_w s)) ;;
    modify (fun s => set_presentation_w (w_set_started false (presentation_w s)) s) ;;
    modify (fun s => set_presentation_w (w_set_thread None (presentation_w s)) s) ;;
    modify (fun s => set_presentation_w (w_set_stop_event None (presentation_w s)) s) ;;
    s <- get ;;
    when (option_eqb Mode_eqb (active_mode s) (Some presentation))
      (modify (set_active_mode None)) ;;
    emit (Print "[Presentation] Presentation stopped.")).

(** ** big_main.py: lazy ensures *)

Definition _kill_camera_processes : M unit := emit KillCameraProcesses.

Definition _ensure_camera : M bool :=
  s <- get ;;
  when (negb (_camera_initialized s)) (
    _kill_camera_processes ;;
    ok <- ask cam_ok ;;
    emit (CameraCreate ok) ;;
    if ok then
      modify (set_camera (Some new_camera)) ;;
      modify (set_camera_initialized true) ;;
      emit (Print "[LAZY] Camera subsystem initialized.")
    else
      emit Traceback ;;
      emit (Print "[ERROR] Could not initialize camera.") ;;
      modify (set_camera None) ;;
      modify (set_camera_initialized false)) ;;
  gets (fun s => is_some (camera s)).

Definition _ensure_animations : M unit :=
  s <- get ;;
  when (negb (_animations_started s)) (
    ok <- ask anim_ok ;;
    emit (AnimationLoops ok) ;;
    if ok then
      modify (set_animations_started true) ;;
      emit (Print "[LAZY] Face animations started.")
    else
      emit Traceback ;;
      emit (Print "[WARN] Could not start animations.")).

(** ** big_main.py: mode management *)

Definition _print_help : M unit := emit PrintHelp.

Definition _stop_all_camera_modes : M unit :=
  emit (Print "[MODE] Stopping all camera modes...") ;;
  s <- get ;;
  when (started (rps_game s)) _stop_rps_if_running ;;
  s <- get ;;
  when (started (presentation_w s)) _stop_presentation_if_running ;;
  s <- get ;;
  when (is_some (camera s)) (
    stop_detector color_tracking ;;
    stop_detector face_tracking ;;
    stop_detector gesture_following ;;
    stop_detector object_recognition ;;
    stop_detector license_plate_recognition) ;;
  modify (set_active_mode None) ;;
  modify (set_active_color None) ;;
  motor_stop ;;
  turn_off_led ;;
  s <- get ;;
  when (ai_enabled s) (face_set_emotion "neutral") ;;
  s <- get ;;
  when (negb (ai_enabled s)) (
    face_suspend ;;
    emit (Print "[MODE] Face GUI suspended.")) ;;
  emit (Print "[MODE] All camera modes stopped.") ;;
  _print_help.

(** The swap, process, cache and module housekeeping of
    [_start_ai_components] only talks to the operating system; it is one
    [MemoryCleanup] effect, and the window withdrawal inside it is kept.
    The function asks Tk twice to process its events in the middle of its
    work, with [self.root.tk.call('update')] and [self.root.update()]: here
    both calls find no callback that is due.  A callback that runs inside
    them (a queued [_toggle_ai], say) is a handler that overlaps this one,
    and this definition does not describe such a run. *)
Definition _start_ai_components : M unit :=
  emit (Print "[AI] Freeing up system memory for AI...") ;;
  emit MemoryCleanup ;;
  root_withdraw ;;
  emit (Print "[AI] Starting AI components with maximum available memory...") ;;
  emit PreloadModel ;;
  modify (fun s =>
    set_face_app {| current_emotion := current_emotion (face_app s);
                    animation_active := animation_active (face_app s);
                    suppress_initial_greeting :=
                      match suppress_initial_greeting (face_app s) with
                      | None => Some false
                      | Some _ => Some true
                      end |} s) ;;
  emit (Print "[AI] Starting chatbot thread (model already loaded)...") ;;
  s <- get ;;
  _start_chatbot_if_needed
    (match suppress_initial_greeting (face_app s) with Some b => b | None => false end) ;;
  emit (Sleep 500) ;;
  emit (Print "[AI] Starting face animations...") ;;
  _ensure_animations ;;
  emit (Print "[AI] Restoring GUI...") ;;
  root_deiconify ;;
  face_resume ;;
  face_set_emotion "happy" ;;
  set_emotion_led "happy".

Definition _release_camera_completely : M unit :=
  emit (Print "[CAMERA] Releasing camera completely...") ;;
  s <- get ;;
  when (started (rps_game s)) _stop_rps_if_running ;;
  s <- get ;;
  when (started (presentation_w s)) _stop_presentation_if_running ;;
  modify (set_camera_shutting_down true) ;;
  s <- get ;;
  when (is_some (camera s)) (
    emit (Print "Stopping camera modes...") ;;
    stop_detector color_tracking ;;
    emit (Print "Color tracker stopped") ;;
    stop_detector face_tracking ;;
    emit (Print "Face tracker stopped") ;;
    stop_detector gesture_following ;;
    emit (Print "Gesture tracker stopped") ;;
    stop_detector object_recognition ;;
    emit (Print "Object recognition stopped") ;;
    stop_detector license_plate_recognition ;;
    emit (Print "License plate recognition stopped") ;;
    emit (Sleep 300) ;;
    emit (Print "Releasing camera resources...") ;;
    release_all ;;
    emit (Print "Camera resources released")) ;;
  modify (set_camera None) ;;
  modify (set_camera_initialized false) ;;
  modify (set_active_mode None) ;;
  modify (set_active_color None) ;;
  modify (set_camera_shutting_down false) ;;
  motor_stop ;;
  turn_off_led ;;
  s <- get ;;
  when (ai_enabled s) (face_set_emotion "neutral") ;;
  emit GarbageCollect ;;
  s <- get ;;
  when (ai_enabled s) (
    emit (Print "[MEMORY] Aggressive memory cleanup for AI startup...") ;;
    emit MemoryCleanup) ;;
  emit (Print "[CAMERA] Camera completely released and memory freed.") ;;
  s <- get ;;
  when (ai_enabled s) _start_ai_components.

Definition _toggle_ai : M unit :=
  modify (fun s => set_ai_enabled (negb (ai_enabled s)) s) ;;
  s <- get ;;
  if ai_enabled s then
    emit (Print "[AI] Enabling AI - releasing camera if active and starting face/chatbot...") ;;
    s <- get ;;
    when (started (rps_game s)) _stop_rps_if_running ;;
    s <- get ;;
    when (started (presentation_w s)) _stop_presentation_if_running ;;
    s <- get ;;
    if is_some (camera s) || _camera_initialized s then
      root_after 10 cb_release_camera_completely
    else
      _start_ai_components
  else
    emit (Print "[AI] Disabling AI - stopping face/chatbot only...") ;;
    _stop_chatbot_if_running ;;
    face_suspend ;;
    face_set_emotion "neutral" ;;
    turn_off_led.

(** [str.lower()] on the ASCII letters. *)
Definition ascii_lower (c : ascii) : ascii :=
  let n := nat_of_ascii c in
  if (Nat.leb 65 n && Nat.leb n 90)%bool then ascii_of_nat (n + 32) else c.

Fixpoint lower (s : string) : string :=
  match s with
  | EmptyString => EmptyString
  | String c r => String (ascii_lower c) (lower r)
  end.

Definition camera_refusal : string :=
  "[MODE] Cannot start camera modes while AI or Presentation is enabled. Disable AI first.".

Definition color_index_map : list (string * Z) :=
  [("red", 0); ("green", 1); ("blue", 2); ("yellow", 3)].

Definition _start_color_mode (color_name : string) : M unit :=
  s <- get ;;
  if ai_enabled s || started (presentation_w s) then
    emit (Print camera_refusal)
  else
    when (negb (option_eqb Mode_eqb (active_mode s) (Some color))
          || negb (option_eqb String.eqb (active_color s) (Some color_name))) (
      _stop_all_camera_modes ;;
      emit (Print ("[MODE] Starting color tracking: " ++ color_name)%string) ;;
      ok <- _ensure_camera ;;
      if negb ok then
        emit (Print "[ERROR] Camera unavailable.")
      else
        running <- start_color_tracking color_name ;;
        if running then
          modify (set_active_mode (Some color)) ;;
          modify (set_active_color (Some color_name)) ;;
          s <- get ;;
          when (ai_enabled s) (face_set_emotion "happy") ;;
          Ctrl_WQ2812_ALL 1 (dict_get color_index_map (lower color_name) 6)
        else
          emit Traceback ;;
          emit (Print "[ERROR] Could not start color tracking.")).

Definition _start_face_mode : M unit :=
  s <- get ;;
  if ai_enabled s || started (presentation_w s) then
    emit (Print camera_refusal)
  else
    when (negb (option_eqb Mode_eqb (active_mode s) (Some face))) (
      _stop_all_camera_modes ;;
      emit (Print "[MODE] Starting face tracking & recognition") ;;
      ok <- _ensure_camera ;;
      if negb ok then
        emit (Print "[ERROR] Camera unavailable.")
      else
        running <- start_face_tracking ;;
        if running then
          modify (set_active_mode (Some face)) ;;
          s <- get ;;
          when (ai_enabled s) (face_set_emotion "happy") ;;
          set_emotion_led "happy"
        else
          emit Traceback ;;
          emit (Print "[ERROR] Could not start face mode.")).

Definition _start_gesture_mode : M unit :=
  s <- get ;;
  if ai_enabled s || started (presentation_w s) then
    emit (Print camera_refusal)
  else
    when (negb (option_eqb Mode_eqb (active_mode s) (Some gesture))) (
      _stop_all_camera_modes ;;
      emit (Print "[MODE] Starting gesture following") ;;
      ok <- _ensure_camera ;;
      if negb ok then
        emit (Print "[ERROR] Camera unavailable.")
      else
        running <- start_gesture_following true ;;
        if running then
          modify (set_active_mode (Some gesture)) ;;
          s <- get ;;
          when (ai_enabled s) (face_set_emotion "happy") ;;
          set_emotion_led "happy"
        else
          emit Traceback ;;
          emit (Print "[ERROR] Could not start gesture mode.")).

Definition _start_object_mode : M unit :=
  s <- get ;;
  if ai_enabled s || started (presentation_w s) then
    emit (Print camera_refusal)
  else
    when (negb (option_eqb Mode_eqb (active_mode s) (Some object))) (
      _stop_all_camera_modes ;;
      emit (Print "[MODE] Starting object recognition") ;;
      ok <- _ensure_camera ;;
      if negb ok then
        emit (Print "[ERROR] Camera unavailable.")
      else
        m_ok <- ask model_ok ;;
        l_ok <- ask labels_ok ;;
        if negb (m_ok && l_ok) then
          emit (Print "[ERROR] Object model resources missing.") ;;
          when (negb m_ok) (emit (Print "  Missing model: frozen_inference_graph.pb")) ;;
          when (negb l_ok) (emit (Print "  Missing label map: mscoco_label_map.pbtxt")) ;;
          emit (Print "  Expected directory layout:") ;;
          emit (Print "    04.Tensorflow_object_recognition/") ;;
          emit (Print "      ssdlite_mobilenet_v2_coco_2018_05_09/frozen_inference_graph.pb") ;;
          emit (Print "      data/mscoco_label_map.pbtxt") ;;
          emit (Print "  Download COCO SSD Lite model from:") ;;
          emit (Print "    https://github.com/tensorflow/models/blob/master/research/object_detection/g3doc/tf1_detection_zoo.md") ;;
          emit (Print "  (Note: heavy for Raspberry Pi; consider skipping object mode.)")
        else
          running <- start_object_recognition ;;
          if running then
            modify (set_active_mode (Some object)) ;;
            s <- get ;;
            when (ai_enabled s) (face_set_emotion "neutral") ;;
            set_emotion_led "neutral"
          else
            emit Traceback ;;
            emit (Print "[ERROR] Could not start object recognition.")).

Definition _start_plate_mode : M unit :=
  s <- get ;;
  if ai_enabled s || started (presentation_w s) then
    emit (Print camera_refusal)
  else
    when (negb (option_eqb Mode_eqb (active_mode s) (Some plate))) (
      _stop_all_camera_modes ;;
      emit (Print "[MODE] Starting license plate recognition") ;;
      ok <- _ensure_camera ;;
      if negb ok then
        emit (Print "[ERROR] Camera unavailable.")
      else
        running <- start_license_plate_recognition ;;
        if running then
          modify (set_active_mode (Some plate)) ;;
          s <- get ;;
          when (ai_enabled s) (face_set_emotion "neutral") ;;
          set_emotion_led "neutral"
        else
          emit Traceback ;;
          emit (Print "[ERROR] Could not start license plate mode.")).

Definition rps_refusal : string :=
  "[MODE] Cannot start RPS game while AI or Presentation is enabled. Disable AI first.".

Definition _start_rps_if_needed : M unit :=
  s <- get ;;
  if ai_enabled s || started (presentation_w s) then
    emit (Print rps_refusal)
  else
    when (negb (started (rps_game s))) (
      _stop_all_camera_modes ;;
      ok <- _ensure_camera ;;
      if negb ok then
        emit (Print "[RPS] Cannot start game - camera unavailable.")
      else
        running <- start_gesture_following false ;;
        (if running then modify (set_active_mode (Some gesture))
         else emit (Print "[RPS] Warning: Could not start gesture following")) ;;
        _ensure_animations ;;
        face_resume ;;
        emit (Print "[RPS] Face GUI resumed.") ;;
        modify (fun s => set_rps_game (w_set_stop_event (Some false) (rps_game s)) s) ;;
        modify (fun s => set_rps_game (w_set_thread (Some RPSGameThread) (rps_game s)) s) ;;
        emit (ThreadStart RPSGameThread) ;;
        modify (fun s => set_rps_game (w_set_started true (rps_game s)) s) ;;
        modify (set_active_mode (Some rps)) ;;
        emit (Print "[RPS] Rock Paper Scissors game thread launched.")).

Definition presentation_refusal : string :=
  "[MODE] Cannot start presentation while AI or RPS is active.".

Definition _start_presentation_mode : M unit :=
  s <- get ;;
  if ai_enabled s || started (rps_game s) then
    emit (Print presentation_refusal)
  else if started (presentation_w s) then
    emit (Print "[MODE] Presentation already running.")
  else
    _stop_all_camera_modes ;;
    _ensure_animations ;;
    face_resume ;;
    emit (Print "[Presentation] Face GUI resumed.") ;;
    modify (fun s => set_presentation_w (w_set_stop_event (Some false) (presentation_w s)) s) ;;
    modify (fun s => set_presentation_w (w_set_thread (Some PresentationThread) (presentation_w s)) s) ;;
    emit (ThreadStart PresentationThread) ;;
    modify (fun s => set_presentation_w (w_set_started true (presentation_w s)) s) ;;
    modify (set_active_mode (Some presentation)) ;;
    emit (Print "[Presentation] Presentation thread launched.").

(** ** big_main.py: shutdown *)

Definition shutdown : M unit :=
  s <- get ;;
  if _stop_flag s then skip
  else
    emit (Print "[SYS] Shutting down...") ;;
    modify (set_stop_flag true) ;;
    Ctrl_IR_Switch 0 ;;
    _stop_chatbot_if_running ;;
    _stop_presentation_if_running ;;
    _stop_rps_if_running ;;
    _stop_all_camera_modes ;;
    s <- get ;;
    when (is_some (camera s)) release_all ;;
    motor_stop ;;
    turn_off_led ;;
    root_after 10 cb_destroy ;;
    emit (Print "[SYS] Shutdown complete.").

(** ** big_main.py: the IR input router *)

Definition _handle_ir_code (cfg : Config) (code : Z) : M unit :=
  (if code =? IR_COLOR_RED cfg then _start_color_mode "red"
   else if code =? IR_COLOR_BLUE cfg then _start_color_mode "blue"
   else if code =? IR_COLOR_GREEN cfg then _start_color_mode "green"
   else if code =? IR_COLOR_YELLOW cfg then _start_color_mode "yellow"
   else if code =? IR_FACE_MODE cfg then _start_face_mode
   else if code =? IR_GESTURE_MODE cfg then _start_gesture_mode
   else if code =? IR_OBJECT_MODE cfg then _start_object_mode
   else if code =? IR_PLATE_MODE cfg then _start_plate_mode
   else if code =? IR_RPS_GAME cfg then root_after 0 cb_start_rps_if_needed
   else if code =? IR_PRESENTATION cfg then root_after 0 cb_start_presentation_mode
   else if code =? IR_AI_TOGGLE cfg then root_after 0 cb_toggle_ai
   else if code =? IR_STOP_ALL cfg then root_after 10 cb_release_camera_completely
   else if code =? IR_EXIT_APP cfg then
     emit (Print "[IR] Exit command received.") ;;
     shutdown
   else
     when (IR_DEBUG cfg) (emit (LogUnmapped code))) ;;
  trigger_beep.

(** What [self.bot.read_data_array(0x0c, 1)] gives in one iteration: it
    raises, or it returns [data]; [None] stands for a result that is not a
    list. *)
Inductive IRRead : Type :=
  | read_raises
  | read_returns (data : option (list Z)).

Definition Qltb (x y : Q) : bool := negb (Qle_bool y x).

(** One iteration of the [while] loop of [_ir_loop]; [now] is [time.time()]. *)
Definition _ir_iteration (cfg : Config) (r : IRRead) (now : Q) : M unit :=
  match r with
  | read_raises => emit (Sleep 100)
  | read_returns (Some (code :: _)) =>
      if negb (code =? 0) && (code <? 0xFF) then
        s <- get ;;
        if negb (IR_DEBUG cfg)
           && ((code =? _last_ir_code s)
               && Qltb (now - _last_ir_time s) (IR_DEBOUNCE_SEC cfg)) then
          emit (Sleep 50)
        else
          modify (set_last_ir_code code) ;;
          modify (set_last_ir_time now) ;;
          emit (LogIRCode code) ;;
          _handle_ir_code cfg code ;;
          emit (Sleep 50)
      else
        emit (Sleep 50)
  | read_returns _ => emit (Sleep 50)
  end.

(** The loop, driven by what the receiver, the clock and the environment
    deliver in each iteration; it ends when the stop flag is set. *)
Fixpoint _ir_loop_from (cfg : Config) (inputs : list (IRRead * Q * Env)) : M unit :=
  match inputs with
  | [] => skip
  | (r, now, env) :: rest =>
      s <- get ;;
      if _stop_flag s then skip
      else
        (fun _ s => _ir_iteration cfg r now env s) ;;
        _ir_loop_from cfg rest
  end.

Definition _ir_loop (cfg : Config) (inputs : list (IRRead * Q * Env)) : M unit :=
  emit (Print "[IR] Listening for IR codes...") ;;
  _ir_loop_from cfg inputs.

(** ** The Tk event loop *)

Definition root_destroy : M unit :=
  modify (fun s =>
    set_root {| withdrawn := withdrawn (root s);
                after_queue := after_queue (root s);
                destroyed := true |} s).

Definition run_callback (cb : Callback) : M unit :=
  match cb with
  | cb_start_rps_if_needed => _start_rps_if_needed
  | cb_start_presentation_mode => _start_presentation_mode
  | cb_toggle_ai => _toggle_ai
  | cb_release_camera_completely => _release_camera_completely
  | cb_destroy => root_destroy
  end.

Fixpoint remove_nth {A : Type} (i : nat) (l : list A) : list A :=
  match l, i with
  | [], _ => []
  | _ :: rest, O => rest
  | x :: rest, S j => x :: remove_nth j rest
  end.

(** One callback scheduled with [root.after] becomes due and runs.  Which
    of the pending callbacks runs next is left open: their delays differ and
    the IR thread schedules while the main thread runs. *)
Definition tk_run_pending (i : nat) : M unit :=
  s <- get ;;
  match nth_error (after_queue (root s)) i with
  | Some (_, cb) =>
      modify (fun s =>
        set_root {| withdrawn := withdrawn (root s);
                    after_queue := remove_nth i (after_queue (root s));
                    destroyed := destroyed (root s) |} s) ;;
      run_callback cb
  | None => skip
  end.

(** ** Runs of the application *)

(** The state [__init__] leaves: idle, no camera, no animations, AI off,
    face hidden, IR receiver on. *)
Definition init_app : BigMainApp := {|
  root := {| withdrawn := true; after_queue := []; destroyed := false |};
  face_app := {| current_emotion := "neutral"; animation_active := false;
                 suppress_initial_greeting := None |};
  camera := None;
  _camera_initialized := false;
  _camera_shutting_down := false;
  _animations_started := false;
  bot := {| ir_switch := true; led := None; motors_moving := false |};
  active_mode := None;
  active_color := None;
  ai_enabled := false;
  chatbot := {| thread := None; stop_event := None; started := false |};
  rps_game := {| thread := None; stop_event := None; started := false |};
  presentation_w := {| thread := None; stop_event := None; started := false |};
  _stop_flag := false;
  _last_ir_code := 0;
  _last_ir_time := 0%Q
|}.

(** The entry points of [BigMainApp] a run is made of. *)
Inductive Op : Type :=
  | op_start_color_mode (color_name : string)
  | op_start_face_mode
  | op_start_gesture_mode
  | op_start_object_mode
  | op_start_plate_mode
  | op_start_rps_if_needed
  | op_start_presentation_mode
  | op_toggle_ai
  | op_release_camera_completely
  | op_stop_all_camera_modes
  | op_start_chatbot_if_needed (suppress_greeting : bool)
  | op_stop_chatbot_if_running
  | op_stop_rps_if_running
  | op_stop_presentation_if_running
  | op_handle_ir_code (code : Z)
  | op_ir_iteration (r : IRRead) (now : Q)
  | op_tk_run_pending (i : nat)
  | op_shutdown.

Definition run_op (cfg : Config) (op : Op) : M unit :=
  match op with
  | op_start_color_mode c => _start_color_mode c
  | op_start_face_mode => _start_face_mode
  | op_start_gesture_mode => _start_gesture_mode
  | op_start_object_mode => _start_object_mode
  | op_start_plate_mode => _start_plate_mode
  | op_start_rps_if_needed => _start_rps_if_needed
  | op_start_presentation_mode => _start_presentation_mode
  | op_toggle_ai => _toggle_ai
  | op_release_camera_completely => _release_camera_completely
  | op_stop_all_camera_modes => _stop_all_camera_modes
  | op_start_chatbot_if_needed b => _start_chatbot_if_needed b
  | op_stop_chatbot_if_running => _stop_chatbot_if_running
  | op_stop_rps_if_running => _stop_rps_if_running
  | op_stop_presentation_if_running => _stop_presentation_if_running
  | op_handle_ir_code code => _handle_ir_code cfg code
  | op_ir_iteration r now => _ir_iteration cfg r now
  | op_tk_run_pending i => tk_run_pending i
  | op_shutdown => shutdown
  end.

(** The state after a sequence of operations, each with its environment.
    The operations run one at a time: each runs from its first line to its
    last before the next one starts, and the states [run_ops] reaches are
    the states between two of them.  The source does not enforce this: the
    camera-mode handlers run on the IR thread, the scheduled callbacks on the
    Tk thread, and there is no lock.  A handler that overlaps another one is
    described apart, by [face_request_overlapping]. *)
Definition run_ops (cfg : Config) (ops : list (Op * Env)) (s : BigMainApp) : BigMainApp :=
  fold_left (fun s oe => state_of (run_op cfg (fst oe) (snd oe) s)) ops s.

(** The requests for a mode, with their parameters. *)
Inductive Request : Type :=
  | req_color (color_name : string)
  | req_face | req_gesture | req_object | req_plate | req_rps | req_presentation.

Definition requestMode (r : Request) : M unit :=
  match r with
  | req_color c => _start_color_mode c
  | req_face => _start_face_mode
  | req_gesture => _start_gesture_mode
  | req_object => _start_object_mode
  | req_plate => _start_plate_mode
  | req_rps => _start_rps_if_needed
  | req_presentation => _start_presentation_mode
  end.

Definition request_mode (r : Request) : Mode :=
  match r with
  | req_color _ => color | req_face => face | req_gesture => gesture
  | req_object => object | req_plate => plate | req_rps => rps
  | req_presentation => presentation
  end.

Definition env_all_ok : Env :=
  {| cam_ok := true; det_ok := true; anim_ok := true; model_ok := true;
     labels_ok := true; join_in_time := fun _ => true |}.

(** ** robot_hardware.py: the helper and its handle *)

(** [set_emotion_led] of robot_hardware.py with its test of the module
    global [bot]: [handle] says whether [Raspbot()] could be created when
    the module was loaded.  Without a handle the function only prints.
    [set_emotion_led] above is the case of a handle, the one big_main.py
    runs with. *)
Definition set_emotion_led_of (handle : bool) (emotion : string) : M unit :=
  if handle then set_emotion_led emotion
  else emit (Print ("Sim: LEDs set to emotion: " ++ emotion)).

(** ** big_main.py: the camera preview loop *)

(** [_camera_ui_loop], one run of the callback.  [frame] is what
    [self.camera.display_frame()] does: it raises ([None]) or returns a key
    code; 113 is [ord('q')].  The callback schedules itself with
    [root.after]; the result is the delay it asks for, [None] when it does
    not schedule itself again. *)
Definition _camera_ui_loop (frame : option Z) : M (option Z) :=
  s <- get ;;
  if negb (is_some (camera s)) || _camera_shutting_down s then
    if negb (_stop_flag s) then ret (Some 300) else ret None
  else if option_eqb Z.eqb frame (Some 113) then
    emit (Print "[KEY] q pressed - shutting down") ;;
    shutdown ;;
    ret None
  else
    s <- get ;;
    if negb (_stop_flag s) then ret (Some 50) else ret None.

(** ** big_main.py: a request that overlaps a scheduled callback *)

(** The camera-mode handlers run on the IR thread, the scheduled callbacks
    on the Tk thread, and nothing keeps the one from running while the other
    is in progress.  To say what such an overlap does, [_start_face_mode] is
    cut in two at a line boundary: from its first line to the line before
    the call of [_ensure_camera], where the result says whether the handler
    goes on, and from that call to its end. *)
Definition _start_face_mode_begin : M bool :=
  s <- get ;;
  if ai_enabled s || started (presentation_w s) then
    emit (Print camera_refusal) ;;
    ret false
  else if negb (option_eqb Mode_eqb (active_mode s) (Some face)) then
    _stop_all_camera_modes ;;
    emit (Print "[MODE] Starting face tracking & recognition") ;;
    ret true
  else ret false.

Definition _start_face_mode_end : M unit :=
  ok <- _ensure_camera ;;
  if negb ok then
    emit (Print "[ERROR] Camera unavailable.")
  else
    running <- start_face_tracking ;;
    if running then
      modify (set_active_mode (Some face)) ;;
      s <- get ;;
      when (ai_enabled s) (face_set_emotion "happy") ;;
      set_emotion_led "happy"
    else
      emit Traceback ;;
      emit (Print "[ERROR] Could not start face mode.").

(** The state reached when the Tk thread runs the handler [tk] from its
    first line to its last while the IR thread is inside [_start_face_mode],
    between the two parts. *)
Definition face_request_overlapping (tk : M unit) (env1 env2 env3 : Env) (s : BigMainApp)
    : BigMainApp :=
  state_of (_start_face_mode_end env3
              (state_of (tk env2 (state_of (_start_face_mode_begin env1 s))))).

(** ** rock_paper_scissors.py *)

Definition ROCK : Z := 0.
Definition PAPER : Z := 1.
Definition SCISSORS : Z := 2.

(** The result is told from the player's side: 'lose' is Marich's win. *)
Definition determine_winner (player_move marich_move : Z) : string :=
  if player_move =? marich_move then "draw"
  else if ((player_move =? PAPER) && (marich_move =? ROCK))
          || ((player_move =? ROCK) && (marich_move =? SCISSORS))
          || ((player_move =? SCISSORS) && (marich_move =? PAPER)) then "win"
  else "lose".

(** What [camera.get_gesture_detection()] does in one poll of the capture
    loop of [run_rps_game]. *)
Inductive Detection : Type :=
  | detection_attribute_error (fallback : Z)  (* AttributeError; [fallback] is
                                                 random.choice([ROCK, PAPER, SCISSORS]) *)
  | detection_raises                          (* any other exception *)
  | detection_none                            (* a falsy result: no hand *)
  | detection_gesture (name : string).        (* detection_result.gesture *)

(** One poll: the clock, the stop event and the detection. *)
Record Poll : Type := mkPoll {
  poll_now : Q;
  poll_stop : bool;
  poll_detection : Detection
}.

Definition capture_duration : Q := 2.0.

(** The capture loop of [run_rps_game] (step C), driven by what each poll
    delivers.  [Some r] is [player_move_result] when the loop has ended;
    [None] says that the loop still polls when the inputs end. *)
Fixpoint capture_move (start_capture_time : Q) (polls : list Poll) : option (option Z) :=
  match polls with
  | [] => None
  | p :: rest =>
      if negb (Qltb (poll_now p - start_capture_time) capture_duration) then Some None
      else if poll_stop p then Some None
      else
        match poll_detection p with
        | detection_attribute_error fallback => Some (Some fallback)
        | detection_raises => capture_move start_capture_time rest
        | d =>
            let gesture_name :=
              match d with detection_gesture name => name | _ => "none" end in
            if String.eqb gesture_name "Zero" || String.eqb gesture_name "One" then
              Some (Some ROCK)
            else if String.eqb gesture_name "Five" || String.eqb gesture_name "Four" then
              Some (Some PAPER)
            else if String.eqb gesture_name "Two" || String.eqb gesture_name "Three" then
              Some (Some SCISSORS)
            else capture_move start_capture_time rest
        end
  end.

(** Steps D and E of a round of [run_rps_game]: the result, the emotion
    scheduled for the face, and the targets of the threads started, in
    order. *)
Record Reaction : Type := mkReaction {
  reaction_result : string;
  reaction_emotion : option string;
  reaction_threads : list string
}.

Definition round_reaction (player_move_result : option Z) (marich_choice : Z) : Reaction :=
  match player_move_result with
  | None => mkReaction "draw" None []
  | Some player_move =>
      let result := determine_winner player_move marich_choice in
      if String.eqb result "lose" then
        mkReaction result (Some "happy") ["dance_routine"; "win_led_sequence"]
      else if String.eqb result "win" then
        mkReaction result (Some "angry") ["angry_movement"; "lose_led_sequence"]
      else
        mkReaction result (Some "neutral") []
  end.

(** ** chatbot_logic.py *)

(** One entry of [conversation_history]. *)
Record Message : Type := mkMessage {
  role : string;
  content : string
}.

Definition system_prompt : Message :=
  mkMessage "system"
    ("You are Marich, an AI assistant. Your response MUST be valid JSON, with keys 'text' and 'emotion'. "
     ++ "Rules for 'text': must be a single, short sentence. Plain words only. "
     ++ "Rules for 'emotion': must be one of 'neutral', 'happy', or 'angry'. "
     ++ "Act emotional - if insulted, respond with anger; if someone laughs, be happy.").

(** The module global [conversation_history] as the module is loaded. *)
Definition conversation_history : list Message := [system_prompt].

(** The keys of [Config.EMOTION_COLORS] of face_gui.py. *)
Definition EMOTION_COLORS_keys : list string :=
  ["neutral"; "happy"; "angry"; "shy"; "confused"; "scared"].

(** [l[-n:]] for a positive [n]. *)
Definition last_items {A : Type} (n : nat) (l : list A) : list A :=
  skipn (List.length l - n) l.

Definition double_quote : string := String (ascii_of_nat 34) EmptyString.

(** [json.dumps({'text': speech_text, 'emotion': emotion})] for texts
    without characters to escape. *)
Definition json_dumps_reply (speech_text emotion : string) : string :=
  "{" ++ double_quote ++ "text" ++ double_quote ++ ": "
  ++ double_quote ++ speech_text ++ double_quote ++ ", "
  ++ double_quote ++ "emotion" ++ double_quote ++ ": "
  ++ double_quote ++ emotion ++ double_quote ++ "}".

(** What the language model does in one turn: the client is not installed,
    the call or the parsing of its answer raises, or the answer is a JSON
    object of which [text] and [emotion] are the entries of these names,
    when present. *)
Inductive LLMReply : Type :=
  | llm_unavailable
  | llm_raises
  | llm_answers (message_content : string) (text emotion : option string).

(** The turn with the language model at the end of the loop body of
    [run_chatbot] (the part headed Chatbot LLM Logic): the new history, and
    the text and the emotion handed to [speak_and_animate]. *)
Definition llm_turn (text : string) (reply : LLMReply) (history : list Message)
    : list Message * string * string :=
  let history := history ++ [mkMessage "user" text] in
  let '(history, speech_text, emotion) :=
    match reply with
    | llm_unavailable =>
        (history ++ [mkMessage "assistant"
                       (json_dumps_reply "Chat model not installed." "angry")],
         "Chat model not installed.", "angry")
    | llm_answers message_content text emotion =>
        let speech_text :=
          match text with Some t => t | None => "I'm not sure how to respond." end in
        let emotion := lower (match emotion with Some e => e | None => "neutral" end) in
        let emotion :=
          if negb (existsb (String.eqb emotion) EMOTION_COLORS_keys) then "neutral"
          else emotion in
        (history ++ [mkMessage "assistant" message_content], speech_text, emotion)
    | llm_raises =>
        (history ++ [mkMessage "assistant"
                       (json_dumps_reply "I seem to have gotten my wires crossed." "angry")],
         "I seem to have gotten my wires crossed.", "angry")
    end in
  let history :=
    if (7 <? List.length history)%nat then
      match history with
      | first :: _ => [first] ++ last_items 6 history
      | [] => []
      end
    else history in
  (history, speech_text, emotion).

(** [needle in hay] on strings. *)
Fixpoint contains (needle hay : string) : bool :=
  match hay with
  | EmptyString => String.prefix needle hay
  | String _ rest => String.prefix needle hay || contains needle rest
  end.

(** The functions of [McLumk_Wheel_Sports] the voice commands call. *)
Inductive Motion : Type :=
  | move_forward | move_backward | move_right | move_left
  | rotate_right | rotate_left
  | move_diagonal_left_front | move_diagonal_right_front
  | move_diagonal_left_back | move_diagonal_right_back.

(** The dict [movement_commands], in insertion order, which is the order in
    which [.items()] yields it. *)
Definition movement_commands : list (string * Motion) :=
  [("move forward", move_forward); ("move back", move_backward);
   ("move backward", move_backward); ("move right", move_right);
   (" moveleft", move_left); ("turn right", rotate_right); ("turn left", rotate_left);
   ("move front left", move_diagonal_left_front);
   ("move front right", move_diagonal_right_front);
   ("move back left", move_diagonal_left_back);
   ("move back right", move_diagonal_right_back)].

(** The [for command, function in movement_commands.items()] loop: the
    first command contained in the utterance. *)
Fixpoint first_command (commands : list (string * Motion)) (user_command : string)
    : option (string * Motion) :=
  match commands with
  | [] => None
  | (command, function) :: rest =>
      if contains command user_command then Some (command, function)
      else first_command rest user_command
  end.

(** What [run_chatbot] does with a recognised utterance. *)
Inductive Handled : Type :=
  | handled_dance                                     (* dance_routine() *)
  | handled_patrol                                    (* car_patrol() *)
  | handled_stop                                      (* stop_car() *)
  | handled_help
  | handled_move (command : string) (function : Motion)   (* function(speed) *)
  | handled_goodbye
  | handled_chat.                                     (* the turn with the language model *)

(** The command handling of [run_chatbot], from [user_command = text.lower()]
    to the exact-match test for the goodbye words. *)
Definition handle_command (text : string) : Handled :=
  let user_command := lower text in
  if existsb (fun word => contains word user_command) ["dance"; "party"; "let's dance"] then
    handled_dance
  else if existsb (fun word => contains word user_command) ["move square"; "car patrol"] then
    handled_patrol
  else if contains "stop" user_command then handled_stop
  else if contains "help" user_command || contains "options" user_command then handled_help
  else
    match first_command movement_commands user_command with
    | Some (command, function) => handled_move command function
    | None =>
        if existsb (String.eqb user_command) ["goodbye"; "bye"; "by"; "exit"; "quit"] then
          handled_goodbye
        else handled_chat
    end.

(** The values of [high_five_state]: 'idle' and 'approached'. *)
Inductive HighFiveState : Type := hf_idle | hf_approached.

(** The locals of the listening loop the sensor checks use. *)
Record Listening : Type := mkListening {
  last_sensor_check_time : Q;
  high_five_state : HighFiveState;
  approached_time : Q
}.

(** What the sensors deliver in one pass of the listening loop: the clock,
    the two distance registers and the line tracker register; [None] is a
    read that raises, and a register read is falsy when it is [None] or an
    empty list. *)
Record Sensors : Type := mkSensors {
  sensor_now : Q;
  sensor_distance : option (option (list Z) * option (list Z));
  sensor_track : option (option (list Z))
}.

(** [distance_mm], with its default when a read fails. *)
Definition distance_of (data_H data_L : option (list Z)) : Z :=
  match data_H, data_L with
  | Some (diss_H :: _), Some (diss_L :: _) => Z.lor (Z.shiftl diss_H 8) diss_L
  | _, _ => 999
  end.

(** [(track & 0x0F) == 0x00], with the default of 0 when the read fails. *)
Definition picked_up (track_data : option (list Z)) : bool :=
  let track := match track_data with Some (track :: _) => track | _ => 0 end in
  Z.land track 0x0F =? 0x00.

(** What ends the listening loop from the sensor side. *)
Inductive SensorAction : Type := act_high_five | act_picked_up.

(** The high-five logic of one sensor check: the new state and whether
    the high five is announced. *)
Definition high_five_check (now : Q) (distance_mm : Z) (st : Listening) : Listening * bool :=
  match high_five_state st with
  | hf_idle =>
      if distance_mm <? 120 then
        (mkListening (last_sensor_check_time st) hf_approached now, false)
      else (st, false)
  | hf_approached =>
      if 170 <? distance_mm then
        if Qltb (now - approached_time st) 1.0 then
          (mkListening (last_sensor_check_time st) hf_idle (approached_time st), true)
        else
          (mkListening (last_sensor_check_time st) hf_idle (approached_time st), false)
      else if Qltb 1.5 (now - approached_time st) then
        (mkListening (last_sensor_check_time st) hf_idle (approached_time st), false)
      else (st, false)
  end.

(** The sensor checks of one pass of the listening loop of [run_chatbot];
    [bot] says whether the sensor handle could be created. *)
Definition sensor_checks (bot : bool) (x : Sensors) (st : Listening)
    : Listening * option SensorAction :=
  if bot && Qltb 0.1 (sensor_now x - last_sensor_check_time st) then
    let st := mkListening (sensor_now x) (high_five_state st) (approached_time st) in
    let '(st, fired) :=
      match sensor_distance x with
      | Some (data_H, data_L) => high_five_check (sensor_now x) (distance_of data_H data_L) st
      | None => (st, false)
      end in
    if fired then (st, Some act_high_five)
    else
      match sensor_track x with
      | Some track_data =>
          if picked_up track_data then (st, Some act_picked_up) else (st, None)
      | None => (st, None)
      end
  else (st, None).

(** The listening loop as far as the sensors go: the passes are made until
    a sensor action ends the loop.  The result is the action with the pass
    that triggered it and the state it was triggered in; [None] when the
    inputs end before any sensor action. *)
Fixpoint listen (bot : bool) (st : Listening) (passes : list Sensors)
    : option (SensorAction * Sensors * Listening) :=
  match passes with
  | [] => None
  | x :: rest =>
      match sensor_checks bot x st with
      | (st', Some action) => Some (action, x, st')
      | (st', None) => listen bot st' rest
      end
  end.

(** The locals as the listening loop is entered. *)
Definition listening_start : Listening := mkListening 0.0 hf_idle 0.0.

(** ** face_gui.py: touch, blinking and the animation loops *)

(** The two methods of [MarichFaceApp] that schedule themselves with
    [root.after]. *)
Inductive FaceCallback : Type := cb_idle_loop | cb_animation_loop.

(** [MarichFaceApp] with the state its own methods work on.  Of the canvas
    and its items only one fact is kept: whether [face_parts] holds a mouth,
    which is what [draw_face] decides and [_animate_mouth] asks. *)
Record FaceGui : Type := mkFaceGui {
  gui_current_emotion : string;
  gui_animation_active : bool;
  animation_step : Z;
  idle_step : Z;
  eyes_open : bool;
  blink_ticks_remaining : Z;
  next_blink_in : Z;
  touch_enabled : bool;
  pat_callback : bool;                    (* a callback is set *)
  tap_callback : bool;
  last_pat_time : Q;
  current_game_image : option string;     (* the path of the image shown *)
  image_cache : list string;              (* the paths loaded so far *)
  face_parts_mouth : bool;                (* face_parts has a 'mouth' item *)
  gui_withdrawn : bool;
  gui_after : list (Z * FaceCallback)     (* scheduled with root.after, not yet run *)
}.

Definition gui_set_emotion_field (v : string) (f : FaceGui) : FaceGui :=
  mkFaceGui v (gui_animation_active f) (animation_step f) (idle_step f) (eyes_open f)
    (blink_ticks_remaining f) (next_blink_in f) (touch_enabled f) (pat_callback f)
    (tap_callback f) (last_pat_time f) (current_game_image f) (image_cache f)
    (face_parts_mouth f) (gui_withdrawn f) (gui_after f).
Definition gui_set_animation_active (v : bool) (f : FaceGui) : FaceGui :=
  mkFaceGui (gui_current_emotion f) v (animation_step f) (idle_step f) (eyes_open f)
    (blink_ticks_remaining f) (next_blink_in f) (touch_enabled f) (pat_callback f)
    (tap_callback f) (last_pat_time f) (current_game_image f) (image_cache f)
    (face_parts_mouth f) (gui_withdrawn f) (gui_after f).
Definition gui_set_animation_step (v : Z) (f : FaceGui) : FaceGui :=
  mkFaceGui (gui_current_emotion f) (gui_animation_active f) v (idle_step f) (eyes_open f)
    (blink_ticks_remaining f) (next_blink_in f) (touch_enabled f) (pat_callback f)
    (tap_callback f) (last_pat_time f) (current_game_image f) (image_cache f)
    (face_parts_mouth f) (gui_withdrawn f) (gui_after f).
Definition gui_set_idle_step (v : Z) (f : FaceGui) : FaceGui :=
  mkFaceGui (gui_current_emotion f) (gui_animation_active f) (animation_step f) v
    (eyes_open f) (blink_ticks_remaining f) (next_blink_in f) (touch_enabled f)
    (pat_callback f) (tap_callback f) (last_pat_time f) (current_game_image f)
    (image_cache f) (face_parts_mouth f) (gui_withdrawn f) (gui_after f).
Definition gui_set_eyes_open (v : bool) (f : FaceGui) : FaceGui :=
  mkFaceGui (gui_current_emotion f) (gui_animation_active f) (animation_step f)
    (idle_step f) v (blink_ticks_remaining f) (next_blink_in f) (touch_enabled f)
    (pat_callback f) (tap_callback f) (last_pat_time f) (current_game_image f)
    (image_cache f) (face_parts_mouth f) (gui_withdrawn f) (gui_after f).
Definition gui_set_blink_ticks_remaining (v : Z) (f : FaceGui) : FaceGui :=
  mkFaceGui (gui_current_emotion f) (gui_animation_active f) (animation_step f)
    (idle_step f) (eyes_open f) v (next_blink_in f) (touch_enabled f) (pat_callback f)
    (tap_callback f) (last_pat_time f) (current_game_image f) (image_cache f)
    (face_parts_mouth f) (gui_withdrawn f) (gui_after f).
Definition gui_set_next_blink_in (v : Z) (f : FaceGui) : FaceGui :=
  mkFaceGui (gui_current_emotion f) (gui_animation_active f) (animation_step f)
    (idle_step f) (eyes_open f) (blink_ticks_remaining f) v (touch_enabled f)
    (pat_callback f) (tap_callback f) (last_pat_time f) (current_game_image f)
    (image_cache f) (face_parts_mouth f) (gui_withdrawn f) (gui_after f).
Definition gui_set_touch_enabled (v : bool) (f : FaceGui) : FaceGui :=
  mkFaceGui (gui_current_emotion f) (gui_animation_active f) (animation_step f)
    (idle_step f) (eyes_open f) (blink_ticks_remaining f) (next_blink_in f) v
    (pat_callback f) (tap_callback f) (last_pat_time f) (current_game_image f)
    (image_cache f) (face_parts_mouth f) (gui_withdrawn f) (gui_after f).
Definition gui_set_pat_callback (v : bool) (f : FaceGui) : FaceGui :=
  mkFaceGui (gui_current_emotion f) (gui_animation_active f) (animation_step f)
    (idle_step f) (eyes_open f) (blink_ticks_remaining f) (next_blink_in f)
    (touch_enabled f) v (tap_callback f) (last_pat_time f) (current_game_image f)
    (image_cache f) (face_parts_mouth f) (gui_withdrawn f) (gui_after f).
Definition gui_set_tap_callback (v : bool) (f : FaceGui) : FaceGui :=
  mkFaceGui (gui_current_emotion f) (gui_animation_active f) (animation_step f)
    (idle_step f) (eyes_open f) (blink_ticks_remaining f) (next_blink_in f)
    (touch_enabled f) (pat_callback f) v (last_pat_time f) (current_game_image f)
    (image_cache f) (face_parts_mouth f) (gui_withdrawn f) (gui_after f).
Definition gui_set_last_pat_time (v : Q) (f : FaceGui) : FaceGui :=
  mkFaceGui (gui_current_emotion f) (gui_animation_active f) (animation_step f)
    (idle_step f) (eyes_open f) (blink_ticks_remaining f) (next_blink_in f)
    (touch_enabled f) (pat_callback f) (tap_callback f) v (current_game_image f)
    (image_cache f) (face_parts_mouth f) (gui_withdrawn f) (gui_after f).
Definition gui_set_current_game_image (v : option string) (f : FaceGui) : FaceGui :=
  mkFaceGui (gui_current_emotion f) (gui_animation_active f) (animation_step f)
    (idle_step f) (eyes_open f) (blink_ticks_remaining f) (next_blink_in f)
    (touch_enabled f) (pat_callback f) (tap_callback f) (last_pat_time f) v (image_cache f)
    (face_parts_mouth f) (gui_withdrawn f) (gui_after f).
Definition gui_set_image_cache (v : list string) (f : FaceGui) : FaceGui :=
  mkFaceGui (gui_current_emotion f) (gui_animation_active f) (animation_step f)
    (idle_step f) (eyes_open f) (blink_ticks_remaining f) (next_blink_in f)
    (touch_enabled f) (pat_callback f) (tap_callback f) (last_pat_time f)
    (current_game_image f) v (face_parts_mouth f) (gui_withdrawn f) (gui_after f).
Definition gui_set_face_parts_mouth (v : bool) (f : FaceGui) : FaceGui :=
  mkFaceGui (gui_current_emotion f) (gui_animation_active f) (animation_step f)
    (idle_step f) (eyes_open f) (blink_ticks_remaining f) (next_blink_in f)
    (touch_enabled f) (pat_callback f) (tap_callback f) (last_pat_time f)
    (current_game_image f) (image_cache f) v (gui_withdrawn f) (gui_after f).
Definition gui_set_withdrawn (v : bool) (f : FaceGui) : FaceGui :=
  mkFaceGui (gui_current_emotion f) (gui_animation_active f) (animation_step f)
    (idle_step f) (eyes_open f) (blink_ticks_remaining f) (next_blink_in f)
    (touch_enabled f) (pat_callback f) (tap_callback f) (last_pat_time f)
    (current_game_image f) (image_cache f) (face_parts_mouth f) v (gui_after f).
Definition gui_set_after (v : list (Z * FaceCallback)) (f : FaceGui) : FaceGui :=
  mkFaceGui (gui_current_emotion f) (gui_animation_active f) (animation_step f)
    (idle_step f) (eyes_open f) (blink_ticks_remaining f) (next_blink_in f)
    (touch_enabled f) (pat_callback f) (tap_callback f) (last_pat_time f)
    (current_game_image f) (image_cache f) (face_parts_mouth f) (gui_withdrawn f) v.

(** What the touch handlers call. *)
Inductive TouchEvent : Type :=
  | PatCallback (current_time : Q)
  | TapCallback.

(** [self.root.after(ms, callback)]. *)
Definition gui_root_after (ms : Z) (cb : FaceCallback) (f : FaceGui) : FaceGui :=
  gui_set_after (gui_after f ++ [(ms, cb)]) f.

(** [draw_face]: with a game image set only the image is drawn and
    [face_parts] stays empty; otherwise the face is drawn, with a mouth for
    every emotion.  The forced redraw of the eyes keeps [eyes_open]. *)
Definition draw_face (f : FaceGui) : FaceGui :=
  gui_set_face_parts_mouth (negb (is_some (current_game_image f))) f.

(** [__init__]; [first_blink] is [random.randint(25, 80)]. *)
Definition face_init (first_blink : Z) : FaceGui :=
  draw_face {|
    gui_current_emotion := "neutral";
    gui_animation_active := false;
    animation_step := 0;
    idle_step := 0;
    eyes_open := true;
    blink_ticks_remaining := 0;
    next_blink_in := first_blink;
    touch_enabled := false;
    pat_callback := false;
    tap_callback := false;
    last_pat_time := 0;
    current_game_image := None;
    image_cache := [];
    face_parts_mouth := false;
    gui_withdrawn := false;
    gui_after := []
  |}.

Definition set_emotion (emotion : string) (f : FaceGui) : FaceGui :=
  if negb (String.eqb emotion (gui_current_emotion f)) then
    draw_face (gui_set_emotion_field emotion f)
  else f.

(** [_set_eyes_open(is_open)], without [force_redraw]. *)
Definition _set_eyes_open (is_open : bool) (f : FaceGui) : FaceGui :=
  if Bool.eqb (eyes_open f) is_open then f else gui_set_eyes_open is_open f.

(** [_animate_mouth]; the new coordinates of the mouth are on the canvas. *)
Definition _animate_mouth (f : FaceGui) : FaceGui :=
  if negb (face_parts_mouth f) then f
  else gui_set_animation_step ((animation_step f + 1) mod 20) f.

Definition _animation_loop (f : FaceGui) : FaceGui :=
  let f := if gui_animation_active f then _animate_mouth f else f in
  gui_root_after 25 cb_animation_loop f.

(** [_idle_loop]; [blink] is [random.randint(50, 150)], read when the eyes
    reopen.  The scrolling of the stars and the drift of the face are on
    the canvas. *)
Definition _idle_loop (blink : Z) (f : FaceGui) : FaceGui :=
  let f :=
    if negb (gui_animation_active f) then
      let f :=
        if 0 <? blink_ticks_remaining f then
          let f := gui_set_blink_ticks_remaining (blink_ticks_remaining f - 1) f in
          if blink_ticks_remaining f =? 0 then
            gui_set_next_blink_in blink (_set_eyes_open true f)
          else f
        else
          let f := gui_set_next_blink_in (next_blink_in f - 1) f in
          if next_blink_in f <=? 0 then
            _set_eyes_open false (gui_set_blink_ticks_remaining 3 f)
          else f in
      gui_set_idle_step (idle_step f + 1) f
    else f in
  gui_root_after 50 cb_idle_loop f.

Definition start_animation_loops (blink : Z) (f : FaceGui) : FaceGui :=
  _animation_loop (_idle_loop blink f).

(** [suspend]; [tk_ok] says that [root.withdraw()] returns instead of
    raising. *)
Definition suspend (tk_ok : bool) (f : FaceGui) : FaceGui :=
  let f := gui_set_animation_active false f in
  if tk_ok then gui_set_withdrawn true f else f.

(** [resume]; [tk_ok] says that [root.deiconify()] returns instead of
    raising. *)
Definition resume (tk_ok : bool) (blink : Z) (f : FaceGui) : FaceGui :=
  if tk_ok then _animation_loop (_idle_loop blink (gui_set_withdrawn false f)) else f.

Definition start_talking (f : FaceGui) : FaceGui :=
  let f := draw_face (gui_set_animation_active true f) in
  if negb (eyes_open f) then _set_eyes_open true f else f.

Definition stop_talking (f : FaceGui) : FaceGui :=
  draw_face (gui_set_animation_active false f).

(** [display_game_image]; [loaded] says that the image file could be
    opened and resized. *)
Definition display_game_image (image_path : string) (loaded : bool) (f : FaceGui) : FaceGui :=
  if negb (existsb (String.eqb image_path) (image_cache f)) then
    if loaded then
      draw_face (gui_set_current_game_image (Some image_path)
                   (gui_set_image_cache (image_cache f ++ [image_path]) f))
    else gui_set_current_game_image None f
  else draw_face (gui_set_current_game_image (Some image_path) f).

Definition clear_game_image (f : FaceGui) : FaceGui :=
  if is_some (current_game_image f) then draw_face (gui_set_current_game_image None f)
  else f.

Definition enable_touch (f : FaceGui) : FaceGui := gui_set_touch_enabled true f.
Definition disable_touch (f : FaceGui) : FaceGui := gui_set_touch_enabled false f.

Definition _handle_tap (f : FaceGui) : FaceGui * list TouchEvent :=
  if touch_enabled f then
    if tap_callback f then (f, [TapCallback]) else (f, [])
  else (f, []).

(** [_handle_pat]; [current_time] is [time.time()]. *)
Definition _handle_pat (current_time : Q) (f : FaceGui) : FaceGui * list TouchEvent :=
  if touch_enabled f && pat_callback f && Qltb 1.0 (current_time - last_pat_time f) then
    (gui_set_last_pat_time current_time f, [PatCallback current_time])
  else (f, []).

(** What happens to the face: the calls of its methods by the rest of the
    program, the touch events of the canvas, and the callbacks that become
    due on the Tk queue. *)
Inductive GuiOp : Type :=
  | gui_set_emotion (emotion : string)
  | gui_start_animation_loops (blink : Z)
  | gui_suspend (tk_ok : bool)
  | gui_resume (tk_ok : bool) (blink : Z)
  | gui_start_talking
  | gui_stop_talking
  | gui_display_game_image (image_path : string) (loaded : bool)
  | gui_clear_game_image
  | gui_enable_touch
  | gui_disable_touch
  | gui_assign_callbacks (pat tap : bool)   (* app.pat_callback = ..; app.tap_callback = .. *)
  | gui_tap
  | gui_pat (current_time : Q)
  | gui_due (i : nat) (blink : Z).          (* the callback at position i of the queue runs *)

Definition run_face_callback (cb : FaceCallback) (blink : Z) (f : FaceGui) : FaceGui :=
  match cb with
  | cb_idle_loop => _idle_loop blink f
  | cb_animation_loop => _animation_loop f
  end.

Definition gui_step (op : GuiOp) (f : FaceGui) : FaceGui * list TouchEvent :=
  match op with
  | gui_set_emotion emotion => (set_emotion emotion f, [])
  | gui_start_animation_loops blink => (start_animation_loops blink f, [])
  | gui_suspend tk_ok => (suspend tk_ok f, [])
  | gui_resume tk_ok blink => (resume tk_ok blink f, [])
  | gui_start_talking => (start_talking f, [])
  | gui_stop_talking => (stop_talking f, [])
  | gui_display_game_image image_path loaded => (display_game_image image_path loaded f, [])
  | gui_clear_game_image => (clear_game_image f, [])
  | gui_enable_touch => (enable_touch f, [])
  | gui_disable_touch => (disable_touch f, [])
  | gui_assign_callbacks pat tap => (gui_set_tap_callback tap (gui_set_pat_callback pat f), [])
  | gui_tap => _handle_tap f
  | gui_pat current_time => _handle_pat current_time f
  | gui_due i blink =>
      match nth_error (gui_after f) i with
      | Some (_, cb) =>
          (run_face_callback cb blink (gui_set_after (remove_nth i (gui_after f)) f), [])
      | None => (f, [])
      end
  end.

(** A run of the face: the final state and the callbacks called. *)
Fixpoint gui_run (ops : list GuiOp) (f : FaceGui) : FaceGui * list TouchEvent :=
  match ops with
  | [] => (f, [])
  | op :: rest =>
      let '(f1, t1) := gui_step op f in
      let '(f2, t2) := gui_run rest f1 in
      (f2, t1 ++ t2)
  end.

(** * Notions used in the statements *)

(** [wp m env s Q]: the result of running [m] from [s] satisfies [Q]. *)
Definition wp {A : Type} (m : M A) (env : Env) (s : BigMainApp)
    (Q : A -> BigMainApp -> list Event -> Prop) : Prop :=
  Q (value_of (m env s)) (state_of (m env s)) (trace_of (m env s)).

(** [m] keeps the property [P] of the state. *)
Definition preserves {A : Type} (P : BigMainApp -> Prop) (m : M A) : Prop :=
  forall env s, P s -> P (state_of (m env s)).

(** A worker record after its bookkeeping is cleared. *)
Definition stopped_worker : Worker :=
  {| thread := None; stop_event := None; started := false |}.

(** The state each stop operation produces, as a function of the state it
    starts from (proved below to be what the operation computes). *)
Definition stop_chatbot_state (s : BigMainApp) : BigMainApp :=
  if started (chatbot s) && is_some (stop_event (chatbot s)) then
    set_chatbot stopped_worker s
  else s.

Definition stop_rps_state (s : BigMainApp) : BigMainApp :=
  if started (rps_game s) && is_some (stop_event (rps_game s)) then
    set_active_mode
      (if option_eqb Mode_eqb (active_mode s) (Some rps)
          || option_eqb Mode_eqb (active_mode s) (Some gesture)
       then None else active_mode s)
      (set_rps_game stopped_worker s)
  else s.

Definition stop_presentation_state (s : BigMainApp) : BigMainApp :=
  if started (presentation_w s) && is_some (stop_event (presentation_w s)) then
    set_active_mode
      (if option_eqb Mode_eqb (active_mode s) (Some presentation)
       then None else active_mode s)
      (set_presentation_w stopped_worker s)
  else s.

Definition stop_all_detectors (c : CameraMaster) : CameraMaster :=
  {| cam_device_open := cam_device_open c; cam_color := None; cam_face := false;
     cam_gesture := None; cam_object := false; cam_plate := false |}.

Definition stop_all_state (s : BigMainApp) : BigMainApp :=
  let s1 := if started (rps_game s) then stop_rps_state s else s in
  let s2 := if started (presentation_w s1) then stop_presentation_state s1 else s1 in
  let f := face_app s2 in
  let r := root s2 in
  set_root (if ai_enabled s2 then r else mkRoot true (after_queue r) (destroyed r))
  (set_face_app (if ai_enabled s2
                 then mkFace "neutral" (animation_active f) (suppress_initial_greeting f)
                 else mkFace (current_emotion f) false (suppress_initial_greeting f))
  (set_bot (mkHardware (ir_switch (bot s2)) None false)
  (set_active_color None
  (set_active_mode None
  (set_camera (option_map stop_all_detectors (camera s2)) s2))))).

(** The log line of a refused request. *)
Definition refusal_message (r : Request) : string :=
  match r with
  | req_rps => rps_refusal
  | req_presentation => presentation_refusal
  | _ => camera_refusal
  end.

(** The codes of the command table. *)
Definition mapped (cfg : Config) (code : Z) : bool :=
  existsb (Z.eqb code)
    [IR_COLOR_RED cfg; IR_COLOR_BLUE cfg; IR_COLOR_GREEN cfg; IR_COLOR_YELLOW cfg;
     IR_FACE_MODE cfg; IR_GESTURE_MODE cfg; IR_OBJECT_MODE cfg; IR_PLATE_MODE cfg;
     IR_RPS_GAME cfg; IR_PRESENTATION cfg; IR_AI_TOGGLE cfg; IR_STOP_ALL cfg;
     IR_EXIT_APP cfg].

(** The requested mode is the active one, with the same parameters. *)
Definition is_active (s : BigMainApp) (r : Request) : bool :=
  option_eqb Mode_eqb (active_mode s) (Some (request_mode r))
  && match r with
     | req_color c => option_eqb String.eqb (active_color s) (Some c)
     | _ => true
     end.

(** The request is neither refused nor skipped: it stops the current mode
    and goes on to the camera. *)
Definition reaches_camera (s : BigMainApp) (r : Request) : bool :=
  negb (ai_enabled s) && negb (started (presentation_w s))
  && match r with
     | req_presentation => false
     | req_rps => negb (started (rps_game s))
     | _ => negb (is_active s r)
     end.

(** The log line of a request that finds no camera. *)
Definition camera_failure_message (r : Request) : string :=
  match r with
  | req_rps => "[RPS] Cannot start game - camera unavailable."
  | _ => "[ERROR] Camera unavailable."
  end.

(** The last effect of a trace. *)
Definition ends_with (e : Event) (t : list Event) : Prop := exists t0, t = t0 ++ [e].

(** An environment in which the camera cannot be opened. *)
Definition env_no_camera : Env :=
  {| cam_ok := false; det_ok := true; anim_ok := true; model_ok := true;
     labels_ok := true; join_in_time := fun _ => true |}.

(** A worker record is consistent when its started flag says whether
    there is a thread, and whether there is a stop event. *)
Definition worker_consistent (w : Worker) : Prop :=
  started w = is_some (thread w) /\ started w = is_some (stop_event w).

(** A camera release scheduled with [root.after] and not yet run. *)
Definition is_release (p : Z * Callback) : bool :=
  Callback_eqb (snd p) cb_release_camera_completely.

Definition pending_release (s : BigMainApp) : bool :=
  existsb is_release (after_queue (root s)).

(** [active_mode] names the mode [m]. *)
Definition mode_is (m : Mode) (s : BigMainApp) : bool :=
  option_eqb Mode_eqb (active_mode s) (Some m).

(** The invariant of the coordinator. *)
Record Inv (s : BigMainApp) : Prop := mkInv {
  inv_chatbot : worker_consistent (chatbot s);
  inv_rps : worker_consistent (rps_game s);
  inv_presentation : worker_consistent (presentation_w s);
  inv_camera : _camera_initialized s = is_some (camera s);
  inv_rps_mode : started (rps_game s) = mode_is rps s;
  inv_presentation_mode : started (presentation_w s) = mode_is presentation s;
  inv_needs_camera :
    is_some (active_mode s) = true -> mode_is presentation s = false ->
    is_some (camera s) = true;
  inv_ai :
    ai_enabled s = true -> is_some (active_mode s) = true -> pending_release s = true
}.

(** A mode is active when [active_mode] names it, or when it is a worker
    mode and its worker is started. *)
Definition mode_active (s : BigMainApp) (m : Mode) : bool :=
  mode_is m s
  || match m with
     | rps => started (rps_game s)
     | presentation => started (presentation_w s)
     | _ => false
     end.


(** A trace made of console lines only. *)
Definition only_logs (t : list Event) : bool :=
  forallb (fun e => match e with Print _ => true | _ => false end) t.

(** The run that starts the colour mode for red. *)
Definition color_red_active : BigMainApp :=
  run_ops default_config [(op_start_color_mode "red", env_all_ok)] init_app.

(** A join that times out: the RPS worker is started, then stopped while
    its thread does not exit within the two seconds. *)
Definition env_join_timeout : Env :=
  {| cam_ok := true; det_ok := true; anim_ok := true; model_ok := true;
     labels_ok := true; join_in_time := fun _ => false |}.

(** The run that starts the Rock Paper Scissors game. *)
Definition rps_running : BigMainApp :=
  run_ops default_config [(op_start_rps_if_needed, env_all_ok)] init_app.

(** ** Notions of the further properties of big_main.py *)


(** The state [_release_camera_completely] leaves behind, as far as the
    camera goes. *)
Definition camera_released (s : BigMainApp) : Prop :=
  camera s = None
  /\ _camera_initialized s = false
  /\ _camera_shutting_down s = false
  /\ active_mode s = None
  /\ active_color s = None
  /\ motors_moving (bot s) = false.

(** What [_toggle_ai] leaves when it switches the AI on from [s] while
    there is a camera object: the flag is set, the RPS and presentation
    workers are stopped, the release is the last entry of the Tk queue, and
    camera, detectors, colour, chatbot, face and hardware are as they were;
    the mode is as it was unless it was the one of a stopped worker. *)
Definition release_deferred (s s1 : BigMainApp) : Prop :=
  ai_enabled s1 = true
  /\ camera s1 = camera s
  /\ _camera_initialized s1 = _camera_initialized s
  /\ active_mode s1
     = (if started (rps_game s) || started (presentation_w s) then None else active_mode s)
  /\ active_color s1 = active_color s
  /\ started (rps_game s1) = false
  /\ started (presentation_w s1) = false
  /\ chatbot s1 = chatbot s
  /\ face_app s1 = face_app s
  /\ bot s1 = bot s
  /\ after_queue (root s1) = after_queue (root s) ++ [(10, cb_release_camera_completely)].

(** The state [_toggle_ai] leaves when it switches the AI off from [s]. *)
Definition ai_switched_off (s s' : BigMainApp) : Prop :=
  ai_enabled s' = false
  /\ chatbot s' = stopped_worker
  /\ withdrawn (root s') = true
  /\ animation_active (face_app s') = false
  /\ current_emotion (face_app s') = "neutral"
  /\ led (bot s') = None
  /\ camera s' = camera s
  /\ active_mode s' = active_mode s
  /\ rps_game s' = rps_game s
  /\ presentation_w s' = presentation_w s
  /\ after_queue (root s') = after_queue (root s).

(** The run that switches the AI on from the initial state. *)
Definition ai_on : BigMainApp :=
  run_ops default_config [(op_toggle_ai, env_all_ok)] init_app.

(** An environment in which camera, detectors and model files are there. *)
Definition env_ready (env : Env) : bool :=
  cam_ok env && det_ok env && model_ok env && labels_ok env.


(** The detectors of the camera that run. *)
Definition running (c : CameraMaster) : list Detector :=
  (if is_some (cam_color c) then [color_tracking] else [])
  ++ (if cam_face c then [face_tracking] else [])
  ++ (if is_some (cam_gesture c) then [gesture_following] else [])
  ++ (if cam_object c then [object_recognition] else [])
  ++ (if cam_plate c then [license_plate_recognition] else []).

(** What the camera runs while a mode is the active one: its own detector
    and no other, with the parameters of the mode; for the game the gesture
    detector without motor actions, or nothing when it could not be
    started; nothing for the presentation. *)
Definition mode_detectors (m : option Mode) (col : option string) (c : CameraMaster) : Prop :=
  match m with
  | Some color => running c = [color_tracking] /\ cam_color c = col
  | Some face => running c = [face_tracking]
  | Some gesture => running c = [gesture_following] /\ cam_gesture c = Some true
  | Some object => running c = [object_recognition]
  | Some plate => running c = [license_plate_recognition]
  | Some rps => (running c = [] \/ running c = [gesture_following])
                /\ cam_gesture c <> Some true
  | Some presentation => running c = []
  | None => True
  end.

(** The second invariant of the coordinator: the camera runs at most one
    detector, the one of the active mode, and the chatbot runs only while
    the AI is enabled. *)
Record Coh (s : BigMainApp) : Prop := mkCoh {
  coh_one : forall c, camera s = Some c -> (List.length (running c) <= 1)%nat;
  coh_mode : forall c, camera s = Some c -> mode_detectors (active_mode s) (active_color s) c;
  coh_chatbot : started (chatbot s) = true -> ai_enabled s = true
}.

(** The run in which the presentation is started after a colour mode. *)
Definition presentation_after_color : BigMainApp :=
  run_ops default_config
    [(op_start_color_mode "red", env_all_ok);
     (op_start_presentation_mode, env_all_ok)] init_app.

(** A reading of the held-down button: the same code, inside the debounce
    window that opened at [t0]. *)
Definition held (code : Z) (t0 window : Q) (inp : IRRead * Q * Env) : bool :=
  match inp with
  | (read_returns (Some (c :: _)), now, _) => (c =? code) && Qltb (now - t0) window
  | _ => false
  end.

(** A reading the poll loop takes for a code. *)
Definition valid_reading (r : IRRead) : bool :=
  match r with
  | read_returns (Some (code :: _)) => negb (code =? 0) && (code <? 0xFF)
  | _ => false
  end.

(** The RPS game is requested, then the face mode: the face request runs on
    the IR thread up to its call of [_ensure_camera], the Tk thread then
    runs [_start_rps_if_needed], and the face request goes on. *)
Definition face_overlaps_rps : BigMainApp :=
  face_request_overlapping _start_rps_if_needed env_all_ok env_all_ok env_all_ok init_app.

(** ** Notions of the properties of rock_paper_scissors.py *)

(** One of the three moves. *)
Definition is_move (m : Z) : Prop := 0 <= m <= 2.

(** [a] beats [b]: paper beats rock, scissors beat paper, rock beats
    scissors, that is, [a] is the successor of [b] in the cycle. *)
Definition beats (a b : Z) : Prop := a = (b + 1) mod 3.

(** The move a gesture name stands for. *)
Definition gesture_move (name : string) : option Z :=
  if String.eqb name "Zero" || String.eqb name "One" then Some ROCK
  else if String.eqb name "Five" || String.eqb name "Four" then Some PAPER
  else if String.eqb name "Two" || String.eqb name "Three" then Some SCISSORS
  else None.

(** A poll inside the capture window, with the stop event clear. *)
Definition poll_live (start : Q) (p : Poll) : bool :=
  Qltb (poll_now p - start) capture_duration && negb (poll_stop p).

(** A live poll that shows no move: an exception, no hand, or a gesture
    that stands for no move. *)
Definition poll_unclear (start : Q) (p : Poll) : bool :=
  poll_live start p
  && match poll_detection p with
     | detection_attribute_error _ => false
     | detection_raises | detection_none => true
     | detection_gesture name => negb (is_some (gesture_move name))
     end.

(** ** Notions of the properties of chatbot_logic.py *)

(** The history after a sequence of turns with the language model. *)
Definition chat (turns : list (string * LLMReply)) (history : list Message) : list Message :=
  fold_left (fun h turn => fst (fst (llm_turn (fst turn) (snd turn) h))) turns history.

(** The entry a turn appends for the assistant. *)
Definition assistant_message (reply : LLMReply) : Message :=
  match reply with
  | llm_unavailable =>
      mkMessage "assistant" (json_dumps_reply "Chat model not installed." "angry")
  | llm_raises =>
      mkMessage "assistant"
        (json_dumps_reply "I seem to have gotten my wires crossed." "angry")
  | llm_answers message_content _ _ => mkMessage "assistant" message_content
  end.

(** The distance a pass measured, when the read did not raise. *)
Definition seen_distance (x : Sensors) : option Z :=
  match sensor_distance x with
  | Some (data_H, data_L) => Some (distance_of data_H data_L)
  | None => None
  end.

(** Three passes in which a hand comes to 100 mm and is back at 300 mm
    six tenths of a second later. *)
Definition high_five_retreat : Sensors :=
  mkSensors 5.6 (Some (Some [1], Some [44])) (Some (Some [15])).

Definition high_five_passes : list Sensors :=
  [mkSensors 5.0 (Some (Some [0], Some [100])) (Some (Some [15]));
   mkSensors 5.2 (Some (Some [0], Some [150])) (Some (Some [15]));
   high_five_retreat].

(** The sensor checks are made in this pass: there is a sensor handle and
    more than a tenth of a second has gone by since the last check. *)
Definition sensors_checked (bot : bool) (x : Sensors) (st : Listening) : bool :=
  bot && Qltb 0.1 (sensor_now x - last_sensor_check_time st).

(** The high five fires in this pass, when the checks are made. *)
Definition high_five_fires (x : Sensors) (st : Listening) : bool :=
  match sensor_distance x with
  | Some (data_H, data_L) =>
      snd (high_five_check (sensor_now x) (distance_of data_H data_L)
             (mkListening (sensor_now x) (high_five_state st) (approached_time st)))
  | None => false
  end.

(** The read of the line tracker returned, and what it returned counts as
    lifted: nothing ([None] or an empty list), or a value whose low four
    bits are zero. *)
Definition reads_lifted (x : Sensors) : Prop :=
  match sensor_track x with
  | Some (Some (track :: _)) => track mod 16 = 0
  | Some _ => True
  | None => False
  end.

(** ** Notions of the properties of face_gui.py *)

(** The times of the pats that reached the pat callback, in order. *)
Fixpoint pat_times (t : list TouchEvent) : list Q :=
  match t with
  | [] => []
  | PatCallback current_time :: rest => current_time :: pat_times rest
  | TapCallback :: rest => pat_times rest
  end.

(** Each time is more than one second after the one before it, the first
    one after [last]. *)
Fixpoint spaced (last : Q) (times : list Q) : Prop :=
  match times with
  | [] => True
  | t :: rest => (1.0 < t - last)%Q /\ spaced t rest
  end.

Definition FaceCallback_eqb (a b : FaceCallback) : bool :=
  match a, b with
  | cb_idle_loop, cb_idle_loop | cb_animation_loop, cb_animation_loop => true
  | _, _ => false
  end.

(** How many times a callback waits on the Tk queue. *)
Definition pending (cb : FaceCallback) (f : FaceGui) : nat :=
  List.length (filter (fun p => FaceCallback_eqb (snd p) cb) (gui_after f)).

(** How many times a run starts the loops: the calls of
    [start_animation_loops] and the calls of [resume] that get through. *)
Fixpoint loops_started (ops : list GuiOp) : nat :=
  match ops with
  | [] => 0
  | gui_start_animation_loops _ :: rest => S (loops_started rest)
  | gui_resume true _ :: rest => S (loops_started rest)
  | _ :: rest => loops_started rest
  end.

(** What holds of the face in every state it reaches. *)
Record FaceInv (f : FaceGui) : Prop := mkFaceInv {
  face_step_range : 0 <= animation_step f < 20;
  face_closed_ticks : eyes_open f = false -> 1 <= blink_ticks_remaining f <= 3;
  face_closed_idle : eyes_open f = false -> gui_animation_active f = false
}.

(** The fields the blinking of [_idle_loop] reads and writes: talking, eyes
    open, ticks of the blink that remain, ticks to the next blink. *)
Definition blink_state (f : FaceGui) : bool * bool * Z * Z :=
  (gui_animation_active f, eyes_open f, blink_ticks_remaining f, next_blink_in f).

(** One idle tick on these fields. *)
Definition blink_tick (blink : Z) (b : bool * bool * Z * Z) : bool * bool * Z * Z :=
  let '(talking, open, ticks, next) := b in
  if talking then b
  else if 0 <? ticks then
    if ticks - 1 =? 0 then (talking, true, ticks - 1, blink)
    else (talking, open, ticks - 1, next)
  else if next - 1 <=? 0 then (talking, false, 3, next - 1)
  else (talking, open, ticks, next - 1).

(** * Properties *)

(** ** Proof tools: weakest preconditions over [M] *)

Lemma wp_bind {A B : Type} (m : M A) (k : A -> M B) env s Q :
  wp m env s (fun a s1 t1 => wp (k a) env s1 (fun b s2 t2 => Q b s2 (t1 ++ t2))) ->
  wp (bind m k) env s Q.
Proof.
  unfold wp, bind, value_of, state_of, trace_of.
  destruct (m env s) as [[a s1] t1]; simpl.
  destruct (k a env s1) as [[b s2] t2]; simpl. auto.
Qed.

Lemma wp_ret {A : Type} (a : A) env s Q : Q a s [] -> wp (ret a) env s Q.
Proof. auto. Qed.
Lemma wp_skip env s Q : Q tt s [] -> wp skip env s Q.
Proof. auto. Qed.
Lemma wp_get env s Q : Q s s [] -> wp get env s Q.
Proof. auto. Qed.
Lemma wp_gets {A : Type} (f : BigMainApp -> A) env s Q : Q (f s) s [] -> wp (gets f) env s Q.
Proof. auto. Qed.
Lemma wp_modify f env s Q : Q tt (f s) [] -> wp (modify f) env s Q.
Proof. auto. Qed.
Lemma wp_emit e env s Q : Q tt s [e] -> wp (emit e) env s Q.
Proof. auto. Qed.
Lemma wp_ask {A : Type} (f : Env -> A) env s Q : Q (f env) s [] -> wp (ask f) env s Q.
Proof. auto. Qed.

Ltac destruct_app s :=
  destruct s as [[? ? ?] [? ? ?] ? ? ? ? [? ? ?] ? ? ? [? ? ?] [? ? ?] [? ? ?] ? ? ?].

Ltac head_of t := lazymatch t with ?f _ => head_of f | _ => t end.

(** Case split on a variable that blocks the evaluation of [c]. *)
Ltac split_var c :=
  match c with
  | context [match ?v with true => _ | false => _ end] => is_var v; destruct v
  | context [match ?v with Some _ => _ | None => _ end] => is_var v; destruct v
  | context [match ?v with color => _ | _ => _ end] => is_var v; destruct v
  end.

(** For a test: a boolean variable that blocks it, else the test as a whole. *)
Ltac split_on c :=
  first [ match c with
          | context [match ?v with true => _ | false => _ end] => is_var v; destruct v
          | context [match ?v with Some _ => _ | None => _ end] => is_var v; destruct v
          end
        | destruct c eqn:? ].

Ltac norm_state :=
  lazymatch goal with
  | |- wp ?m ?env ?s ?Q =>
      let s' := eval cbv -[lower dict_get] in s in
      change (wp m env s' Q);
      lazymatch s' with
      | mkApp _ _ _ _ _ _ _ _ _ _ _ _ _ _ _ _ => idtac
      | _ => split_var s'; norm_state
      end
  | _ => idtac
  end.

(** One step of symbolic execution; [hook] is tried at a call before the
    callee is unfolded. *)
Ltac wp_step hook :=
  lazymatch goal with
  | |- wp (bind _ _) _ _ _ => apply wp_bind
  | |- wp (ret _) _ _ _ => apply wp_ret; cbv beta
  | |- wp skip _ _ _ => apply wp_skip; cbv beta
  | |- wp get _ _ _ => apply wp_get; cbv beta
  | |- wp (gets _) _ _ _ => apply wp_gets; cbv beta
  | |- wp (modify _) _ _ _ => apply wp_modify; cbv beta; norm_state
  | |- wp (emit _) _ _ _ => apply wp_emit; cbv beta
  | |- wp (ask _) _ _ _ => apply wp_ask; cbv beta
  | |- wp (when _ _) _ _ _ => unfold when at 1
  | |- wp (match ?x with Some _ => _ | None => _ end) ?env ?s ?Q =>
      let x' := eval cbv -[Z.eqb Z.ltb Qltb String.eqb nth_error] in x in
      lazymatch x' with
      | Some _ => change x with x'; cbv beta iota
      | None => change x with x'; cbv beta iota
      | _ => change x with x'; first [ split_var x' | destruct x' eqn:? ]
      end
  | |- wp (match ?c with true => ?a | false => ?b end) ?env ?s ?Q =>
      let c' := eval cbv -[Z.eqb Z.ltb Qltb String.eqb nth_error] in c in
      lazymatch c' with
      | true => change (wp a env s Q)
      | false => change (wp b env s Q)
      | _ => change (wp (if c' then a else b) env s Q); split_on c'
      end
  | |- wp ?m ?env ?s ?Q =>
      first [ hook
            | let h := head_of m in
              let m' := eval cbv beta iota zeta delta [h] in m in
              change (wp m' env s Q) ]
  end.

Ltac wp_run_with hook := repeat (wp_step hook).
Ltac wp_run := wp_run_with fail.

(** Settle the tests on a mode that were split as a whole. *)
Ltac settle_modes :=
  repeat match goal with m : Mode |- _ => destruct m end;
  try reflexivity; simpl in *; try congruence.

(** At a call of [f], use [lem : forall env s, state_of (f env s) = F s]. *)
Ltac by_summary lem :=
  lazymatch goal with
  | |- wp ?m ?env ?s ?Q =>
      unfold wp at 1; rewrite (lem env s); cbv beta; norm_state
  end.

(** ** What the stop operations do to the state *)

Lemma stop_chatbot_summary env s :
  state_of (_stop_chatbot_if_running env s) = stop_chatbot_state s.
Proof.
  change (wp _stop_chatbot_if_running env s (fun _ s' _ => s' = stop_chatbot_state s)).
  destruct_app s. destruct env. wp_run. all: reflexivity.
Qed.

Lemma stop_rps_summary env s :
  state_of (_stop_rps_if_running env s) = stop_rps_state s.
Proof.
  change (wp _stop_rps_if_running env s (fun _ s' _ => s' = stop_rps_state s)).
  destruct_app s. destruct env. wp_run. all: try reflexivity. all: settle_modes.
Qed.

Lemma stop_presentation_summary env s :
  state_of (_stop_presentation_if_running env s) = stop_presentation_state s.
Proof.
  change (wp _stop_presentation_if_running env s
            (fun _ s' _ => s' = stop_presentation_state s)).
  destruct_app s. destruct env. wp_run. all: try reflexivity. all: settle_modes.
Qed.

Lemma stop_all_summary env s :
  state_of (_stop_all_camera_modes env s) = stop_all_state s.
Proof.
  change (wp _stop_all_camera_modes env s (fun _ s' _ => s' = stop_all_state s)).
  destruct_app s. destruct env.
  wp_run_with ltac:(first [ by_summary stop_rps_summary
                          | by_summary stop_presentation_summary ]).
  all: try reflexivity.
  all: match goal with c : CameraMaster |- _ => destruct c; reflexivity end.
Qed.

Ltac stop_summaries :=
  first [ by_summary stop_chatbot_summary
        | by_summary stop_rps_summary
        | by_summary stop_presentation_summary
        | by_summary stop_all_summary ].

Lemma stop_all_state_idempotent s :
  stop_all_state (stop_all_state s) = stop_all_state s.
Proof.
  destruct s as [? ? [[]|] ? ? ? ? ? ? [|] ? [? [|] [|]] [? [|] [|]] ? ? ?].
  all: reflexivity.
Qed.

Lemma stop_all_state_idle s :
  active_mode (stop_all_state s) = None
  /\ active_color (stop_all_state s) = None
  /\ (forall c, camera (stop_all_state s) = Some c -> detectors_stopped c = true)
  /\ motors_moving (bot (stop_all_state s)) = false
  /\ led (bot (stop_all_state s)) = None.
Proof.
  destruct s as [? ? [[]|] ? ? ? ? ? ? [|] ? [? [|] [|]] [? [|] [|]] ? ? ?].
  all: cbv; repeat split; try reflexivity; intros c Hc; inversion Hc; reflexivity || discriminate.
Qed.

(** ** Idempotent stop *)

(** C5.  From any state and whatever the environment does, a second call of
    [_stop_all_camera_modes] right after a first one leaves the state the
    first call produced; in that state no mode and no colour is active,
    every detector of the camera is stopped, the motors are stopped and the
    LEDs are off. *)
Theorem stop_all_camera_modes_idempotent (env1 env2 : Env) (s : BigMainApp) :
  let s1 := state_of (_stop_all_camera_modes env1 s) in
  let s2 := state_of (_stop_all_camera_modes env2 s1) in
  s2 = s1
  /\ active_mode s1 = None
  /\ active_color s1 = None
  /\ (forall c, camera s1 = Some c -> detectors_stopped c = true)
  /\ motors_moving (bot s1) = false
  /\ led (bot s1) = None.
Proof.
  cbv zeta. rewrite !stop_all_summary. split.
  - apply stop_all_state_idempotent.
  - apply stop_all_state_idle.
Qed.

(** ** Admission refusal *)

Lemma start_refused_while_ai_enabled (r : Request) (env : Env) (s : BigMainApp) :
  ai_enabled s = true ->
  requestMode r env s = (tt, s, [Print (refusal_message r)]).
Proof.
  intros Hai.
  destruct r; unfold requestMode, _start_color_mode, _start_face_mode,
    _start_gesture_mode, _start_object_mode, _start_plate_mode,
    _start_rps_if_needed, _start_presentation_mode, bind, get, emit;
    rewrite Hai; reflexivity.
Qed.

(** C3.  Whatever mode is requested while [ai_enabled] is true, the request
    is refused: the only effect is one log line, and the whole application
    state (active mode, active colour, AI flag, worker records and all the
    rest) is the state before the call. *)
Theorem request_refused_while_ai_enabled (r : Request) (env : Env) (s : BigMainApp) :
  ai_enabled s = true ->
  requestMode r env s = (tt, s, [Print (refusal_message r)]).
Proof. exact (start_refused_while_ai_enabled r env s). Qed.

Lemma request_refused_while_ai_enabled_witness :
  requestMode req_rps env_all_ok (set_ai_enabled true init_app)
  = (tt, set_ai_enabled true init_app, [Print rps_refusal]).
Proof.
  apply (request_refused_while_ai_enabled req_rps env_all_ok (set_ai_enabled true init_app)).
  reflexivity.
Defined.

(** ** Shutdown *)

Lemma shutdown_after_stop_flag (env : Env) (s : BigMainApp) :
  _stop_flag s = true -> shutdown env s = (tt, s, []).
Proof.
  intros Hflag. unfold shutdown, bind, get, skip, ret. rewrite Hflag. reflexivity.
Qed.

Lemma shutdown_sets_stop_flag (env : Env) (s : BigMainApp) :
  _stop_flag (state_of (shutdown env s)) = true.
Proof.
  change (wp shutdown env s (fun _ s' _ => _stop_flag s' = true)).
  destruct_app s. destruct env.
  wp_run_with stop_summaries.
  all: reflexivity.
Qed.

(** C10.  Once the stop flag is set, [shutdown] returns at once: it performs
    no effect and leaves the state as it is.  The first call sets the flag,
    so a second call in a row changes nothing. *)
Theorem shutdown_idempotent :
  (forall (env : Env) (s : BigMainApp),
     _stop_flag s = true -> shutdown env s = (tt, s, []))
  /\ (forall (env1 env2 : Env) (s : BigMainApp),
        let s1 := state_of (shutdown env1 s) in
        _stop_flag s1 = true /\ shutdown env2 s1 = (tt, s1, [])).
Proof.
  split.
  - exact shutdown_after_stop_flag.
  - intros env1 env2 s s1. split.
    + apply shutdown_sets_stop_flag.
    + apply shutdown_after_stop_flag, shutdown_sets_stop_flag.
Qed.

Lemma shutdown_idempotent_witness :
  shutdown env_all_ok (state_of (shutdown env_all_ok init_app))
  = (tt, state_of (shutdown env_all_ok init_app), []).
Proof.
  apply (proj1 shutdown_idempotent env_all_ok (state_of (shutdown env_all_ok init_app))).
  reflexivity.
Defined.

(** ** Frame properties: what an operation leaves alone *)

Lemma pres_bind {A B : Type} P (m : M A) (k : A -> M B) :
  preserves P m -> (forall a, preserves P (k a)) -> preserves P (bind m k).
Proof.
  unfold preserves, bind, state_of. intros Hm Hk env s Hs.
  specialize (Hm env s Hs).
  destruct (m env s) as [[a s1] t1]; simpl in *.
  specialize (Hk a env s1 Hm).
  destruct (k a env s1) as [[b s2] t2]; simpl in *. exact Hk.
Qed.

Lemma pres_ret {A : Type} P (a : A) : preserves P (ret a).
Proof. intros env s Hs. exact Hs. Qed.
Lemma pres_skip P : preserves P skip.
Proof. intros env s Hs. exact Hs. Qed.
Lemma pres_get P : preserves P get.
Proof. intros env s Hs. exact Hs. Qed.
Lemma pres_gets {A : Type} P (f : BigMainApp -> A) : preserves P (gets f).
Proof. intros env s Hs. exact Hs. Qed.
Lemma pres_emit P e : preserves P (emit e).
Proof. intros env s Hs. exact Hs. Qed.
Lemma pres_ask {A : Type} P (f : Env -> A) : preserves P (ask f).
Proof. intros env s Hs. exact Hs. Qed.
Lemma pres_modify (P : BigMainApp -> Prop) f :
  (forall s, P s -> P (f s)) -> preserves P (modify f).
Proof. intros Hf env s Hs. apply Hf, Hs. Qed.
Lemma pres_if {A : Type} P (c : bool) (a b : M A) :
  preserves P a -> preserves P b -> preserves P (if c then a else b).
Proof. destruct c; auto. Qed.
Lemma pres_when P (c : bool) (m : M unit) :
  preserves P m -> preserves P (when c m).
Proof. destruct c; simpl; auto using pres_ret. Qed.

Create HintDb frame.

Ltac frame_step :=
  lazymatch goal with
  | |- preserves _ (bind _ _) => apply pres_bind; [ | intro ]
  | |- preserves _ (ret _) => apply pres_ret
  | |- preserves _ skip => apply pres_skip
  | |- preserves _ get => apply pres_get
  | |- preserves _ (gets _) => apply pres_gets
  | |- preserves _ (emit _) => apply pres_emit
  | |- preserves _ (ask _) => apply pres_ask
  | |- preserves _ (when _ _) => apply pres_when
  | |- preserves _ (modify _) =>
      apply pres_modify;
      let s := fresh "s" in intros s; destruct_app s; cbv;
      repeat match goal with |- ?g => split_var g end; tauto
  | |- preserves _ (match ?x with Some _ => _ | None => _ end) => destruct x
  | |- preserves _ (match ?c with true => _ | false => _ end) => apply pres_if
  | |- preserves ?P ?m =>
      first [ solve [ auto with frame ]
            | let h := head_of m in
              let m' := eval cbv beta iota zeta delta [h] in m in
              change (preserves P m') ]
  end.

Ltac frame := repeat frame_step.

(** No operation reached from the IR dispatch touches the debounce state. *)
Section DebounceFrame.
Variables (c : Z) (t : Q).
Let P (s : BigMainApp) : Prop := _last_ir_code s = c /\ _last_ir_time s = t.

Lemma debounce_frame_stop_all : preserves P _stop_all_camera_modes.
Proof. frame. Qed.

Hint Resolve debounce_frame_stop_all : frame.

Lemma debounce_frame_handle_ir_code cfg code : preserves P (_handle_ir_code cfg code).
Proof. frame. Qed.
End DebounceFrame.

(** ** The IR input router *)

Lemma trace_bind {A B : Type} (m : M A) (k : A -> M B) env s :
  trace_of (bind m k env s)
  = trace_of (m env s) ++ trace_of (k (value_of (m env s)) env (state_of (m env s))).
Proof.
  unfold bind, trace_of, value_of, state_of.
  destruct (m env s) as [[a s1] t1]; simpl.
  destruct (k a env s1) as [[b s2] t2]; reflexivity.
Qed.

Lemma state_bind {A B : Type} (m : M A) (k : A -> M B) env s :
  state_of (bind m k env s)
  = state_of (k (value_of (m env s)) env (state_of (m env s))).
Proof.
  unfold bind, value_of, state_of.
  destruct (m env s) as [[a s1] t1]; simpl.
  destruct (k a env s1) as [[b s2] t2]; reflexivity.
Qed.

Lemma Qltb_true (x y : Q) : Qltb x y = true <-> (x < y)%Q.
Proof.
  unfold Qltb. rewrite negb_true_iff. split.
  - intros H. apply Qnot_le_lt. intros Hle. apply Qle_bool_iff in Hle. congruence.
  - intros H. destruct (Qle_bool y x) eqn:E; [ | reflexivity ].
    apply Qle_bool_iff in E. exfalso. exact (Qlt_not_le _ _ H E).
Qed.

Lemma Qltb_false (x y : Q) : Qltb x y = false <-> (y <= x)%Q.
Proof.
  unfold Qltb. rewrite negb_false_iff. apply Qle_bool_iff.
Qed.

Lemma ir_iteration_dispatch cfg code rest now env s :
  (negb (code =? 0) && (code <? 0xFF)) = true ->
  (negb (IR_DEBUG cfg)
   && ((code =? _last_ir_code s)
       && Qltb (now - _last_ir_time s) (IR_DEBOUNCE_SEC cfg))) = false ->
  let dispatch :=
    _handle_ir_code cfg code env (set_last_ir_time now (set_last_ir_code code s)) in
  _ir_iteration cfg (read_returns (Some (code :: rest))) now env s
  = (tt, state_of dispatch, LogIRCode code :: trace_of dispatch ++ [Sleep 50]).
Proof.
  intros Hvalid Hnew dispatch. subst dispatch.
  unfold _ir_iteration. rewrite Hvalid.
  unfold bind at 1. unfold get at 1. rewrite Hnew.
  unfold bind, modify, emit, state_of, trace_of.
  destruct (_handle_ir_code cfg code env _) as [[a s1] t1]. destruct a. reflexivity.
Qed.

Lemma ir_iteration_dropped cfg code rest now env s :
  (negb (code =? 0) && (code <? 0xFF)) = true ->
  (negb (IR_DEBUG cfg)
   && ((code =? _last_ir_code s)
       && Qltb (now - _last_ir_time s) (IR_DEBOUNCE_SEC cfg))) = true ->
  _ir_iteration cfg (read_returns (Some (code :: rest))) now env s = (tt, s, [Sleep 50]).
Proof.
  intros Hvalid Hsame.
  unfold _ir_iteration. rewrite Hvalid.
  unfold bind at 1. unfold get at 1. rewrite Hsame. reflexivity.
Qed.

Lemma valid_code_test (code : Z) :
  code <> 0 -> code < 0xFF -> (negb (code =? 0) && (code <? 0xFF)) = true.
Proof.
  intros Hnz Hlt. apply andb_true_iff. split.
  - apply negb_true_iff, Z.eqb_neq, Hnz.
  - apply Z.ltb_lt, Hlt.
Qed.

(** C6 (amended).  With the debug bypass off, for a code that passes the
    test of the loop (it is not 0 and it is below 0xFF): when it equals the
    last dispatched one and arrives strictly inside the debounce window it is
    dropped and the debounce state stays as it was; when it arrives at or
    after the end of the window, or differs from the last one, it is
    dispatched to [_handle_ir_code], and the debounce state then holds this
    code and this time stamp. *)
Theorem ir_debounce (cfg : Config) (code : Z) (rest : list Z) (now : Q)
    (env : Env) (s : BigMainApp) :
  IR_DEBUG cfg = false -> code <> 0 -> code < 0xFF ->
  let iteration := _ir_iteration cfg (read_returns (Some (code :: rest))) now env s in
  (code = _last_ir_code s ->
   (now - _last_ir_time s < IR_DEBOUNCE_SEC cfg)%Q ->
   iteration = (tt, s, [Sleep 50]))
  /\ (code <> _last_ir_code s \/ (IR_DEBOUNCE_SEC cfg <= now - _last_ir_time s)%Q ->
      let dispatch :=
        _handle_ir_code cfg code env (set_last_ir_time now (set_last_ir_code code s)) in
      iteration = (tt, state_of dispatch, LogIRCode code :: trace_of dispatch ++ [Sleep 50])
      /\ _last_ir_code (state_of dispatch) = code
      /\ _last_ir_time (state_of dispatch) = now).
Proof.
  intros Hdebug Hnz Hlt iteration. subst iteration.
  pose proof (valid_code_test code Hnz Hlt) as Hvalid.
  split.
  - intros Hsame Hin. apply ir_iteration_dropped; [ exact Hvalid | ].
    rewrite Hdebug. simpl. apply andb_true_iff. split.
    + apply Z.eqb_eq, Hsame.
    + apply Qltb_true, Hin.
  - intros Hnew dispatch. subst dispatch. split.
    + apply ir_iteration_dispatch; [ exact Hvalid | ].
      rewrite Hdebug. simpl. apply andb_false_iff.
      destruct Hnew as [Hother | Hlate].
      * left. apply Z.eqb_neq, Hother.
      * right. apply Qltb_false, Hlate.
    + apply (debounce_frame_handle_ir_code code now cfg code env).
      destruct s; split; reflexivity.
Qed.

Lemma ir_debounce_witness :
  _ir_iteration default_config (read_returns (Some [1])) 0.1 env_all_ok
    (set_last_ir_code 1 init_app)
  = (tt, set_last_ir_code 1 init_app, [Sleep 50])
  /\ _last_ir_code
       (state_of (_ir_iteration default_config (read_returns (Some [1])) 0.1 env_all_ok
                    init_app)) = 1.
Proof.
  split.
  - apply (proj1 (ir_debounce default_config 1 [] 0.1 env_all_ok
                    (set_last_ir_code 1 init_app) eq_refl ltac:(lia) ltac:(lia))).
    + reflexivity.
    + reflexivity.
  - destruct (proj2 (ir_debounce default_config 1 [] 0.1 env_all_ok init_app
                       eq_refl ltac:(lia) ltac:(lia))) as [Heq [Hcode _]].
    + left. simpl. lia.
    + rewrite Heq. exact Hcode.
Defined.

(** A code different from the last one that is not dispatched: 0xFF, which
    the receiver delivers when no key is down, after the code 1.  The loop
    drops it before it looks at the debounce state. *)
Lemma sentinel_code_is_not_dispatched :
  IR_DEBUG default_config = false
  /\ 255 <> _last_ir_code (set_last_ir_code 1 init_app)
  /\ _ir_iteration default_config (read_returns (Some [255])) 1 env_all_ok
       (set_last_ir_code 1 init_app)
     = (tt, set_last_ir_code 1 init_app, [Sleep 50]).
Proof. split; [ reflexivity | split; [ discriminate | reflexivity ] ]. Qed.

(** C7.  The exit code of the shipped configuration is 0x00, and the poll
    loop discards a reading of 0 before the debounce test: the iteration
    only sleeps, [_handle_ir_code] is not called, the stop flag keeps its
    value, and so [shutdown] is never reached from the remote. *)
Theorem exit_code_never_dispatched (rest : list Z) (now : Q) (env : Env) (s : BigMainApp) :
  mapped default_config (IR_EXIT_APP default_config) = true
  /\ _ir_iteration default_config
       (read_returns (Some (IR_EXIT_APP default_config :: rest))) now env s
     = (tt, s, [Sleep 50]).
Proof. split; reflexivity. Qed.

(** Whatever the configuration, a reading of 0 is discarded. *)
Lemma zero_code_dropped (cfg : Config) (rest : list Z) (now : Q) (env : Env)
    (s : BigMainApp) :
  _ir_iteration cfg (read_returns (Some (0 :: rest))) now env s = (tt, s, [Sleep 50]).
Proof. reflexivity. Qed.

(** The handler itself does map the exit code to [shutdown]. *)
Lemma handle_exit_code_shuts_down (env : Env) (s : BigMainApp) :
  _stop_flag (state_of (_handle_ir_code default_config (IR_EXIT_APP default_config) env s))
  = true.
Proof.
  change (_handle_ir_code default_config (IR_EXIT_APP default_config))
    with (bind (bind (emit (Print "[IR] Exit command received.")) (fun _ => shutdown))
               (fun _ => trigger_beep)).
  rewrite !state_bind. apply shutdown_sets_stop_flag.
Qed.

(** C8 (amended).  Every call of [_handle_ir_code] ends with a beep, whether the code
    is in the command table or not and whether debug logging is on or off. *)
Theorem handle_ir_code_always_beeps (cfg : Config) (code : Z) (env : Env) (s : BigMainApp) :
  exists t, trace_of (_handle_ir_code cfg code env s) = t ++ [Beep].
Proof.
  unfold _handle_ir_code. rewrite trace_bind.
  eexists. reflexivity.
Qed.

(** An unmapped code with debug logging off does beep. *)
Lemma unmapped_code_beeps_without_debug :
  mapped default_config 0x99 = false
  /\ IR_DEBUG default_config = false
  /\ In Beep (trace_of (_handle_ir_code default_config 0x99 env_all_ok init_app)).
Proof.
  split; [ reflexivity | split; [ reflexivity | ] ].
  vm_compute. left. reflexivity.
Qed.

(** ** Camera failure *)

Lemma ends_with_single e : ends_with e [e].
Proof. exists []. reflexivity. Qed.
Lemma ends_with_cons e x t : ends_with e t -> ends_with e (x :: t).
Proof. intros [t0 ->]. exists (x :: t0). reflexivity. Qed.
Lemma ends_with_app e t1 t2 : ends_with e t2 -> ends_with e (t1 ++ t2).
Proof. intros [t0 ->]. exists (t1 ++ t0). apply app_assoc. Qed.

Ltac ends_with_tac :=
  repeat first [ apply ends_with_single | apply ends_with_cons | apply ends_with_app ].

(** Turn boolean hypotheses into equations on variables and substitute. *)
Ltac bool_hyps :=
  repeat match goal with
  | H : _ && _ = true |- _ => apply andb_true_iff in H; destruct H
  | H : negb _ = true |- _ => apply negb_true_iff in H
  | H : negb _ = false |- _ => apply negb_false_iff in H
  | H : ?x = true |- _ => is_var x; subst x
  | H : ?x = false |- _ => is_var x; subst x
  | H : true = true |- _ => clear H
  | H : false = false |- _ => clear H
  end.

Lemma ensure_camera_fails (env : Env) (s : BigMainApp) :
  value_of (_ensure_camera env (stop_all_state s)) = false ->
  (_camera_initialized s = false /\ cam_ok env = false)
  \/ (_camera_initialized s = true /\ camera s = None).
Proof.
  destruct s as [? ? [[]|] [|] ? ? ? ? ? [|] ? [? [|] [|]] [? [|] [|]] ? ? ?];
    destruct env as [[|] ? ? ? ? ?]; cbv; intros H;
    solve [ discriminate H | left; split; reflexivity | right; split; reflexivity ].
Qed.

(** C2.  When a request gets as far as acquiring the camera and
    [_ensure_camera] reports failure, the request ends with no mode and no
    colour active, without a camera, and its last effect is the failure
    message: nothing is started after it.  The previously active mode was
    stopped before the acquisition and is not restored. *)
Theorem camera_failure_falls_back_to_idle (r : Request) (env : Env) (s : BigMainApp) :
  reaches_camera s r = true ->
  value_of (_ensure_camera env (state_of (_stop_all_camera_modes env s))) = false ->
  let s' := state_of (requestMode r env s) in
  active_mode s' = None /\ active_color s' = None /\ camera s' = None
  /\ ends_with (Print (camera_failure_message r)) (trace_of (requestMode r env s)).
Proof.
  intros Hreach Hfail.
  change (wp (requestMode r) env s (fun _ s' t' =>
    active_mode s' = None /\ active_color s' = None /\ camera s' = None
    /\ ends_with (Print (camera_failure_message r)) t')).
  rewrite stop_all_summary in Hfail. apply ensure_camera_fails in Hfail.
  destruct_app s; destruct env; destruct r;
    unfold reaches_camera, is_active in Hreach; simpl in Hreach, Hfail;
    rewrite ?andb_false_r in Hreach; try discriminate Hreach;
    destruct Hfail as [[Hinit Hcam] | [Hinit Hcam]]; subst; bool_hyps.
  all: wp_run_with stop_summaries.
  all: try solve [ exfalso; repeat match goal with m : Mode |- _ => destruct m end;
                   simpl in *;
                   repeat match goal with
                   | H : context [String.eqb ?a ?b] |- _ => destruct (String.eqb a b)
                   end; discriminate ].
  all: repeat split; try reflexivity; ends_with_tac.
Qed.

Lemma camera_failure_falls_back_to_idle_witness :
  active_mode (state_of (_start_color_mode "red" env_no_camera init_app)) = None
  /\ ends_with (Print "[ERROR] Camera unavailable.")
       (trace_of (_start_color_mode "red" env_no_camera init_app)).
Proof.
  destruct (camera_failure_falls_back_to_idle (req_color "red") env_no_camera init_app)
    as [Hmode [_ [_ Htrace]]].
  - reflexivity.
  - reflexivity.
  - split; [ exact Hmode | exact Htrace ].
Defined.

(** ** The invariant of the coordinator *)

(** Open an invariant on a state given by its fields. *)
Ltac open_inv H :=
  destruct H as [[? ?] [? ?] [? ?] ? ? ? ? ?];
  unfold mode_is, pending_release in *; simpl in *;
  repeat match goal with
  | H : _ = is_some ?o |- _ => is_var o; destruct o; simpl in H
  | H : true = false |- _ => discriminate H
  | H : false = true |- _ => discriminate H
  | H : ?x = true |- _ => is_var x; subst x
  | H : ?x = false |- _ => is_var x; subst x
  | H : ?a = ?a |- _ => clear H
  end.

Ltac close_inv :=
  constructor; unfold worker_consistent, mode_is, pending_release; simpl;
  rewrite ?existsb_app; simpl; rewrite ?orb_true_r;
  repeat split; auto; try discriminate; try congruence.

Ltac inv_leaf :=
  repeat match goal with m : option Mode |- _ => destruct m end;
  repeat match goal with m : Mode |- _ => destruct m end; simpl in *;
  try discriminate;
  close_inv;
  repeat match goal with
  | H : ?a = ?a -> _ |- _ => specialize (H eq_refl)
  end; auto; try discriminate; try congruence.

Ltac prove_inv :=
  let H := fresh "HInv" in
  intros H;
  lazymatch goal with
  | |- Inv (state_of (?m ?env ?s)) =>
      change (wp m env s (fun _ s' _ => Inv s'));
      destruct_app s; destruct env; open_inv H;
      wp_run_with stop_summaries
  end.

Lemma inv_init : Inv init_app.
Proof. constructor; cbv; auto; try discriminate. Qed.

Lemma inv_stop_all env s : Inv s -> Inv (state_of (_stop_all_camera_modes env s)).
Proof. prove_inv. all: inv_leaf. Qed.

Lemma inv_start_color c env s : Inv s -> Inv (state_of (_start_color_mode c env s)).
Proof. prove_inv. all: inv_leaf. Qed.

Lemma inv_start_face env s : Inv s -> Inv (state_of (_start_face_mode env s)).
Proof. prove_inv. all: inv_leaf. Qed.

Lemma inv_start_gesture env s : Inv s -> Inv (state_of (_start_gesture_mode env s)).
Proof. prove_inv. all: inv_leaf. Qed.

Lemma inv_start_object env s : Inv s -> Inv (state_of (_start_object_mode env s)).
Proof. prove_inv. all: inv_leaf. Qed.

Lemma inv_start_plate env s : Inv s -> Inv (state_of (_start_plate_mode env s)).
Proof. prove_inv. all: inv_leaf. Qed.

Lemma inv_start_rps env s : Inv s -> Inv (state_of (_start_rps_if_needed env s)).
Proof. prove_inv. all: inv_leaf. Qed.

Lemma inv_start_presentation env s :
  Inv s -> Inv (state_of (_start_presentation_mode env s)).
Proof. prove_inv. all: inv_leaf. Qed.

Lemma inv_toggle_ai env s : Inv s -> Inv (state_of (_toggle_ai env s)).
Proof. prove_inv. all: inv_leaf. Qed.

Lemma inv_release_camera env s r' :
  Inv s -> Inv (state_of (_release_camera_completely env (set_root r' s))).
Proof.
  intros HInv.
  change (wp _release_camera_completely env (set_root r' s) (fun _ s' _ => Inv s')).
  destruct_app s; destruct env; destruct r'; open_inv HInv.
  all: wp_run_with stop_summaries.
  all: inv_leaf.
Qed.

Lemma inv_start_chatbot b env s : Inv s -> Inv (state_of (_start_chatbot_if_needed b env s)).
Proof. prove_inv. all: inv_leaf. Qed.

Lemma inv_stop_chatbot env s : Inv s -> Inv (state_of (_stop_chatbot_if_running env s)).
Proof. prove_inv. all: inv_leaf. Qed.

Lemma inv_stop_rps env s : Inv s -> Inv (state_of (_stop_rps_if_running env s)).
Proof. prove_inv. all: inv_leaf. Qed.

Lemma inv_stop_presentation env s :
  Inv s -> Inv (state_of (_stop_presentation_if_running env s)).
Proof. prove_inv. all: inv_leaf. Qed.

Lemma inv_shutdown env s : Inv s -> Inv (state_of (shutdown env s)).
Proof. prove_inv. all: inv_leaf. Qed.

Lemma inv_set_root s r' :
  Inv s ->
  (pending_release s = true -> existsb is_release (after_queue r') = true) ->
  Inv (set_root r' s).
Proof.
  intros [H1 H2 H3 H4 H5 H6 H7 H8] Hq. destruct s.
  constructor; simpl in *; auto.
Qed.

Lemma inv_root_after ms cb env s : Inv s -> Inv (state_of (root_after ms cb env s)).
Proof.
  intros HInv. apply (inv_set_root s _ HInv). simpl.
  unfold pending_release. intros Hq. rewrite existsb_app, Hq. reflexivity.
Qed.

Lemma inv_set_last_ir code now s :
  Inv s -> Inv (set_last_ir_time now (set_last_ir_code code s)).
Proof.
  intros [H1 H2 H3 H4 H5 H6 H7 H8]. destruct s. constructor; simpl in *; auto.
Qed.

Lemma inv_handle_ir_code cfg code env s :
  Inv s -> Inv (state_of (_handle_ir_code cfg code env s)).
Proof.
  intros HInv. unfold _handle_ir_code. rewrite state_bind.
  change (state_of (trigger_beep env ?s')) with s'.
  repeat match goal with
  | |- context [if ?c then _ else _] => destruct c
  end;
  auto using inv_start_color, inv_start_face, inv_start_gesture, inv_start_object,
    inv_start_plate, inv_root_after.
  - rewrite state_bind. apply inv_shutdown. exact HInv.
  - destruct (IR_DEBUG cfg); exact HInv.
Qed.

Lemma inv_ir_iteration cfg r now env s :
  Inv s -> Inv (state_of (_ir_iteration cfg r now env s)).
Proof.
  intros HInv. destruct r as [ | [[ | code rest] | ]]; try exact HInv.
  unfold _ir_iteration.
  destruct (negb (code =? 0) && (code <? 255)); [ | exact HInv ].
  rewrite state_bind. simpl.
  match goal with |- context [if ?c then _ else _] => destruct c end; [ exact HInv | ].
  rewrite !state_bind. simpl.
  apply inv_handle_ir_code, inv_set_last_ir, HInv.
Qed.

Lemma existsb_remove_nth {A : Type} (f : A -> bool) (l : list A) (i : nat) (x : A) :
  nth_error l i = Some x -> f x = false ->
  existsb f l = true -> existsb f (remove_nth i l) = true.
Proof.
  revert i. induction l as [ | y l IH]; intros i Hnth Hx Hl.
  - discriminate Hl.
  - destruct i as [ | i]; simpl in *.
    + inversion Hnth; subst. rewrite Hx in Hl. exact Hl.
    + destruct (f y); [ reflexivity | ]. apply (IH i); assumption.
Qed.

Lemma inv_tk_run_pending i env s : Inv s -> Inv (state_of (tk_run_pending i env s)).
Proof.
  intros HInv. unfold tk_run_pending. rewrite state_bind.
  change (value_of (get env s)) with s. change (state_of (get env s)) with s.
  destruct (nth_error (after_queue (root s)) i) as [[ms cb] | ] eqn:Hnth; [ | exact HInv ].
  rewrite state_bind.
  match goal with
  | |- context [state_of (modify ?f env s)] =>
      change (state_of (modify f env s)) with (f s)
  end.
  destruct cb; cbv beta; simpl run_callback.
  - apply inv_start_rps, inv_set_root; [ exact HInv | ].
    simpl. apply (existsb_remove_nth _ _ _ _ Hnth). reflexivity.
  - apply inv_start_presentation, inv_set_root; [ exact HInv | ].
    simpl. apply (existsb_remove_nth _ _ _ _ Hnth). reflexivity.
  - apply inv_toggle_ai, inv_set_root; [ exact HInv | ].
    simpl. apply (existsb_remove_nth _ _ _ _ Hnth). reflexivity.
  - apply inv_release_camera, HInv.
  - unfold root_destroy, modify, state_of; simpl.
    apply inv_set_root.
    + apply inv_set_root; [ exact HInv | ].
      simpl. apply (existsb_remove_nth _ _ _ _ Hnth). reflexivity.
    + destruct s; simpl. auto.
Qed.

Lemma inv_run_op cfg op env s : Inv s -> Inv (state_of (run_op cfg op env s)).
Proof.
  intros HInv. destruct op; simpl;
    auto using inv_start_color, inv_start_face, inv_start_gesture, inv_start_object,
      inv_start_plate, inv_start_rps, inv_start_presentation, inv_toggle_ai,
      inv_stop_all, inv_start_chatbot, inv_stop_chatbot, inv_stop_rps,
      inv_stop_presentation, inv_handle_ir_code, inv_ir_iteration, inv_tk_run_pending,
      inv_shutdown.
  replace s with (set_root (root s) s) by (destruct s; reflexivity).
  apply inv_release_camera.
  replace (set_root (root s) s) with s by (destruct s; reflexivity). exact HInv.
Qed.

Lemma inv_run_ops cfg ops s : Inv s -> Inv (run_ops cfg ops s).
Proof.
  revert s. induction ops as [ | [op env] ops IH]; intros s HInv.
  - exact HInv.
  - simpl. apply IH, inv_run_op, HInv.
Qed.

(** ** Mutual exclusion *)







(** ** Requesting the active mode again *)

Lemma option_string_eqb_refl (x : option string) : option_eqb String.eqb x x = true.
Proof. destruct x; simpl; [ apply String.eqb_refl | reflexivity ]. Qed.

Lemma active_request_is_noop (r : Request) (env : Env) (s : BigMainApp) :
  Inv s -> is_active s r = true ->
  state_of (requestMode r env s) = s
  /\ only_logs (trace_of (requestMode r env s)) = true.
Proof.
  intros HInv Hact. unfold is_active in Hact.
  apply andb_true_iff in Hact. destruct Hact as [Hmode Hparam].
  pose proof (inv_rps_mode s HInv) as Hrps.
  pose proof (inv_presentation_mode s HInv) as Hpres.
  unfold mode_is in Hrps, Hpres. clear HInv.
  destruct s as [rt fa cam ci csd an bt am ac ai cw [rth rev rst] [pth pev pst] sf lc lt];
    simpl in *.
  destruct am as [m | ]; [ | simpl in Hmode; discriminate Hmode ].
  destruct r; destruct m; simpl in *; try discriminate Hmode; subst;
    try (destruct ac as [a | ]; [ | simpl in Hparam; discriminate Hparam ]);
    unfold requestMode, _start_color_mode, _start_face_mode, _start_gesture_mode,
      _start_object_mode, _start_plate_mode, _start_rps_if_needed,
      _start_presentation_mode, bind, get; simpl;
    try (simpl in Hparam; rewrite Hparam); destruct ai; simpl; split; reflexivity.
Qed.

(** C4.  In every state a run reaches, requesting the mode that is active
    already, with the same parameters, leaves the state as it is, and the
    call does nothing beyond printing at most a log line: no detector, no
    worker and no hardware is touched. *)
Theorem request_of_active_mode_is_noop (cfg : Config) (ops : list (Op * Env))
    (r : Request) (env : Env) :
  let s := run_ops cfg ops init_app in
  is_active s r = true ->
  state_of (requestMode r env s) = s
  /\ only_logs (trace_of (requestMode r env s)) = true.
Proof.
  intros s. apply active_request_is_noop, inv_run_ops, inv_init.
Qed.

Lemma request_of_active_mode_is_noop_witness :
  state_of (requestMode (req_color "red") env_all_ok color_red_active) = color_red_active
  /\ only_logs (trace_of (requestMode (req_color "red") env_all_ok color_red_active)) = true.
Proof.
  apply (request_of_active_mode_is_noop default_config
           [(op_start_color_mode "red", env_all_ok)] (req_color "red") env_all_ok).
  reflexivity.
Defined.

(** ** Worker bookkeeping *)

Lemma worker_consistent_iff (w : Worker) :
  worker_consistent w ->
  (started w = true <-> thread w <> None)
  /\ (started w = true <-> stop_event w <> None).
Proof.
  intros [Ht He]. rewrite Ht at 1. rewrite He.
  destruct (thread w), (stop_event w); simpl; split; split;
    intros H; try discriminate; try reflexivity; try congruence.
Qed.

Lemma stop_clears_worker (env : Env) (s : BigMainApp) :
  Inv s ->
  chatbot (state_of (_stop_chatbot_if_running env s)) = stopped_worker
  /\ rps_game (state_of (_stop_rps_if_running env s)) = stopped_worker
  /\ presentation_w (state_of (_stop_presentation_if_running env s)) = stopped_worker.
Proof.
  intros [[Hc1 Hc2] [Hr1 Hr2] [Hp1 Hp2] _ _ _ _ _].
  rewrite stop_chatbot_summary, stop_rps_summary, stop_presentation_summary.
  unfold stop_chatbot_state, stop_rps_state, stop_presentation_state.
  destruct s as [? ? ? ? ? ? ? ? ? ? [[|] [|] [|]] [[|] [|] [|]] [[|] [|] [|]] ? ? ?];
    simpl in *; try discriminate; repeat split; reflexivity.
Qed.

(** C9.  In every state a run reaches (the runs contain the start and stop
    operations of the three workers, with joins that succeed and joins that
    time out), the started flag of each worker record is true exactly when
    its thread reference is set, and exactly when its stop event is set; and
    from such a state each stop operation leaves its record cleared (flag
    false, no thread, no stop event) whatever the join does. *)
Theorem worker_records_consistent (cfg : Config) (ops : list (Op * Env)) :
  let s := run_ops cfg ops init_app in
  (forall w, In w [chatbot s; rps_game s; presentation_w s] ->
     (started w = true <-> thread w <> None)
     /\ (started w = true <-> stop_event w <> None))
  /\ (forall env,
        chatbot (state_of (_stop_chatbot_if_running env s)) = stopped_worker
        /\ rps_game (state_of (_stop_rps_if_running env s)) = stopped_worker
        /\ presentation_w (state_of (_stop_presentation_if_running env s))
           = stopped_worker).
Proof.
  intros s. assert (HInv : Inv s) by (apply inv_run_ops, inv_init).
  split.
  - intros w [Hw | [Hw | [Hw | []]]]; subst w; apply worker_consistent_iff.
    + apply (inv_chatbot s HInv).
    + apply (inv_rps s HInv).
    + apply (inv_presentation s HInv).
  - intros env. apply stop_clears_worker, HInv.
Qed.

Lemma worker_records_consistent_witness :
  started (rps_game rps_running) = true
  /\ thread (rps_game rps_running) <> None
  /\ In (ThreadJoin RPSGameThread false)
        (trace_of (_stop_rps_if_running env_join_timeout rps_running))
  /\ rps_game (state_of (_stop_rps_if_running env_join_timeout rps_running))
     = stopped_worker.
Proof.
  pose proof (worker_records_consistent default_config
                [(op_start_rps_if_needed, env_all_ok)]) as [Hiff Hstop].
  split; [ reflexivity | split ].
  - apply (proj1 (proj1 (Hiff (rps_game rps_running) (or_intror (or_introl eq_refl))))).
    reflexivity.
  - split.
    + vm_compute. right. right. left. reflexivity.
    + apply (Hstop env_join_timeout).
Defined.

(** ** Shutdown, camera release and the AI switch *)

Ltac post_leaf :=
  repeat match goal with m : option Mode |- _ => destruct m end;
  repeat match goal with m : Mode |- _ => destruct m end; simpl in *;
  try discriminate;
  repeat match goal with
  | H : ?a = ?a -> _ |- _ => specialize (H eq_refl)
  end;
  try congruence;
  repeat split; try reflexivity;
  try (match goal with
       | H : Some _ = Some _ |- _ => inversion H; subst; reflexivity
       | H : None = Some _ |- _ => discriminate H
       end);
  try ends_with_tac;
  try (apply in_or_app; right; left; reflexivity);
  try congruence.

(** Paths on which a test on the mode or the colour contradicts what is
    known of the state. *)
Ltac absurd_tests :=
  try solve [ exfalso; repeat match goal with m : Mode |- _ => destruct m end;
              simpl in *;
              repeat match goal with
              | H : context [String.eqb ?a ?b] |- _ => destruct (String.eqb a b)
              end; discriminate ].




(** X2.  With the AI off, [_release_camera_completely] releases the camera
    for good.  From any state in which [ai_enabled] is false and in any
    environment it ends without a camera object, with the initialised and
    shutting-down flags cleared, no mode and no colour active, the motors
    stopped and the LEDs off; the AI stays off, the chatbot record, the Tk
    root and the face are as they were, and its last line is the one that
    reports the release.  (With the AI on the function goes on to
    [_start_ai_components], which is not part of this statement.) *)
Theorem release_camera_with_ai_off (env : Env) (s : BigMainApp) :
  ai_enabled s = false ->
  let r := _release_camera_completely env s in
  camera_released (state_of r)
  /\ ai_enabled (state_of r) = false
  /\ led (bot (state_of r)) = None
  /\ chatbot (state_of r) = chatbot s
  /\ root (state_of r) = root s
  /\ face_app (state_of r) = face_app s
  /\ ends_with (Print "[CAMERA] Camera completely released and memory freed.") (trace_of r).
Proof.
  intros Hai.
  change (wp _release_camera_completely env s (fun _ s' t =>
    camera_released s'
    /\ ai_enabled s' = false
    /\ led (bot s') = None
    /\ chatbot s' = chatbot s
    /\ root s' = root s
    /\ face_app s' = face_app s
    /\ ends_with (Print "[CAMERA] Camera completely released and memory freed.") t)).
  destruct_app s; destruct env; simpl in Hai; subst.
  all: wp_run_with stop_summaries.
  all: unfold camera_released; post_leaf.
Qed.

Lemma release_camera_with_ai_off_witness :
  camera color_red_active <> None
  /\ camera_released (state_of (_release_camera_completely env_all_ok color_red_active)).
Proof.
  split; [ discriminate | ].
  apply (release_camera_with_ai_off env_all_ok color_red_active eq_refl).
Defined.

Lemma toggle_ai_defers_release env s :
  Inv s -> ai_enabled s = false -> camera s <> None ->
  release_deferred s (state_of (_toggle_ai env s)).
Proof.
  intros HInv Hai Hcam.
  change (wp _toggle_ai env s (fun _ s1 _ => release_deferred s s1)).
  destruct_app s; destruct env; open_inv HInv; try (exfalso; apply Hcam; reflexivity).
  all: wp_run_with stop_summaries.
  all: unfold release_deferred; post_leaf.
Qed.

(** X3.  Switching the AI on while there is a camera object does not
    release the camera: it defers the release.  From every state a run
    reaches with the AI off and a camera object, [_toggle_ai] sets
    [ai_enabled], stops the RPS and presentation workers and appends
    [_release_camera_completely] to the Tk queue, and that is all: the
    camera object and its detectors, the active colour, the chatbot record,
    the face and the hardware are as they were.  The active mode becomes
    [None] when one of the two workers was started and is as it was
    otherwise: a camera mode that was active then is still the active mode
    when the handler returns. *)
Theorem enabling_ai_defers_camera_release (cfg : Config) (ops : list (Op * Env)) (env : Env) :
  let s := run_ops cfg ops init_app in
  ai_enabled s = false -> camera s <> None ->
  release_deferred s (state_of (_toggle_ai env s)).
Proof.
  intros s Hai Hcam. apply toggle_ai_defers_release;
    [ apply inv_run_ops, inv_init | exact Hai | exact Hcam ].
Qed.

Lemma enabling_ai_defers_camera_release_witness :
  release_deferred color_red_active (state_of (_toggle_ai env_all_ok color_red_active))
  /\ active_mode (state_of (_toggle_ai env_all_ok color_red_active)) = Some color.
Proof.
  assert (H : release_deferred color_red_active
                (state_of (_toggle_ai env_all_ok color_red_active))).
  { apply (enabling_ai_defers_camera_release default_config
             [(op_start_color_mode "red", env_all_ok)] env_all_ok eq_refl).
    discriminate. }
  split; [ exact H | ]. reflexivity.
Defined.

Lemma toggle_ai_off_from_inv env s :
  Inv s -> ai_enabled s = true -> ai_switched_off s (state_of (_toggle_ai env s)).
Proof.
  intros HInv Hai.
  change (wp _toggle_ai env s (fun _ s' _ => ai_switched_off s s')).
  destruct_app s; destruct env; open_inv HInv.
  all: wp_run_with stop_summaries.
  all: unfold ai_switched_off; post_leaf.
Qed.

(** X4.  Switching the AI off after any run stops the chatbot and clears
    its record, even when the thread does not exit within the join timeout,
    hides the face window, stops the animation, resets the face to neutral
    and switches the LEDs off; camera, active mode, the other two workers
    and the Tk queue are left as they were. *)
Theorem disabling_ai_stops_chatbot (cfg : Config) (ops : list (Op * Env)) (env : Env) :
  let s := run_ops cfg ops init_app in
  ai_enabled s = true -> ai_switched_off s (state_of (_toggle_ai env s)).
Proof.
  intros s Hai. apply toggle_ai_off_from_inv; [ apply inv_run_ops, inv_init | exact Hai ].
Qed.

Lemma disabling_ai_stops_chatbot_witness :
  started (chatbot ai_on) = true
  /\ ai_switched_off ai_on (state_of (_toggle_ai env_join_timeout ai_on)).
Proof.
  split; [ reflexivity | ].
  apply (disabling_ai_stops_chatbot default_config [(op_toggle_ai, env_all_ok)]
           env_join_timeout eq_refl).
Defined.

(** ** Requests that go through *)




(** ** The detectors follow the active mode *)

Ltac open_coh H :=
  destruct H as [? ? ?]; simpl in *;
  repeat match goal with
  | H : forall c, Some ?c0 = Some c -> _ |- _ => specialize (H c0 eq_refl)
  | H : forall c, None = Some c -> _ |- _ => clear H
  | H : true = true -> _ |- _ => specialize (H eq_refl)
  | H : false = true -> _ |- _ => clear H
  | H : ?x = true |- _ => is_var x; subst x
  | H : ?x = false |- _ => is_var x; subst x
  end.

Ltac coh_close :=
  constructor; simpl;
  [ let c := fresh "c" in let Hc := fresh "Hc" in
    intros c Hc; try discriminate Hc; inversion Hc; subst; simpl;
    first [ assumption | cbv; lia ]
  | let c := fresh "c" in let Hc := fresh "Hc" in
    intros c Hc; try discriminate Hc; inversion Hc; subst; simpl;
    first [ assumption | exact I | cbv; repeat split; try reflexivity; try discriminate;
            try solve [ left; reflexivity | right; reflexivity ] ]
  | first [ assumption | reflexivity | discriminate | intros; congruence | auto ] ].

Ltac coh_leaf :=
  repeat match goal with m : option Mode |- _ => destruct m end;
  repeat match goal with m : Mode |- _ => destruct m end; simpl in *;
  try discriminate;
  coh_close.

Ltac prove_coh :=
  let H := fresh "HInv" in let H' := fresh "HCoh" in
  intros H H';
  lazymatch goal with
  | |- Coh (state_of (?m ?env ?s)) =>
      change (wp m env s (fun _ s' _ => Coh s'));
      destruct_app s; destruct env; open_inv H; open_coh H';
      wp_run_with stop_summaries
  end.

Lemma coh_init : Coh init_app.
Proof. constructor; cbv; intros; discriminate. Qed.

Lemma coh_stop_all env s : Inv s -> Coh s -> Coh (state_of (_stop_all_camera_modes env s)).
Proof. prove_coh. all: coh_leaf. Qed.

Lemma coh_start_color c env s : Inv s -> Coh s -> Coh (state_of (_start_color_mode c env s)).
Proof. prove_coh. all: coh_leaf. Qed.

Lemma coh_start_face env s : Inv s -> Coh s -> Coh (state_of (_start_face_mode env s)).
Proof. prove_coh. all: coh_leaf. Qed.

Lemma coh_start_gesture env s : Inv s -> Coh s -> Coh (state_of (_start_gesture_mode env s)).
Proof. prove_coh. all: coh_leaf. Qed.

Lemma coh_start_object env s : Inv s -> Coh s -> Coh (state_of (_start_object_mode env s)).
Proof. prove_coh. all: coh_leaf. Qed.

Lemma coh_start_plate env s : Inv s -> Coh s -> Coh (state_of (_start_plate_mode env s)).
Proof. prove_coh. all: coh_leaf. Qed.

Lemma coh_start_rps env s : Inv s -> Coh s -> Coh (state_of (_start_rps_if_needed env s)).
Proof. prove_coh. all: coh_leaf. Qed.

Lemma coh_start_presentation env s :
  Inv s -> Coh s -> Coh (state_of (_start_presentation_mode env s)).
Proof. prove_coh. all: coh_leaf. Qed.

Lemma coh_toggle_ai env s : Inv s -> Coh s -> Coh (state_of (_toggle_ai env s)).
Proof. prove_coh. all: coh_leaf. Qed.

Lemma coh_release_camera env s r' :
  Inv s -> Coh s -> Coh (state_of (_release_camera_completely env (set_root r' s))).
Proof.
  intros HInv HCoh.
  change (wp _release_camera_completely env (set_root r' s) (fun _ s' _ => Coh s')).
  destruct_app s; destruct env; destruct r'; open_inv HInv; open_coh HCoh.
  all: wp_run_with stop_summaries.
  all: coh_leaf.
Qed.

Lemma coh_start_chatbot b env s :
  Inv s -> Coh s -> Coh (state_of (_start_chatbot_if_needed b env s)).
Proof. prove_coh. all: coh_leaf. Qed.

Lemma coh_stop_chatbot env s : Inv s -> Coh s -> Coh (state_of (_stop_chatbot_if_running env s)).
Proof. prove_coh. all: coh_leaf. Qed.

Lemma coh_stop_rps env s : Inv s -> Coh s -> Coh (state_of (_stop_rps_if_running env s)).
Proof. prove_coh. all: coh_leaf. Qed.

Lemma coh_stop_presentation env s :
  Inv s -> Coh s -> Coh (state_of (_stop_presentation_if_running env s)).
Proof. prove_coh. all: coh_leaf. Qed.

Lemma coh_shutdown env s : Inv s -> Coh s -> Coh (state_of (shutdown env s)).
Proof. prove_coh. all: coh_leaf. Qed.

Lemma coh_set_root s r' : Coh s -> Coh (set_root r' s).
Proof. intros [H1 H2 H3]. destruct s. constructor; simpl in *; auto. Qed.

Lemma coh_set_last_ir code now s :
  Coh s -> Coh (set_last_ir_time now (set_last_ir_code code s)).
Proof. intros [H1 H2 H3]. destruct s. constructor; simpl in *; auto. Qed.

Lemma coh_handle_ir_code cfg code env s :
  Inv s -> Coh s -> Coh (state_of (_handle_ir_code cfg code env s)).
Proof.
  intros HInv HCoh. unfold _handle_ir_code. rewrite state_bind.
  change (state_of (trigger_beep env ?s')) with s'.
  repeat match goal with
  | |- context [if ?c then _ else _] => destruct c
  end;
  auto using coh_start_color, coh_start_face, coh_start_gesture, coh_start_object,
    coh_start_plate;
  try (apply coh_set_root; exact HCoh).
  - rewrite state_bind. apply coh_shutdown; assumption.
  - destruct (IR_DEBUG cfg); exact HCoh.
Qed.

Lemma coh_ir_iteration cfg r now env s :
  Inv s -> Coh s -> Coh (state_of (_ir_iteration cfg r now env s)).
Proof.
  intros HInv HCoh. destruct r as [ | [[ | code rest] | ]]; try exact HCoh.
  unfold _ir_iteration.
  destruct (negb (code =? 0) && (code <? 255)); [ | exact HCoh ].
  rewrite state_bind. simpl.
  match goal with |- context [if ?c then _ else _] => destruct c end; [ exact HCoh | ].
  rewrite !state_bind. simpl.
  apply coh_handle_ir_code; [ apply inv_set_last_ir, HInv | apply coh_set_last_ir, HCoh ].
Qed.

Lemma inv_dequeue i ms cb s :
  Inv s -> nth_error (after_queue (root s)) i = Some (ms, cb) ->
  cb <> cb_release_camera_completely ->
  Inv (set_root {| withdrawn := withdrawn (root s);
                   after_queue := remove_nth i (after_queue (root s));
                   destroyed := destroyed (root s) |} s).
Proof.
  intros HInv Hnth Hcb. apply inv_set_root; [ exact HInv | ].
  simpl. apply (existsb_remove_nth _ _ _ _ Hnth).
  destruct cb; try reflexivity. contradiction Hcb; reflexivity.
Qed.

Lemma coh_tk_run_pending i env s :
  Inv s -> Coh s -> Coh (state_of (tk_run_pending i env s)).
Proof.
  intros HInv HCoh. unfold tk_run_pending. rewrite state_bind.
  change (value_of (get env s)) with s. change (state_of (get env s)) with s.
  destruct (nth_error (after_queue (root s)) i) as [[ms cb] | ] eqn:Hnth; [ | exact HCoh ].
  rewrite state_bind.
  match goal with
  | |- context [state_of (modify ?f env s)] =>
      change (state_of (modify f env s)) with (f s)
  end.
  destruct cb; cbv beta; simpl run_callback.
  - apply coh_start_rps; [ apply (inv_dequeue i ms _ s HInv Hnth); discriminate
                         | apply coh_set_root, HCoh ].
  - apply coh_start_presentation; [ apply (inv_dequeue i ms _ s HInv Hnth); discriminate
                                  | apply coh_set_root, HCoh ].
  - apply coh_toggle_ai; [ apply (inv_dequeue i ms _ s HInv Hnth); discriminate
                         | apply coh_set_root, HCoh ].
  - apply coh_release_camera; assumption.
  - unfold root_destroy, modify, state_of; simpl.
    apply coh_set_root, coh_set_root, HCoh.
Qed.

Lemma coh_run_op cfg op env s : Inv s -> Coh s -> Coh (state_of (run_op cfg op env s)).
Proof.
  intros HInv HCoh. destruct op; simpl;
    auto using coh_start_color, coh_start_face, coh_start_gesture, coh_start_object,
      coh_start_plate, coh_start_rps, coh_start_presentation, coh_toggle_ai,
      coh_stop_all, coh_start_chatbot, coh_stop_chatbot, coh_stop_rps,
      coh_stop_presentation, coh_handle_ir_code, coh_ir_iteration, coh_tk_run_pending,
      coh_shutdown.
  replace s with (set_root (root s) s) by (destruct s; reflexivity).
  apply coh_release_camera;
    replace (set_root (root s) s) with s by (destruct s; reflexivity); assumption.
Qed.

Lemma coh_run_ops cfg ops s : Inv s -> Coh s -> Coh (run_ops cfg ops s).
Proof.
  revert s. induction ops as [ | [op env] ops IH]; intros s HInv HCoh.
  - exact HCoh.
  - simpl. apply IH; [ apply inv_run_op, HInv | apply coh_run_op; assumption ].
Qed.

(** X6.  While the handlers run one at a time, the camera runs at most
    one detector.  In every state reached by a run in which each handler
    returns before the next one starts, a camera object that is there has
    at most one of its five detectors running; a detector whose start
    raises is taken not to run.  Handlers that overlap are outside this
    statement. *)
Theorem one_detector_at_a_time (cfg : Config) (ops : list (Op * Env)) (c : CameraMaster) :
  camera (run_ops cfg ops init_app) = Some c -> (List.length (running c) <= 1)%nat.
Proof.
  apply (coh_one _ (coh_run_ops cfg ops init_app inv_init coh_init)).
Qed.

Lemma one_detector_at_a_time_witness :
  exists c, camera color_red_active = Some c /\ (List.length (running c) <= 1)%nat.
Proof.
  eexists. split; [ reflexivity | ].
  apply (one_detector_at_a_time default_config
           [(op_start_color_mode "red", env_all_ok)]).
  reflexivity.
Defined.

(** X7.  While the handlers run one at a time, an active camera mode has
    its own detector running and no other.  In every state reached by a run
    in which each handler returns before the next one starts, when one of
    the five camera modes is the active mode there is a camera object and it
    runs exactly the detector of the mode: the colour tracker with the
    active colour, the face tracker, the gesture follower with motor
    actions, the object recogniser or the plate recogniser. *)
Theorem active_mode_runs_its_detector (cfg : Config) (ops : list (Op * Env)) (m : Mode) :
  let s := run_ops cfg ops init_app in
  active_mode s = Some m -> m <> presentation -> m <> rps ->
  exists c, camera s = Some c /\ mode_detectors (Some m) (active_color s) c.
Proof.
  intros s Hm Hp _.
  assert (HInv : Inv s) by (apply inv_run_ops, inv_init).
  assert (HCoh : Coh s) by (apply coh_run_ops; [ apply inv_init | apply coh_init ]).
  destruct (camera s) as [c | ] eqn:Hc.
  - exists c. split; [ reflexivity | ]. rewrite <- Hm. apply (coh_mode _ HCoh), Hc.
  - exfalso. pose proof (inv_needs_camera _ HInv) as Hn.
    unfold mode_is in Hn. rewrite Hm, Hc in Hn. simpl in Hn.
    destruct m; try (specialize (Hn eq_refl eq_refl); discriminate Hn).
    apply Hp; reflexivity.
Qed.

Lemma active_mode_runs_its_detector_witness :
  exists c, camera color_red_active = Some c
            /\ running c = [color_tracking] /\ cam_color c = Some "red".
Proof.
  apply (active_mode_runs_its_detector default_config
           [(op_start_color_mode "red", env_all_ok)] color eq_refl);
    discriminate.
Defined.

(** X8.  While the handlers run one at a time, the presentation runs
    without any detector.  In every state reached by a run in which each
    handler returns before the next one starts, while the presentation
    worker is started a camera object that is still there runs no
    detector. *)
Theorem presentation_runs_no_detector (cfg : Config) (ops : list (Op * Env))
    (c : CameraMaster) :
  let s := run_ops cfg ops init_app in
  started (presentation_w s) = true -> camera s = Some c -> running c = [].
Proof.
  intros s Hp Hc.
  assert (HInv : Inv s) by (apply inv_run_ops, inv_init).
  assert (HCoh : Coh s) by (apply coh_run_ops; [ apply inv_init | apply coh_init ]).
  pose proof (coh_mode _ HCoh c Hc) as Hm.
  pose proof (inv_presentation_mode _ HInv) as Hpm.
  rewrite Hp in Hpm. unfold mode_is in Hpm.
  destruct (active_mode s) as [[] | ]; try discriminate Hpm. exact Hm.
Qed.

Lemma presentation_runs_no_detector_witness :
  started (presentation_w presentation_after_color) = true
  /\ exists c, camera presentation_after_color = Some c /\ running c = [].
Proof.
  split; [ reflexivity | ].
  eexists. split; [ reflexivity | ].
  apply (presentation_runs_no_detector default_config
           [(op_start_color_mode "red", env_all_ok);
            (op_start_presentation_mode, env_all_ok)]).
  - reflexivity.
  - reflexivity.
Defined.

(** X9.  After any run, the chatbot worker is started only while the AI is
    enabled. *)
Theorem chatbot_runs_only_with_ai (cfg : Config) (ops : list (Op * Env)) :
  let s := run_ops cfg ops init_app in
  started (chatbot s) = true -> ai_enabled s = true.
Proof.
  intros s. apply (coh_chatbot _ (coh_run_ops cfg ops init_app inv_init coh_init)).
Qed.


Lemma chatbot_runs_only_with_ai_witness :
  started (chatbot ai_on) = true /\ ai_enabled ai_on = true.
Proof.
  split; [ reflexivity | ].
  apply (chatbot_runs_only_with_ai default_config [(op_toggle_ai, env_all_ok)]).
  reflexivity.
Defined.

(** ** Handlers that overlap *)

Lemma bind_assoc {A B C : Type} (m : M A) (k : A -> M B) (h : B -> M C) env s :
  bind (bind m k) h env s = bind m (fun a => bind (k a) h) env s.
Proof.
  unfold bind. destruct (m env s) as [[a s1] t1]. destruct (k a env s1) as [[b s2] t2].
  destruct (h b env s2) as [[c s3] t3]. rewrite app_assoc. reflexivity.
Qed.

Lemma bind_get {A : Type} (k : BigMainApp -> M A) env s : bind get k env s = k s env s.
Proof. unfold bind, get. destruct (k s env s) as [[a s1] t1]. reflexivity. Qed.

(** The two parts, one after the other, are the handler. *)
Lemma start_face_mode_split (env : Env) (s : BigMainApp) :
  _start_face_mode env s
  = (go <- _start_face_mode_begin ;; when go _start_face_mode_end) env s.
Proof.
  unfold _start_face_mode. fold _start_face_mode_end. unfold _start_face_mode_begin.
  rewrite bind_assoc, !bind_get.
  destruct (ai_enabled s || started (presentation_w s)).
  - reflexivity.
  - destruct (negb (option_eqb Mode_eqb (active_mode s) (Some face))); [ | reflexivity ].
    unfold when, bind, emit, ret.
    destruct (_stop_all_camera_modes env s) as [[u s1] t1].
    destruct (_start_face_mode_end env s1) as [[u2 s2] t2].
    rewrite app_nil_r, <- app_assoc. reflexivity.
Qed.

Lemma face_begin_goes_on env s :
  reaches_camera s req_face = true -> value_of (_start_face_mode_begin env s) = true.
Proof.
  unfold reaches_camera, is_active. simpl. intros H.
  apply andb_true_iff in H. destruct H as [H1 H2].
  apply andb_true_iff in H1. destruct H1 as [Hai Hp].
  rewrite andb_true_r in H2.
  unfold _start_face_mode_begin. unfold bind at 1. unfold get at 1.
  apply negb_true_iff in Hai. apply negb_true_iff in Hp. rewrite Hai, Hp, H2. simpl.
  unfold bind, emit, ret. destruct (_stop_all_camera_modes env s) as [[u s1] t1]. reflexivity.
Qed.

Lemma face_overlapping_rps env1 env2 env3 s :
  Inv s -> reaches_camera s req_face = true ->
  cam_ok env2 = true -> det_ok env2 = true -> det_ok env3 = true ->
  let s3 := face_request_overlapping _start_rps_if_needed env1 env2 env3 s in
  started (rps_game s3) = true /\ active_mode s3 = Some face
  /\ exists c, camera s3 = Some c /\ running c = [face_tracking; gesture_following].
Proof.
  intros HInv Hreach Hcam Hdet2 Hdet3.
  change (wp _start_face_mode_begin env1 s (fun _ s1 _ =>
          wp _start_rps_if_needed env2 s1 (fun _ s2 _ =>
          wp _start_face_mode_end env3 s2 (fun _ s3 _ =>
            started (rps_game s3) = true /\ active_mode s3 = Some face
            /\ exists c, camera s3 = Some c
                         /\ running c = [face_tracking; gesture_following])))).
  destruct_app s; destruct env1; destruct env2; destruct env3;
    unfold reaches_camera, is_active in Hreach; simpl in Hreach, Hcam, Hdet2, Hdet3;
    rewrite ?andb_false_r in Hreach; try discriminate Hreach; bool_hyps;
    open_inv HInv.
  all: wp_run_with stop_summaries.
  all: absurd_tests.
  all: repeat split; try reflexivity.
  all: try (eexists; split; reflexivity).
Qed.

Lemma face_overlapping_presentation env1 env2 env3 s :
  Inv s -> reaches_camera s req_face = true ->
  cam_ok env3 = true -> det_ok env3 = true ->
  let s3 := face_request_overlapping _start_presentation_mode env1 env2 env3 s in
  started (presentation_w s3) = true /\ active_mode s3 = Some face
  /\ exists c, camera s3 = Some c /\ running c = [face_tracking].
Proof.
  intros HInv Hreach Hcam Hdet3.
  change (wp _start_face_mode_begin env1 s (fun _ s1 _ =>
          wp _start_presentation_mode env2 s1 (fun _ s2 _ =>
          wp _start_face_mode_end env3 s2 (fun _ s3 _ =>
            started (presentation_w s3) = true /\ active_mode s3 = Some face
            /\ exists c, camera s3 = Some c /\ running c = [face_tracking])))).
  destruct_app s; destruct env1; destruct env2; destruct env3;
    unfold reaches_camera, is_active in Hreach; simpl in Hreach, Hcam, Hdet3;
    rewrite ?andb_false_r in Hreach; try discriminate Hreach; bool_hyps;
    open_inv HInv.
  all: wp_run_with stop_summaries.
  all: absurd_tests.
  all: repeat split; try reflexivity.
  all: try (eexists; split; reflexivity).
Qed.

Lemma env_ready_parts env :
  env_ready env = true -> cam_ok env = true /\ det_ok env = true.
Proof.
  unfold env_ready. intros H.
  apply andb_true_iff in H. destruct H as [H _].
  apply andb_true_iff in H. destruct H as [H _].
  apply andb_true_iff in H. exact H.
Qed.

(** X27.  Handlers that overlap break the exclusion.  [_start_face_mode]
    is its first part (guard, [_stop_all_camera_modes], print) followed by
    its second part (from [_ensure_camera] on).  From every state a run
    reaches in which a face request is admitted, if the Tk thread runs a
    whole handler between the two parts while camera and detectors work,
    the face request still goes through to its end.  With
    [_start_rps_if_needed] in between, the RPS worker is started and the
    active mode is the face mode, so two modes are active, and the camera
    runs the face tracker and the gesture follower together.  With
    [_start_presentation_mode] in between, the presentation worker is
    started while the active mode is the face mode and the face tracker
    runs. *)
Theorem overlapping_requests_break_exclusion (cfg : Config) (ops : list (Op * Env))
    (env1 env2 env3 : Env) :
  let s := run_ops cfg ops init_app in
  reaches_camera s req_face = true -> env_ready env2 = true -> env_ready env3 = true ->
  (forall env s0,
     _start_face_mode env s0
     = (go <- _start_face_mode_begin ;; when go _start_face_mode_end) env s0)
  /\ value_of (_start_face_mode_begin env1 s) = true
  /\ (let s3 := face_request_overlapping _start_rps_if_needed env1 env2 env3 s in
      mode_active s3 rps = true /\ mode_active s3 face = true
      /\ exists c, camera s3 = Some c /\ running c = [face_tracking; gesture_following])
  /\ (let s3 := face_request_overlapping _start_presentation_mode env1 env2 env3 s in
      mode_active s3 presentation = true /\ mode_active s3 face = true
      /\ exists c, camera s3 = Some c /\ running c = [face_tracking]).
Proof.
  intros s Hreach H2 H3.
  assert (HInv : Inv s) by (apply inv_run_ops, inv_init).
  destruct (env_ready_parts _ H2) as [Hcam2 Hdet2].
  destruct (env_ready_parts _ H3) as [Hcam3 Hdet3].
  split; [ exact start_face_mode_split | ].
  split; [ apply face_begin_goes_on, Hreach | ].
  split.
  - destruct (face_overlapping_rps env1 env2 env3 s HInv Hreach Hcam2 Hdet2 Hdet3)
      as [Hr [Hm Hc]].
    cbv zeta. unfold mode_active, mode_is. rewrite Hr, Hm.
    split; [ reflexivity | split; [ reflexivity | exact Hc ] ].
  - destruct (face_overlapping_presentation env1 env2 env3 s HInv Hreach Hcam3 Hdet3)
      as [Hp [Hm Hc]].
    cbv zeta. unfold mode_active, mode_is. rewrite Hp, Hm.
    split; [ reflexivity | split; [ reflexivity | exact Hc ] ].
Qed.

Lemma overlapping_requests_break_exclusion_witness :
  mode_active face_overlaps_rps rps = true /\ mode_active face_overlaps_rps face = true
  /\ exists c, camera face_overlaps_rps = Some c
               /\ running c = [face_tracking; gesture_following].
Proof.
  apply (proj1 (proj2 (proj2 (overlapping_requests_break_exclusion default_config []
                                env_all_ok env_all_ok env_all_ok eq_refl eq_refl eq_refl)))).
Defined.

(** ** The poll loop of the IR receiver *)

Lemma ir_loop_step cfg r now env0 rest env s :
  _stop_flag s = false ->
  _ir_loop_from cfg ((r, now, env0) :: rest) env s
  = let '(_, s1, t1) := _ir_iteration cfg r now env0 s in
    let '(_, s2, t2) := _ir_loop_from cfg rest env s1 in
    (tt, s2, t1 ++ t2).
Proof.
  intros Hflag. simpl. unfold bind at 1. unfold get at 1. rewrite Hflag.
  unfold bind.
  destruct (_ir_iteration cfg r now env0 s) as [[a s1] t1].
  destruct (_ir_loop_from cfg rest env s1) as [[b s2] t2]. destruct b. reflexivity.
Qed.

Lemma ir_loop_stopped cfg inputs env s :
  _stop_flag s = true -> _ir_loop_from cfg inputs env s = (tt, s, []).
Proof.
  intros Hflag. destruct inputs as [ | [[r now] env0] rest]; [ reflexivity | ].
  simpl. unfold bind at 1. unfold get at 1. rewrite Hflag. reflexivity.
Qed.

Lemma burst_dropped cfg code t0 burst env s :
  IR_DEBUG cfg = false -> code <> 0 -> code < 0xFF ->
  _last_ir_code s = code -> _last_ir_time s = t0 -> _stop_flag s = false ->
  forallb (held code t0 (IR_DEBOUNCE_SEC cfg)) burst = true ->
  _ir_loop_from cfg burst env s = (tt, s, repeat (Sleep 50) (List.length burst)).
Proof.
  intros Hdebug Hnz Hlt Hcode Htime Hflag.
  induction burst as [ | [[r now] env0] burst IH]; intros Hheld; [ reflexivity | ].
  simpl in Hheld. apply andb_true_iff in Hheld. destruct Hheld as [Hfirst Hrest].
  destruct r as [ | [[ | c rest] | ]]; try discriminate Hfirst.
  apply andb_true_iff in Hfirst. destruct Hfirst as [Hc Hin].
  apply Z.eqb_eq in Hc. subst c.
  rewrite (ir_loop_step _ _ _ _ _ _ _ Hflag).
  rewrite ir_iteration_dropped.
  - rewrite (IH Hrest). reflexivity.
  - apply valid_code_test; assumption.
  - rewrite Hdebug, Hcode, Htime, Z.eqb_refl, Hin. reflexivity.
Qed.

(** X10.  A button held down is dispatched once.  With the debug bypass
    off, when a valid code that is not debounced is followed by readings of
    the same code that all fall inside the debounce window opened by the
    first one, the poll loop calls [_handle_ir_code] for the first reading
    only: the final state is the one that single dispatch leaves, and every
    later reading only sleeps (none is read once the dispatch has set the
    stop flag). *)
Theorem held_button_dispatched_once (cfg : Config) (code : Z) (rest : list Z) (t0 : Q)
    (env0 env : Env) (burst : list (IRRead * Q * Env)) (s : BigMainApp) :
  IR_DEBUG cfg = false -> code <> 0 -> code < 0xFF ->
  _stop_flag s = false ->
  (code <> _last_ir_code s \/ (IR_DEBOUNCE_SEC cfg <= t0 - _last_ir_time s)%Q) ->
  forallb (held code t0 (IR_DEBOUNCE_SEC cfg)) burst = true ->
  let dispatch :=
    _handle_ir_code cfg code env0 (set_last_ir_time t0 (set_last_ir_code code s)) in
  _ir_loop_from cfg ((read_returns (Some (code :: rest)), t0, env0) :: burst) env s
  = (tt, state_of dispatch,
     LogIRCode code :: trace_of dispatch ++ [Sleep 50]
     ++ (if _stop_flag (state_of dispatch) then []
         else repeat (Sleep 50) (List.length burst))).
Proof.
  intros Hdebug Hnz Hlt Hflag Hnew Hheld dispatch.
  rewrite (ir_loop_step _ _ _ _ _ _ _ Hflag).
  rewrite ir_iteration_dispatch.
  - fold dispatch.
    assert (Hframe : _last_ir_code (state_of dispatch) = code
                     /\ _last_ir_time (state_of dispatch) = t0).
    { apply (debounce_frame_handle_ir_code code t0 cfg code env0).
      destruct s; split; reflexivity. }
    destruct Hframe as [Hcode Htime].
    destruct (_stop_flag (state_of dispatch)) eqn:Hstop.
    + rewrite ir_loop_stopped by exact Hstop.
      cbv beta iota. rewrite <- app_comm_cons, <- app_assoc. reflexivity.
    + rewrite (burst_dropped cfg code t0 burst env _ Hdebug Hnz Hlt Hcode Htime Hstop Hheld).
      cbv beta iota. rewrite <- app_comm_cons, <- app_assoc. reflexivity.
  - apply valid_code_test; assumption.
  - rewrite Hdebug. simpl. apply andb_false_iff.
    destruct Hnew as [Hother | Hlate].
    + left. apply Z.eqb_neq, Hother.
    + right. apply Qltb_false, Hlate.
Qed.

Lemma held_button_dispatched_once_witness :
  state_of (_ir_loop_from default_config
              [(read_returns (Some [1]), 1%Q, env_all_ok);
               (read_returns (Some [1]), 1.1%Q, env_all_ok);
               (read_returns (Some [1]), 1.3%Q, env_all_ok)] env_all_ok init_app)
  = state_of (_handle_ir_code default_config 1 env_all_ok
                (set_last_ir_time 1%Q (set_last_ir_code 1 init_app))).
Proof.
  rewrite (held_button_dispatched_once default_config 1 [] 1%Q env_all_ok env_all_ok
             [(read_returns (Some [1]), 1.1%Q, env_all_ok);
              (read_returns (Some [1]), 1.3%Q, env_all_ok)] init_app
             eq_refl ltac:(lia) ltac:(lia) eq_refl).
  - reflexivity.
  - left. simpl. lia.
  - reflexivity.
Defined.

(** X11.  A reading that is not a non-empty list starting with a code
    strictly between 0 and 0xFF (an exception, a value that is not a list,
    an empty list, a code of 0, of 0xFF or above) never reaches the
    dispatcher: the iteration leaves the state as it is and only sleeps,
    100 ms after an exception and 50 ms otherwise. *)
Theorem invalid_reading_is_ignored (cfg : Config) (r : IRRead) (now : Q) (env : Env)
    (s : BigMainApp) :
  valid_reading r = false ->
  _ir_iteration cfg r now env s
  = (tt, s, [Sleep (match r with read_raises => 100 | _ => 50 end)]).
Proof.
  intros Hr. destruct r as [ | [[ | code rest] | ]]; try reflexivity.
  simpl in Hr. unfold _ir_iteration. rewrite Hr. reflexivity.
Qed.

Lemma invalid_reading_is_ignored_witness :
  _ir_iteration default_config (read_returns (Some [255; 7])) 0%Q env_all_ok init_app
  = (tt, init_app, [Sleep 50]).
Proof.
  apply (invalid_reading_is_ignored default_config (read_returns (Some [255; 7]))).
  reflexivity.
Defined.

(** X12.  Once [shutdown] has run, from any state, the poll loop reads no
    further input, whatever the receiver delivers: it ends with no effect. *)
Theorem shutdown_ends_ir_loop (cfg : Config) (inputs : list (IRRead * Q * Env))
    (env env' : Env) (s : BigMainApp) :
  _ir_loop_from cfg inputs env' (state_of (shutdown env s))
  = (tt, state_of (shutdown env s), []).
Proof.
  apply ir_loop_stopped.
  destruct (_stop_flag s) eqn:Hflag.
  - rewrite shutdown_after_stop_flag by exact Hflag. exact Hflag.
  - apply shutdown_sets_stop_flag.
Qed.

(** ** The camera preview loop *)

(** X13.  [_camera_ui_loop] schedules itself again exactly when the stop
    flag is not set at its end: it stops for good after a shutdown, in
    particular after the one it starts itself when the key q is pressed
    while a camera is shown.  In every other case it has no effect at all
    and, unless the stop flag is set, keeps polling: at 300 ms while there
    is no camera or the camera shuts down, at 50 ms otherwise, also after
    [display_frame] raised. *)
Theorem camera_ui_loop_runs_until_shutdown (frame : option Z) (env : Env) (s : BigMainApp) :
  let r := _camera_ui_loop frame env s in
  let idle := negb (is_some (camera s)) || _camera_shutting_down s in
  (value_of r = None <-> _stop_flag (state_of r) = true)
  /\ (if negb idle && option_eqb Z.eqb frame (Some 113) then True
      else value_of r = (if _stop_flag s then None
                         else if idle then Some 300 else Some 50)
           /\ state_of r = s /\ trace_of r = []).
Proof.
  intros r idle. subst r idle.
  change (wp (_camera_ui_loop frame) env s (fun v s' t =>
    (v = None <-> _stop_flag s' = true)
    /\ (if negb (negb (is_some (camera s)) || _camera_shutting_down s)
           && option_eqb Z.eqb frame (Some 113) then True
        else v = (if _stop_flag s then None
                  else if negb (is_some (camera s)) || _camera_shutting_down s
                       then Some 300 else Some 50)
             /\ s' = s /\ t = []))).
  destruct_app s; destruct env.
  all: wp_run_with stop_summaries.
  all: simpl;
    repeat match goal with H : (_ =? _) = _ |- _ => rewrite H end; split;
    try solve [ split; intros; congruence | exact I | repeat split; reflexivity ].
Qed.

(** ** Rock Paper Scissors *)

(** X14.  On the three moves [determine_winner] is the cyclic game: the
    result is a draw exactly for equal moves, a win exactly when the
    player's move beats Marich's, a loss exactly when Marich's move beats
    the player's; and it is antisymmetric: one side wins exactly when the
    other side, with the moves swapped, loses. *)
Theorem determine_winner_is_cyclic (player_move marich_move : Z) :
  is_move player_move -> is_move marich_move ->
  (determine_winner player_move marich_move = "draw" <-> player_move = marich_move)
  /\ (determine_winner player_move marich_move = "win" <-> beats player_move marich_move)
  /\ (determine_winner player_move marich_move = "lose" <-> beats marich_move player_move)
  /\ (determine_winner player_move marich_move = "win"
      <-> determine_winner marich_move player_move = "lose").
Proof.
  unfold is_move, beats. intros Hp Hm.
  assert (Hpc : player_move = 0 \/ player_move = 1 \/ player_move = 2) by lia.
  assert (Hmc : marich_move = 0 \/ marich_move = 1 \/ marich_move = 2) by lia.
  destruct Hpc as [-> | [-> | ->]]; destruct Hmc as [-> | [-> | ->]];
    cbv; repeat split; intros; congruence.
Qed.

Lemma determine_winner_is_cyclic_witness :
  determine_winner PAPER ROCK = "win" /\ determine_winner ROCK PAPER = "lose".
Proof.
  destruct (determine_winner_is_cyclic PAPER ROCK) as [_ [Hwin [_ Hanti]]].
  - unfold is_move, PAPER. lia.
  - unfold is_move, ROCK. lia.
  - assert (H : determine_winner PAPER ROCK = "win") by (apply Hwin; reflexivity).
    split; [ exact H | apply Hanti, H ].
Defined.

Lemma capture_move_unclear start p rest :
  poll_unclear start p = true ->
  capture_move start (p :: rest) = capture_move start rest.
Proof.
  unfold poll_unclear, poll_live, gesture_move. intros H.
  apply andb_true_iff in H. destruct H as [Hlive Hd].
  apply andb_true_iff in Hlive. destruct Hlive as [Hin Hstop].
  apply negb_true_iff in Hstop.
  simpl. rewrite Hin, Hstop. simpl.
  destruct (poll_detection p) as [fb | | | name]; try discriminate Hd; try reflexivity.
  destruct (String.eqb name "Zero" || String.eqb name "One"); [ discriminate Hd | ].
  destruct (String.eqb name "Five" || String.eqb name "Four"); [ discriminate Hd | ].
  destruct (String.eqb name "Two" || String.eqb name "Three"); [ discriminate Hd | ].
  reflexivity.
Qed.

(** X15.  The capture loop takes the first clear gesture.  After any number
    of live polls that show no move (an exception, no hand, an unknown
    gesture), a live poll with a gesture that stands for a move ends the
    loop with that move; a poll at or after the end of the two-second
    window, or with the stop event set, ends it with no move, whatever that
    poll and the later ones would have detected. *)
Theorem capture_takes_first_clear_gesture (start : Q) (pre rest : list Poll) (p : Poll) :
  forallb (poll_unclear start) pre = true ->
  (forall name m,
     poll_live start p = true -> poll_detection p = detection_gesture name ->
     gesture_move name = Some m ->
     capture_move start (pre ++ p :: rest) = Some (Some m))
  /\ (poll_live start p = false -> capture_move start (pre ++ p :: rest) = Some None).
Proof.
  intros Hpre.
  assert (Hskip : capture_move start (pre ++ p :: rest) = capture_move start (p :: rest)).
  { induction pre as [ | q pre IH]; [ reflexivity | ].
    simpl in Hpre. apply andb_true_iff in Hpre. destruct Hpre as [Hq Hpre].
    change ((q :: pre) ++ p :: rest) with (q :: (pre ++ p :: rest)).
    rewrite (capture_move_unclear _ _ _ Hq). apply IH, Hpre. }
  rewrite Hskip. split.
  - intros name m Hlive Hd Hm. unfold poll_live in Hlive.
    apply andb_true_iff in Hlive. destruct Hlive as [Hin Hstop].
    apply negb_true_iff in Hstop.
    simpl. rewrite Hin, Hstop, Hd. simpl. unfold gesture_move in Hm.
    destruct (String.eqb name "Zero" || String.eqb name "One"); [ exact (f_equal Some Hm) | ].
    destruct (String.eqb name "Five" || String.eqb name "Four"); [ exact (f_equal Some Hm) | ].
    destruct (String.eqb name "Two" || String.eqb name "Three"); [ exact (f_equal Some Hm) | ].
    discriminate Hm.
  - intros Hdead. unfold poll_live in Hdead. simpl.
    destruct (Qltb (poll_now p - start) capture_duration); [ | reflexivity ].
    simpl in Hdead. apply negb_false_iff in Hdead. rewrite Hdead. reflexivity.
Qed.

Lemma capture_takes_first_clear_gesture_witness :
  capture_move 10
    [mkPoll 10.1 false detection_none; mkPoll 10.2 false detection_raises;
     mkPoll 10.3 false (detection_gesture "Fist"); mkPoll 10.4 false (detection_gesture "Five");
     mkPoll 10.5 false (detection_gesture "Two")]
  = Some (Some PAPER)
  /\ capture_move 10
       [mkPoll 10.1 false detection_none; mkPoll 12 false (detection_gesture "Five")]
     = Some None.
Proof.
  split.
  - apply (proj1 (capture_takes_first_clear_gesture 10
                    [mkPoll 10.1 false detection_none; mkPoll 10.2 false detection_raises;
                     mkPoll 10.3 false (detection_gesture "Fist")]
                    [mkPoll 10.5 false (detection_gesture "Two")]
                    (mkPoll 10.4 false (detection_gesture "Five")) eq_refl) "Five" PAPER);
      reflexivity.
  - apply (proj2 (capture_takes_first_clear_gesture 10
                    [mkPoll 10.1 false detection_none] []
                    (mkPoll 12 false (detection_gesture "Five")) eq_refl)).
    reflexivity.
Defined.

(** X16.  Marich's reaction follows the game.  With a move captured from
    the player, Marich shows the happy face and starts the dance and the
    win lights exactly when its own move beats the player's, shows the
    angry face and starts the angry movement and the lose lights exactly
    when the player's move beats its own, and shows the neutral face
    without any movement exactly on equal moves.  Without a captured move
    the round is a draw whatever Marich chose, and this step sets no
    emotion and starts no thread. *)
Theorem reaction_follows_the_game (player_move marich_choice : Z) :
  is_move player_move -> is_move marich_choice ->
  let r := round_reaction (Some player_move) marich_choice in
  (beats marich_choice player_move <->
   r = mkReaction "lose" (Some "happy") ["dance_routine"; "win_led_sequence"])
  /\ (beats player_move marich_choice <->
      r = mkReaction "win" (Some "angry") ["angry_movement"; "lose_led_sequence"])
  /\ (player_move = marich_choice <-> r = mkReaction "draw" (Some "neutral") [])
  /\ round_reaction None marich_choice = mkReaction "draw" None [].
Proof.
  unfold is_move, beats. intros Hp Hm.
  assert (Hpc : player_move = 0 \/ player_move = 1 \/ player_move = 2) by lia.
  assert (Hmc : marich_choice = 0 \/ marich_choice = 1 \/ marich_choice = 2) by lia.
  destruct Hpc as [-> | [-> | ->]]; destruct Hmc as [-> | [-> | ->]];
    cbv; repeat split; intros; congruence.
Qed.

Lemma reaction_follows_the_game_witness :
  round_reaction (Some SCISSORS) ROCK
  = mkReaction "lose" (Some "happy") ["dance_routine"; "win_led_sequence"].
Proof.
  apply (proj1 (reaction_follows_the_game SCISSORS ROCK
                  ltac:(unfold is_move, SCISSORS; lia) ltac:(unfold is_move, ROCK; lia))).
  reflexivity.
Defined.

(** ** The chatbot: conversation history *)

Lemma last_items_all {A : Type} (n : nat) (l : list A) :
  (List.length l <= n)%nat -> last_items n l = l.
Proof.
  intros H. unfold last_items.
  replace (List.length l - n)%nat with 0%nat by lia. reflexivity.
Qed.

Lemma last_items_length {A : Type} (n : nat) (l : list A) :
  List.length (last_items n l) = Nat.min n (List.length l).
Proof. unfold last_items. rewrite length_skipn. lia. Qed.

Lemma last_items_app {A : Type} (n : nat) (l tail : list A) :
  (n <= List.length tail)%nat ->
  last_items n (l ++ tail) = last_items n tail.
Proof.
  intros H. unfold last_items. rewrite length_app.
  replace (List.length l + List.length tail - n)%nat
    with (List.length l + (List.length tail - n))%nat by lia.
  rewrite skipn_app.
  replace (List.length l + (List.length tail - n) - List.length l)%nat
    with (List.length tail - n)%nat by lia.
  rewrite skipn_all2 by lia. reflexivity.
Qed.

Lemma last_items_last_items {A : Type} (n m : nat) (l : list A) :
  (n <= m)%nat -> last_items n (last_items m l) = last_items n l.
Proof.
  intros H. unfold last_items. rewrite length_skipn, skipn_skipn. f_equal. lia.
Qed.

Lemma llm_turn_history text reply h :
  fst (fst (llm_turn text reply h))
  = let h2 := h ++ [mkMessage "user" text; assistant_message reply] in
    if (7 <? List.length h2)%nat then
      match h2 with first :: _ => first :: last_items 6 h2 | [] => [] end
    else h2.
Proof.
  unfold llm_turn. destruct reply; cbv zeta; rewrite <- app_assoc; reflexivity.
Qed.

Lemma llm_turn_invariant text reply h :
  hd_error h = Some system_prompt -> (List.length h <= 7)%nat ->
  let h' := fst (fst (llm_turn text reply h)) in
  hd_error h' = Some system_prompt
  /\ List.length h' = Nat.min 7 (List.length h + 2)
  /\ last_items 2 h' = [mkMessage "user" text; assistant_message reply].
Proof.
  intros Hhd Hlen. cbv zeta. rewrite llm_turn_history. cbv zeta.
  destruct h as [ | first h]; [ discriminate Hhd | ].
  simpl in Hhd. inversion Hhd; subst first. clear Hhd.
  set (tail := [mkMessage "user" text; assistant_message reply]).
  change ((system_prompt :: h) ++ tail) with (system_prompt :: (h ++ tail)).
  assert (Hh2 : system_prompt :: (h ++ tail) = (system_prompt :: h) ++ tail) by reflexivity.
  assert (Hl : List.length (h ++ tail) = (List.length h + 2)%nat)
    by (rewrite length_app; reflexivity).
  change (List.length (system_prompt :: h)) with (S (List.length h)) in *.
  cbv iota beta.
  change (List.length (system_prompt :: (h ++ tail))) with (S (List.length (h ++ tail))).
  destruct (7 <? S (List.length (h ++ tail)))%nat eqn:Hover.
  - apply Nat.ltb_lt in Hover.
    split; [ reflexivity | ]. split.
    + change (List.length (system_prompt :: last_items 6 (system_prompt :: (h ++ tail))))
        with (S (List.length (last_items 6 (system_prompt :: (h ++ tail))))).
      rewrite last_items_length.
      change (List.length (system_prompt :: (h ++ tail))) with (S (List.length (h ++ tail))).
      lia.
    + change (system_prompt :: last_items 6 (system_prompt :: (h ++ tail)))
        with ([system_prompt] ++ last_items 6 (system_prompt :: (h ++ tail))).
      rewrite last_items_app
        by (rewrite last_items_length;
            change (List.length (system_prompt :: (h ++ tail)))
              with (S (List.length (h ++ tail))); lia).
      rewrite last_items_last_items by lia.
      rewrite Hh2. rewrite last_items_app by (simpl; lia). reflexivity.
  - apply Nat.ltb_ge in Hover.
    split; [ reflexivity | ]. split.
    + change (List.length (system_prompt :: (h ++ tail))) with (S (List.length (h ++ tail))).
      lia.
    + rewrite Hh2. rewrite last_items_app by (simpl; lia). reflexivity.
Qed.

Lemma chat_invariant turns :
  forall h, hd_error h = Some system_prompt -> (List.length h <= 7)%nat ->
  hd_error (chat turns h) = Some system_prompt
  /\ List.length (chat turns h) = Nat.min 7 (List.length h + 2 * List.length turns).
Proof.
  induction turns as [ | [text reply] turns IH]; intros h Hhd Hlen.
  - split; [ exact Hhd | ]. change (chat [] h) with h.
    change (List.length (@nil (string * LLMReply))) with 0%nat. lia.
  - destruct (llm_turn_invariant text reply h Hhd Hlen) as [Hhd' [Hlen' _]].
    cbv zeta in Hhd', Hlen'.
    assert (Hle : (List.length (fst (fst (llm_turn text reply h))) <= 7)%nat) by lia.
    destruct (IH _ Hhd' Hle) as [H1 H2].
    change (chat ((text, reply) :: turns) h)
      with (chat turns (fst (fst (llm_turn text reply h)))).
    split; [ exact H1 | ]. rewrite H2, Hlen'.
    change (List.length ((text, reply) :: turns)) with (S (List.length turns)). lia.
Qed.

(** X17.  The conversation history stays bounded.  After any number of
    turns with the language model, starting from the history the module is
    loaded with, the history has at most seven entries (exactly the system
    prompt and two entries per turn, up to three turns), its first entry is
    still the system prompt, and after a turn its last two entries are the
    user's text and the assistant's entry of that turn, whether the model
    answered, raised or is not installed. *)
Theorem history_stays_bounded (turns : list (string * LLMReply)) :
  let h := chat turns conversation_history in
  hd_error h = Some system_prompt
  /\ List.length h = Nat.min 7 (1 + 2 * List.length turns)
  /\ (forall earlier text reply, turns = earlier ++ [(text, reply)] ->
      last_items 2 h = [mkMessage "user" text; assistant_message reply]).
Proof.
  cbv zeta.
  assert (H0 : (List.length conversation_history <= 7)%nat) by (simpl; lia).
  destruct (chat_invariant turns conversation_history eq_refl H0) as [Hhd Hlen].
  change (List.length conversation_history) with 1%nat in Hlen.
  split; [ exact Hhd | ]. split; [ exact Hlen | ].
  intros earlier text reply ->.
  unfold chat. rewrite fold_left_app. simpl.
  destruct (chat_invariant earlier conversation_history eq_refl H0) as [Hhd1 Hlen1].
  apply llm_turn_invariant; [ exact Hhd1 | ].
  fold (chat earlier conversation_history). lia.
Qed.

(** ** The chatbot: voice commands *)

Lemma prefix_app_l (p q h : string) :
  String.prefix (p ++ q) h = true -> String.prefix p h = true.
Proof.
  revert h. induction p as [ | c p IH]; intros h H.
  - destruct h; reflexivity.
  - destruct h as [ | d h]; simpl in *; [ discriminate H | ].
    destruct (Ascii.ascii_dec c d); [ apply IH, H | discriminate H ].
Qed.

Lemma contains_app_l (p q h : string) :
  contains (p ++ q) h = true -> contains p h = true.
Proof.
  induction h as [ | d h IH]; intros H.
  - change (String.prefix (p ++ q) EmptyString = true) in H.
    change (String.prefix p EmptyString = true).
    exact (prefix_app_l p q EmptyString H).
  - change (String.prefix (p ++ q) (String d h) || contains (p ++ q) h = true) in H.
    change (String.prefix p (String d h) || contains p h = true).
    apply orb_true_iff in H. apply orb_true_iff. destruct H as [H | H].
    + left. apply (prefix_app_l p q), H.
    + right. apply IH, H.
Qed.

(** X18.  Three of the eleven voice commands can never be selected.  The
    commands are tried in the order of the dict and 'move back' is tried
    before 'move backward', 'move back left' and 'move back right', which
    all contain it: whatever is said, the command carried out is none of
    these three, and the robot is never sent diagonally backwards. *)
Theorem back_commands_are_shadowed (text command : string) (function : Motion) :
  handle_command text = handled_move command function ->
  command <> "move backward" /\ command <> "move back left"
  /\ command <> "move back right"
  /\ function <> move_diagonal_left_back /\ function <> move_diagonal_right_back.
Proof.
  unfold handle_command. cbv zeta.
  set (u := lower text).
  destruct (existsb (fun word => contains word u) ["dance"; "party"; "let's dance"]);
    [ discriminate | ].
  destruct (existsb (fun word => contains word u) ["move square"; "car patrol"]);
    [ discriminate | ].
  destruct (contains "stop" u); [ discriminate | ].
  destruct (contains "help" u || contains "options" u); [ discriminate | ].
  pose proof (contains_app_l "move back" "ward" u) as Hward.
  pose proof (contains_app_l "move back" " left" u) as Hleft.
  pose proof (contains_app_l "move back" " right" u) as Hright.
  simpl append in Hward, Hleft, Hright.
  unfold movement_commands, first_command.
  destruct (contains "move forward" u);
    [ intros H; inversion H; subst; repeat split; discriminate | ].
  destruct (contains "move back" u);
    [ intros H; inversion H; subst; repeat split; discriminate | ].
  destruct (contains "move backward" u); [ discriminate (Hward eq_refl) | ].
  destruct (contains "move right" u);
    [ intros H; inversion H; subst; repeat split; discriminate | ].
  destruct (contains " moveleft" u);
    [ intros H; inversion H; subst; repeat split; discriminate | ].
  destruct (contains "turn right" u);
    [ intros H; inversion H; subst; repeat split; discriminate | ].
  destruct (contains "turn left" u);
    [ intros H; inversion H; subst; repeat split; discriminate | ].
  destruct (contains "move front left" u);
    [ intros H; inversion H; subst; repeat split; discriminate | ].
  destruct (contains "move front right" u);
    [ intros H; inversion H; subst; repeat split; discriminate | ].
  destruct (contains "move back left" u); [ discriminate (Hleft eq_refl) | ].
  destruct (contains "move back right" u); [ discriminate (Hright eq_refl) | ].
  destruct (existsb (String.eqb u) ["goodbye"; "bye"; "by"; "exit"; "quit"]); discriminate.
Qed.

Lemma back_commands_are_shadowed_witness :
  handle_command "Move back left" = handled_move "move back" move_backward
  /\ move_backward <> move_diagonal_left_back.
Proof.
  split; [ reflexivity | ].
  apply (back_commands_are_shadowed "Move back left" "move back" move_backward eq_refl).
Defined.

(** X19.  The emotion of a reply is always one the robot knows.  Whatever
    the language model answers, also an emotion it made up, none at all, an
    exception or a missing client, the emotion handed to
    [speak_and_animate] is a key of [Config.EMOTION_COLORS] and a key of
    [EMOTION_LED_MAP]: neither the face nor the LEDs fall back to a
    default. *)
Theorem reply_emotion_is_known (text : string) (reply : LLMReply) (history : list Message) :
  let emotion := snd (llm_turn text reply history) in
  existsb (String.eqb emotion) EMOTION_COLORS_keys = true
  /\ existsb (String.eqb emotion) (map fst EMOTION_LED_MAP) = true.
Proof.
  assert (Hsame : forall e, existsb (String.eqb e) EMOTION_COLORS_keys = true ->
                            existsb (String.eqb e) (map fst EMOTION_LED_MAP) = true).
  { intros e. cbv beta iota delta [existsb EMOTION_COLORS_keys EMOTION_LED_MAP map fst].
    destruct (String.eqb e "neutral"), (String.eqb e "happy"), (String.eqb e "angry"),
      (String.eqb e "shy"), (String.eqb e "confused"), (String.eqb e "scared");
      intros H; try reflexivity; discriminate H. }
  cbv zeta. unfold llm_turn.
  destruct reply as [ | | message_content t e]; cbv zeta.
  - split; reflexivity.
  - split; reflexivity.
  - match goal with
    | |- context [if negb (existsb (String.eqb ?x) EMOTION_COLORS_keys) then _ else _] =>
        set (em := x); destruct (existsb (String.eqb em) EMOTION_COLORS_keys) eqn:Hk
    end.
    + change (negb true) with false. cbv beta iota.
      match goal with
      | |- context [if ?c then _ else _] => destruct c
      end; simpl snd; (split; [ exact Hk | apply Hsame, Hk ]).
    + change (negb false) with true. cbv beta iota.
      match goal with
      | |- context [if ?c then _ else _] => destruct c
      end; simpl snd; split; reflexivity.
Qed.

(** ** The chatbot: sensor reactions *)

Lemma sensor_checks_approached bot x st st1 action :
  sensor_checks bot x st = (st1, action) ->
  high_five_state st1 = hf_approached ->
  (high_five_state st = hf_approached /\ approached_time st1 = approached_time st)
  \/ (exists d, seen_distance x = Some d /\ d < 120 /\ approached_time st1 = sensor_now x).
Proof.
  unfold sensor_checks, seen_distance, high_five_check.
  destruct st as [last hfs at0]. simpl.
  destruct (bot && Qltb 0.1 (sensor_now x - last)).
  - destruct (sensor_distance x) as [[data_H data_L] | ].
    + destruct hfs.
      * destruct (distance_of data_H data_L <? 120) eqn:Hd.
        -- apply Z.ltb_lt in Hd.
           destruct (sensor_track x) as [track_data | ];
             [ destruct (picked_up track_data) | ];
             intros H Hs; inversion H; subst; right; eexists; repeat split;
             try reflexivity; exact Hd.
        -- destruct (sensor_track x) as [track_data | ];
             [ destruct (picked_up track_data) | ];
             intros H Hs; inversion H; subst; discriminate Hs.
      * destruct (170 <? distance_of data_H data_L).
        -- destruct (Qltb (sensor_now x - at0) 1.0);
             [ | destruct (sensor_track x) as [track_data | ];
                 [ destruct (picked_up track_data) | ] ];
             intros H Hs; inversion H; subst; discriminate Hs.
        -- destruct (Qltb 1.5 (sensor_now x - at0));
             (destruct (sensor_track x) as [track_data | ];
              [ destruct (picked_up track_data) | ]);
             intros H Hs; inversion H; subst;
             solve [ discriminate Hs | left; split; reflexivity ].
    + destruct (sensor_track x) as [track_data | ];
        [ destruct (picked_up track_data) | ];
        intros H Hs; inversion H; subst; left; split; [ exact Hs | reflexivity | exact Hs
                                                       | reflexivity | exact Hs | reflexivity ].
  - intros H Hs. inversion H; subst. left. split; [ exact Hs | reflexivity ].
Qed.

Lemma sensor_checks_high_five bot x st st1 :
  sensor_checks bot x st = (st1, Some act_high_five) ->
  high_five_state st = hf_approached
  /\ approached_time st1 = approached_time st
  /\ (exists d, seen_distance x = Some d /\ 170 < d)
  /\ (sensor_now x - approached_time st < 1.0)%Q.
Proof.
  unfold sensor_checks, seen_distance, high_five_check.
  destruct st as [last hfs at0]. simpl.
  destruct (bot && Qltb 0.1 (sensor_now x - last)); [ | discriminate ].
  destruct (sensor_distance x) as [[data_H data_L] | ].
  - destruct hfs.
    + destruct (distance_of data_H data_L <? 120);
        (destruct (sensor_track x) as [track_data | ];
         [ destruct (picked_up track_data) | ]); discriminate.
    + destruct (170 <? distance_of data_H data_L) eqn:Hd.
      * destruct (Qltb (sensor_now x - at0) 1.0) eqn:Ht.
        -- intros H. inversion H; subst. apply Z.ltb_lt in Hd. apply Qltb_true in Ht.
           repeat split; try reflexivity; [ eexists; split; [ reflexivity | exact Hd ] | exact Ht ].
        -- destruct (sensor_track x) as [track_data | ];
             [ destruct (picked_up track_data) | ]; discriminate.
      * destruct (Qltb 1.5 (sensor_now x - at0));
          (destruct (sensor_track x) as [track_data | ];
           [ destruct (picked_up track_data) | ]); discriminate.
  - destruct (sensor_track x) as [track_data | ];
      [ destruct (picked_up track_data) | ]; discriminate.
Qed.

Lemma listen_high_five bot :
  forall passes st x st',
  listen bot st passes = Some (act_high_five, x, st') ->
  exists before after,
    passes = before ++ x :: after
    /\ (exists d, seen_distance x = Some d /\ 170 < d)
    /\ (sensor_now x - approached_time st' < 1.0)%Q
    /\ ((high_five_state st = hf_approached /\ approached_time st' = approached_time st)
        \/ (exists a d, In a before /\ seen_distance a = Some d /\ d < 120
                        /\ sensor_now a = approached_time st')).
Proof.
  induction passes as [ | x0 rest IH]; intros st x st' H; [ discriminate H | ].
  simpl in H. destruct (sensor_checks bot x0 st) as [st1 [action | ]] eqn:Hstep.
  - inversion H; subst. clear H.
    destruct (sensor_checks_high_five _ _ _ _ Hstep) as [Hs [Ht [Hd Hq]]].
    exists [], rest. split; [ reflexivity | ]. split; [ exact Hd | ].
    split; [ rewrite Ht; exact Hq | ]. left. split; assumption.
  - destruct (IH _ _ _ H) as [before [after [Hp [Hd [Hq Hfrom]]]]].
    exists (x0 :: before), after. split; [ rewrite Hp; reflexivity | ].
    split; [ exact Hd | ]. split; [ exact Hq | ].
    destruct Hfrom as [[Hs1 Ht1] | [a [d [Hin [Hda [Hlt Hnow]]]]]].
    + destruct (sensor_checks_approached _ _ _ _ _ Hstep Hs1)
        as [[Hs Ht] | [d [Hd0 [Hlt Hnow]]]].
      * left. split; [ exact Hs | congruence ].
      * right. exists x0, d. split; [ left; reflexivity | ].
        split; [ exact Hd0 | ]. split; [ exact Hlt | congruence ].
    + right. exists a, d. split; [ right; exact Hin | ]. auto.
Qed.

(** X20.  A high five is announced only for a quick approach and retreat.
    When the listening loop ends with the high five at some pass, that pass
    measured a distance above 170 mm, an earlier pass of the same loop
    measured a distance below 120 mm, and less than one second lies between
    the two. *)
Theorem high_five_needs_quick_approach (bot : bool) (passes : list Sensors) (x : Sensors)
    (st : Listening) :
  listen bot listening_start passes = Some (act_high_five, x, st) ->
  exists before after a near far,
    passes = before ++ x :: after
    /\ In a before
    /\ seen_distance a = Some near /\ near < 120
    /\ seen_distance x = Some far /\ 170 < far
    /\ (sensor_now x - sensor_now a < 1.0)%Q.
Proof.
  intros H.
  destruct (listen_high_five bot passes listening_start x st H)
    as [before [after [Hp [[far [Hfar Hgt]] [Hq Hfrom]]]]].
  destruct Hfrom as [[Hs _] | [a [near [Hin [Hnear [Hlt Hnow]]]]]]; [ discriminate Hs | ].
  exists before, after, a, near, far.
  rewrite Hnow. repeat split; assumption.
Qed.

Lemma high_five_needs_quick_approach_witness :
  exists before after a near far,
    high_five_passes = before ++ high_five_retreat :: after
    /\ In a before
    /\ seen_distance a = Some near /\ near < 120
    /\ seen_distance high_five_retreat = Some far /\ 170 < far
    /\ (sensor_now high_five_retreat - sensor_now a < 1.0)%Q.
Proof.
  apply (high_five_needs_quick_approach true high_five_passes high_five_retreat
           (mkListening 5.6 hf_idle 5.0)).
  reflexivity.
Defined.

Lemma picked_up_iff (track_data : option (list Z)) :
  picked_up track_data = true
  <-> match track_data with
      | Some (track :: _) => track mod 16 = 0
      | _ => True
      end.
Proof.
  unfold picked_up.
  destruct track_data as [[ | track rest] | ]; try (split; [ exact (fun _ => I) | reflexivity ]).
  change 0x0F with (Z.ones 4). rewrite Z.land_ones by lia.
  change (2 ^ 4) with 16. apply Z.eqb_eq.
Qed.

(** X21.  When the lifted-robot reaction fires.  A pass of the listening
    loop ends with the scared reaction exactly when the sensor checks are
    made in it (there is a sensor handle and more than 0.1 s has gone by
    since the last check), the high five does not fire in it, the read of
    the line tracker does not raise, and what it returns either is nothing
    ([None] or an empty list, which the code replaces by 0) or has its low
    four bits all zero.  So a tracker read that returns nothing is taken
    for the robot being lifted, while one that raises is not. *)
Theorem lifted_reaction_fires_on_zero_nibble (bot : bool) (x : Sensors) (st : Listening) :
  snd (sensor_checks bot x st) = Some act_picked_up
  <-> sensors_checked bot x st = true /\ high_five_fires x st = false /\ reads_lifted x.
Proof.
  unfold sensor_checks, sensors_checked, high_five_fires, reads_lifted.
  destruct (bot && Qltb 0.1 (sensor_now x - last_sensor_check_time st));
    [ | split; [ discriminate | intros [H _]; discriminate H ] ].
  assert (Htrack : forall st1 : Listening,
            snd (match sensor_track x with
                 | Some track_data =>
                     if picked_up track_data then (st1, Some act_picked_up) else (st1, None)
                 | None => (st1, None)
                 end) = Some act_picked_up
            <-> match sensor_track x with
                | Some (Some (track :: _)) => track mod 16 = 0
                | Some _ => True
                | None => False
                end).
  { intros st1. destruct (sensor_track x) as [track_data | ];
      [ | split; [ discriminate | contradiction ] ].
    pose proof (picked_up_iff track_data) as Hp.
    destruct (picked_up track_data); simpl.
    - split; [ intros _ | reflexivity ].
      destruct track_data as [[ | track rest] | ]; try exact I. apply Hp. reflexivity.
    - split; [ discriminate | ]. intros H.
      assert (Hf : false = true); [ | discriminate Hf ].
      apply Hp. destruct track_data as [[ | track rest] | ]; try exact I. exact H. }
  cbv zeta.
  destruct (sensor_distance x) as [[data_H data_L] | ].
  - destruct (high_five_check (sensor_now x) (distance_of data_H data_L)
                (mkListening (sensor_now x) (high_five_state st) (approached_time st)))
      as [st1 fired].
    simpl snd at 2. destruct fired.
    + split; [ discriminate | intros [_ [H _]]; discriminate H ].
    + rewrite Htrack. split; [ intros H; repeat split; exact H | intros [_ [_ H]]; exact H ].
  - rewrite Htrack. split; [ intros H; repeat split; exact H | intros [_ [_ H]]; exact H ].
Qed.

Lemma lor_shiftl_byte (H L : Z) :
  0 <= L < 256 -> Z.lor (Z.shiftl H 8) L = 256 * H + L.
Proof.
  intros HL.
  assert (Hdisj : Z.land (Z.shiftl H 8) L = 0).
  { apply Z.bits_inj'. intros n Hn. rewrite Z.land_spec, Z.bits_0.
    destruct (Z.lt_ge_cases n 8) as [Hlt | Hge].
    - rewrite Z.shiftl_spec_low by exact Hlt. reflexivity.
    - rewrite andb_false_iff. right.
      destruct (Z.eq_dec L 0) as [-> | Hnz]; [ apply Z.bits_0 | ].
      apply Z.bits_above_log2; [ lia | ].
      assert (Z.log2 L < 8); [ | lia ].
      apply Z.log2_lt_pow2; [ lia | ]. change (2 ^ 8) with 256. lia. }
  rewrite <- Z.lxor_lor by exact Hdisj.
  rewrite <- Z.add_nocarry_lxor by exact Hdisj.
  rewrite Z.shiftl_mul_pow2 by lia. change (2 ^ 8) with 256. lia.
Qed.

(** X22.  The distance is the sixteen-bit value of the two registers, high
    byte first: for register values that are bytes it is 256 times the high
    one plus the low one, below 65536.  When either read returns nothing
    ([None] or an empty list) the distance is taken to be 999 mm, which is
    on the far side of both thresholds of the high five. *)
Theorem distance_of_registers (diss_H diss_L : Z) (rest_H rest_L : list Z)
    (data : option (list Z)) :
  0 <= diss_H < 256 -> 0 <= diss_L < 256 ->
  distance_of (Some (diss_H :: rest_H)) (Some (diss_L :: rest_L)) = 256 * diss_H + diss_L
  /\ 0 <= distance_of (Some (diss_H :: rest_H)) (Some (diss_L :: rest_L)) < 65536
  /\ distance_of None data = 999 /\ distance_of (Some []) data = 999
  /\ distance_of (Some (diss_H :: rest_H)) None = 999
  /\ distance_of (Some (diss_H :: rest_H)) (Some []) = 999.
Proof.
  intros HH HL. unfold distance_of. cbv beta iota.
  rewrite lor_shiftl_byte by exact HL.
  repeat split; try reflexivity; lia.
Qed.

Lemma distance_of_registers_witness :
  distance_of (Some [1]) (Some [44]) = 300 /\ distance_of None (Some [44]) = 999.
Proof.
  destruct (distance_of_registers 1 44 [] [] (Some [44]) ltac:(lia) ltac:(lia))
    as [Hd [_ [Hnone _]]].
  split; [ exact Hd | exact Hnone ].
Defined.

(** ** The face: touch, loops and blinking *)

Lemma gui_run_cons op rest f :
  gui_run (op :: rest) f
  = (fst (gui_run rest (fst (gui_step op f))),
     snd (gui_step op f) ++ snd (gui_run rest (fst (gui_step op f)))).
Proof.
  simpl. destruct (gui_step op f) as [f1 t1]. simpl.
  destruct (gui_run rest f1) as [f2 t2]. reflexivity.
Qed.

Lemma gui_run_app ops1 ops2 f :
  fst (gui_run (ops1 ++ ops2) f) = fst (gui_run ops2 (fst (gui_run ops1 f))).
Proof.
  revert f. induction ops1 as [ | op ops1 IH]; intros f; [ reflexivity | ].
  change ((op :: ops1) ++ ops2) with (op :: (ops1 ++ ops2)).
  rewrite !gui_run_cons. simpl. apply IH.
Qed.

Lemma last_nonempty {A : Type} (x : A) (l : list A) (d d' : A) :
  List.last (x :: l) d = List.last (x :: l) d'.
Proof.
  revert x. induction l as [ | y l IH]; intros x; [ reflexivity | ].
  change (List.last (y :: l) d = List.last (y :: l) d'). apply IH.
Qed.

Lemma spaced_app last l1 l2 :
  spaced last l1 -> spaced (List.last l1 last) l2 -> spaced last (l1 ++ l2).
Proof.
  revert last. induction l1 as [ | t l1 IH]; intros last H1 H2; [ exact H2 | ].
  destruct H1 as [Ht H1]. split; [ exact Ht | ]. apply IH; [ exact H1 | ].
  destruct l1 as [ | t' l1]; [ exact H2 | ].
  rewrite (last_nonempty t' l1 t last). exact H2.
Qed.

Lemma pat_times_app t1 t2 : pat_times (t1 ++ t2) = pat_times t1 ++ pat_times t2.
Proof.
  induction t1 as [ | [tm | ] t1 IH]; simpl; [ reflexivity | rewrite IH; reflexivity | exact IH ].
Qed.

(** One step: the pats it lets through are spaced after the last accepted
    one, and [last_pat_time] is the time of the last accepted one. *)
Lemma gui_step_spaced op f :
  spaced (last_pat_time f) (pat_times (snd (gui_step op f)))
  /\ last_pat_time (fst (gui_step op f))
     = List.last (pat_times (snd (gui_step op f))) (last_pat_time f).
Proof.
  destruct op as [emotion | blink | tk_ok | tk_ok blink | | | image_path loaded | | | | pat tap | | current_time | i blink];
    simpl.
  - unfold set_emotion. destruct (negb _); split; try exact I; destruct f; reflexivity.
  - split; [ exact I | ]. unfold start_animation_loops, _animation_loop, _idle_loop,
      _animate_mouth, _set_eyes_open. cbv zeta.
    repeat match goal with
    | |- context [if ?c then _ else _] => destruct c
    end; destruct f; reflexivity.
  - unfold suspend. destruct tk_ok; split; try exact I; destruct f; reflexivity.
  - unfold resume. destruct tk_ok; (split; [ exact I | ]); [ | reflexivity ].
    unfold _animation_loop, _idle_loop, _animate_mouth, _set_eyes_open. cbv zeta.
    repeat match goal with
    | |- context [if ?c then _ else _] => destruct c
    end; destruct f; reflexivity.
  - split; [ exact I | ]. unfold start_talking, _set_eyes_open. cbv zeta.
    repeat match goal with
    | |- context [if ?c then _ else _] => destruct c
    end; destruct f; reflexivity.
  - split; [ exact I | ]. destruct f; reflexivity.
  - unfold display_game_image. destruct (negb _); [ destruct loaded | ];
      split; try exact I; destruct f; reflexivity.
  - unfold clear_game_image. destruct (is_some _); split; try exact I; destruct f; reflexivity.
  - split; [ exact I | ]. destruct f; reflexivity.
  - split; [ exact I | ]. destruct f; reflexivity.
  - split; [ exact I | ]. destruct f; reflexivity.
  - unfold _handle_tap. destruct (touch_enabled f); [ destruct (tap_callback f) | ];
      split; try exact I; reflexivity.
  - unfold _handle_pat.
    destruct (touch_enabled f && pat_callback f
              && Qltb 1.0 (current_time - last_pat_time f)) eqn:Htest.
    + apply andb_true_iff in Htest. destruct Htest as [_ Hq]. apply Qltb_true in Hq.
      simpl. split; [ split; [ exact Hq | exact I ] | destruct f; reflexivity ].
    + simpl. split; [ exact I | reflexivity ].
  - destruct (nth_error (gui_after f) i) as [[ms cb] | ]; simpl;
      [ | split; [ exact I | reflexivity ] ].
    split; [ exact I | ].
    destruct cb; simpl;
      unfold _animation_loop, _idle_loop, _animate_mouth, _set_eyes_open; cbv zeta;
      repeat match goal with
      | |- context [if ?c then _ else _] => destruct c
      end; destruct f; reflexivity.
Qed.

Lemma gui_run_spaced ops :
  forall f, spaced (last_pat_time f) (pat_times (snd (gui_run ops f))).
Proof.
  induction ops as [ | op ops IH]; intros f; [ exact I | ].
  rewrite gui_run_cons. simpl snd. rewrite pat_times_app.
  destruct (gui_step_spaced op f) as [H1 H2].
  apply spaced_app; [ exact H1 | ]. rewrite <- H2. apply IH.
Qed.

(** X23.  Pats are debounced.  In any run of the face from its creation,
    whatever else happens in between, each pat that reaches the pat
    callback comes more than one second after the previous one that did,
    and the first one more than one second after time 0. *)
Theorem pats_are_spaced (first_blink : Z) (ops : list GuiOp) :
  spaced 0 (pat_times (snd (gui_run ops (face_init first_blink)))).
Proof. apply (gui_run_spaced ops (face_init first_blink)). Qed.

Lemma pending_root_after ms cb cb' f :
  pending cb' (gui_root_after ms cb f)
  = (pending cb' f + (if FaceCallback_eqb cb cb' then 1 else 0))%nat.
Proof.
  unfold pending, gui_root_after. destruct f; simpl.
  rewrite filter_app, length_app. simpl. destruct (FaceCallback_eqb cb cb'); reflexivity.
Qed.

Lemma pending_idle_loop blink cb' f :
  pending cb' (_idle_loop blink f)
  = (pending cb' f + (if FaceCallback_eqb cb_idle_loop cb' then 1 else 0))%nat.
Proof.
  unfold _idle_loop. cbv zeta. rewrite pending_root_after. f_equal.
  unfold pending, _set_eyes_open.
  repeat match goal with
  | |- context [if ?c then _ else _] => destruct c
  end; destruct f; reflexivity.
Qed.

Lemma pending_animation_loop cb' f :
  pending cb' (_animation_loop f)
  = (pending cb' f + (if FaceCallback_eqb cb_animation_loop cb' then 1 else 0))%nat.
Proof.
  unfold _animation_loop. cbv zeta. rewrite pending_root_after. f_equal.
  unfold pending, _animate_mouth.
  repeat match goal with
  | |- context [if ?c then _ else _] => destruct c
  end; destruct f; reflexivity.
Qed.

Lemma filter_remove_nth {A : Type} (p : A -> bool) (l : list A) (i : nat) (x : A) :
  nth_error l i = Some x ->
  List.length (filter p l)
  = (List.length (filter p (remove_nth i l)) + (if p x then 1 else 0))%nat.
Proof.
  revert i. induction l as [ | y l IH]; intros i H; [ destruct i; discriminate H | ].
  destruct i as [ | i]; simpl in *.
  - inversion H; subst. destruct (p x); simpl; lia.
  - pose proof (IH i H) as Hrest. destruct (p y); simpl; lia.
Qed.

Lemma gui_step_pending op f cb :
  pending cb (fst (gui_step op f)) = (pending cb f + loops_started [op])%nat.
Proof.
  destruct op as [emotion | blink | tk_ok | tk_ok blink | | | image_path loaded | | | | pat tap | | current_time | i blink];
    simpl.
  - unfold set_emotion. rewrite Nat.add_0_r. destruct (negb _); destruct f; reflexivity.
  - unfold start_animation_loops.
    rewrite pending_animation_loop, pending_idle_loop. destruct cb; simpl; lia.
  - unfold suspend. rewrite Nat.add_0_r. destruct tk_ok; destruct f; reflexivity.
  - unfold resume. destruct tk_ok; [ | lia ].
    rewrite pending_animation_loop, pending_idle_loop.
    replace (pending cb (gui_set_withdrawn false f)) with (pending cb f)
      by (destruct f; reflexivity).
    destruct cb; simpl; lia.
  - unfold start_talking, _set_eyes_open. cbv zeta. rewrite Nat.add_0_r.
    repeat match goal with
    | |- context [if ?c then _ else _] => destruct c
    end; destruct f; reflexivity.
  - rewrite Nat.add_0_r. destruct f; reflexivity.
  - unfold display_game_image. rewrite Nat.add_0_r.
    destruct (negb _); [ destruct loaded | ]; destruct f; reflexivity.
  - unfold clear_game_image. rewrite Nat.add_0_r. destruct (is_some _); destruct f; reflexivity.
  - rewrite Nat.add_0_r. destruct f; reflexivity.
  - rewrite Nat.add_0_r. destruct f; reflexivity.
  - rewrite Nat.add_0_r. destruct f; reflexivity.
  - unfold _handle_tap. rewrite Nat.add_0_r.
    destruct (touch_enabled f); [ destruct (tap_callback f) | ]; reflexivity.
  - unfold _handle_pat. rewrite Nat.add_0_r.
    destruct (touch_enabled f && pat_callback f && Qltb 1.0 (current_time - last_pat_time f));
      [ destruct f | ]; reflexivity.
  - rewrite Nat.add_0_r.
    destruct (nth_error (gui_after f) i) as [[ms cb0] | ] eqn:Hnth; simpl; [ | reflexivity ].
    assert (Hrm : pending cb f
                  = (pending cb (gui_set_after (remove_nth i (gui_after f)) f)
                     + (if FaceCallback_eqb cb0 cb then 1 else 0))%nat).
    { unfold pending at 1 2.
      rewrite (filter_remove_nth _ _ _ _ Hnth). destruct f; reflexivity. }
    rewrite Hrm. destruct cb0; simpl.
    + apply pending_idle_loop.
    + apply pending_animation_loop.
Qed.

Lemma loops_started_cons op ops :
  loops_started (op :: ops) = (loops_started [op] + loops_started ops)%nat.
Proof. destruct op as [ | | | [ | ] | | | | | | | | | | ]; reflexivity. Qed.

Lemma gui_run_pending ops cb :
  forall f, pending cb (fst (gui_run ops f)) = (pending cb f + loops_started ops)%nat.
Proof.
  induction ops as [ | op ops IH]; intros f; [ simpl; lia | ].
  rewrite gui_run_cons. simpl fst. rewrite IH, gui_step_pending, (loops_started_cons op ops).
  lia.
Qed.

(** X24.  The loops are never stopped and every resume adds one more.  In
    any run of the face from its creation the number of [_idle_loop]
    callbacks waiting on the Tk queue, and likewise of [_animation_loop]
    callbacks, is the number of times the loops were started: once per call
    of [start_animation_loops] and once more per [resume] that gets
    through.  Neither [suspend] nor a callback that runs takes one away. *)
Theorem every_resume_adds_a_loop (first_blink : Z) (ops : list GuiOp) (cb : FaceCallback) :
  pending cb (fst (gui_run ops (face_init first_blink))) = loops_started ops.
Proof. rewrite gui_run_pending. reflexivity. Qed.

Ltac face_inv_fields :=
  repeat match goal with
  | |- context [if ?c then _ else _] => destruct c eqn:?
  end;
  constructor; simpl in *; intros;
  repeat match goal with
  | H : (_ <? _) = true |- _ => apply Z.ltb_lt in H
  | H : (_ <? _) = false |- _ => apply Z.ltb_ge in H
  | H : (_ <=? _) = true |- _ => apply Z.leb_le in H
  | H : (_ <=? _) = false |- _ => apply Z.leb_gt in H
  | H : (_ =? _) = true |- _ => apply Z.eqb_eq in H
  | H : (_ =? _) = false |- _ => apply Z.eqb_neq in H
  | H : negb _ = true |- _ => apply negb_true_iff in H
  | H : negb _ = false |- _ => apply negb_false_iff in H
  | H : Bool.eqb _ _ = true |- _ => apply eqb_prop in H
  | H : ?a = true -> _, H' : ?a = true |- _ => specialize (H H')
  | H : ?a = false -> _, H' : ?a = false |- _ => specialize (H H')
  end;
  try discriminate; try congruence; try lia; auto.

Lemma face_inv_idle_loop blink f : FaceInv f -> FaceInv (_idle_loop blink f).
Proof.
  intros [H1 H2 H3]. destruct f. unfold _idle_loop, _set_eyes_open, gui_root_after.
  cbv zeta. simpl in *. face_inv_fields.
Qed.

Lemma face_inv_animation_loop f : FaceInv f -> FaceInv (_animation_loop f).
Proof.
  intros [H1 H2 H3]. destruct f. unfold _animation_loop, _animate_mouth, gui_root_after.
  cbv zeta. simpl in *.
  repeat match goal with
  | |- context [if ?c then _ else _] => destruct c eqn:?
  end;
  constructor; simpl in *; auto;
  apply Z.mod_pos_bound; lia.
Qed.

Lemma face_inv_step op f : FaceInv f -> FaceInv (fst (gui_step op f)).
Proof.
  intros HInv.
  destruct op as [emotion | blink | tk_ok | tk_ok blink | | | image_path loaded | | | | pat tap | | current_time | i blink];
    simpl.
  - destruct HInv as [H1 H2 H3]. destruct f. unfold set_emotion, draw_face. simpl in *.
    face_inv_fields.
  - apply face_inv_animation_loop, face_inv_idle_loop, HInv.
  - destruct HInv as [H1 H2 H3]. destruct f. unfold suspend. simpl in *. face_inv_fields.
  - unfold resume. destruct tk_ok; [ | exact HInv ].
    apply face_inv_animation_loop, face_inv_idle_loop.
    destruct HInv as [H1 H2 H3]. destruct f. constructor; simpl in *; auto.
  - destruct HInv as [H1 H2 H3]. destruct f.
    unfold start_talking, _set_eyes_open, draw_face. cbv zeta. simpl in *. face_inv_fields.
  - destruct HInv as [H1 H2 H3]. destruct f. unfold stop_talking, draw_face. simpl in *.
    face_inv_fields.
  - destruct HInv as [H1 H2 H3]. destruct f. unfold display_game_image, draw_face. simpl in *.
    face_inv_fields.
  - destruct HInv as [H1 H2 H3]. destruct f. unfold clear_game_image, draw_face. simpl in *.
    face_inv_fields.
  - destruct HInv as [H1 H2 H3]. destruct f. constructor; simpl in *; auto.
  - destruct HInv as [H1 H2 H3]. destruct f. constructor; simpl in *; auto.
  - destruct HInv as [H1 H2 H3]. destruct f. constructor; simpl in *; auto.
  - unfold _handle_tap. destruct (touch_enabled f); [ destruct (tap_callback f) | ]; exact HInv.
  - unfold _handle_pat.
    destruct (touch_enabled f && pat_callback f && Qltb 1.0 (current_time - last_pat_time f));
      [ | exact HInv ].
    destruct HInv as [H1 H2 H3]. destruct f. constructor; simpl in *; auto.
  - destruct (nth_error (gui_after f) i) as [[ms cb] | ]; [ | exact HInv ].
    assert (HInv' : FaceInv (gui_set_after (remove_nth i (gui_after f)) f)).
    { destruct HInv as [H1 H2 H3]. destruct f. constructor; simpl in *; auto. }
    simpl. destruct cb; simpl;
      [ apply face_inv_idle_loop | apply face_inv_animation_loop ]; exact HInv'.
Qed.

Lemma face_inv_run ops : forall f, FaceInv f -> FaceInv (fst (gui_run ops f)).
Proof.
  induction ops as [ | op ops IH]; intros f HInv; [ exact HInv | ].
  rewrite gui_run_cons. simpl fst. apply IH, face_inv_step, HInv.
Qed.

Lemma face_inv_init first_blink : FaceInv (face_init first_blink).
Proof.
  constructor.
  - change (0 <= 0 < 20). lia.
  - intros H. discriminate H.
  - intros H. discriminate H.
Qed.

Lemma idle_loop_blink_state blink f :
  blink_state (_idle_loop blink f) = blink_tick blink (blink_state f).
Proof.
  destruct f as [em talking st idl open ticks next te pc tc lp img cache mouth wd q].
  unfold _idle_loop, _set_eyes_open, gui_root_after, blink_state, blink_tick. cbv zeta.
  simpl.
  destruct talking; [ reflexivity | ]. simpl.
  destruct (0 <? ticks); simpl.
  - destruct (ticks - 1 =? 0); simpl; [ destruct open | ]; reflexivity.
  - destruct (next - 1 <=? 0); simpl; [ destruct open | ]; reflexivity.
Qed.

Lemma closed_eyes_reopen f b1 b2 b3 :
  FaceInv f -> eyes_open f = false -> 3 <= b1 -> 3 <= b2 ->
  eyes_open (_idle_loop b3 (_idle_loop b2 (_idle_loop b1 f))) = true.
Proof.
  intros [H1 H2 H3] Hclosed Hb1 Hb2.
  specialize (H2 Hclosed). specialize (H3 Hclosed).
  assert (Heyes : forall g, eyes_open g = snd (fst (fst (blink_state g))))
    by (intros g; reflexivity).
  rewrite Heyes, !idle_loop_blink_state. unfold blink_state. rewrite Hclosed, H3.
  assert (Hr : blink_ticks_remaining f = 1 \/ blink_ticks_remaining f = 2
               \/ blink_ticks_remaining f = 3) by lia.
  unfold blink_tick.
  destruct Hr as [-> | [-> | ->]]; simpl.
  - destruct (b1 - 1 <=? 0) eqn:E1; [ apply Z.leb_le in E1; lia | ].
    destruct (b1 - 1 - 1 <=? 0) eqn:E2; [ apply Z.leb_le in E2; lia | ]. reflexivity.
  - destruct (b2 - 1 <=? 0) eqn:E1; [ apply Z.leb_le in E1; lia | ]. reflexivity.
  - reflexivity.
Qed.

(** X25.  A blink is over after three idle ticks, and the face never talks
    with its eyes shut.  In every state the face reaches from its creation
    the animation step lies from 0 to 19, and when the eyes are closed the
    face is not talking and one to three ticks of the blink remain; from
    such a state three runs of [_idle_loop] in a row, with blink intervals
    of at least three ticks as [random.randint(50, 150)] delivers them,
    leave the eyes open. *)
Theorem blink_is_over_after_three_ticks (first_blink : Z) (ops : list GuiOp)
    (b1 b2 b3 : Z) :
  let f := fst (gui_run ops (face_init first_blink)) in
  0 <= animation_step f < 20
  /\ (eyes_open f = false ->
      gui_animation_active f = false
      /\ 1 <= blink_ticks_remaining f <= 3
      /\ (3 <= b1 -> 3 <= b2 ->
          eyes_open (_idle_loop b3 (_idle_loop b2 (_idle_loop b1 f))) = true)).
Proof.
  intros f.
  assert (HInv : FaceInv f) by (apply face_inv_run, face_inv_init).
  split; [ apply (face_step_range _ HInv) | ].
  intros Hclosed. split; [ apply (face_closed_idle _ HInv Hclosed) | ].
  split; [ apply (face_closed_ticks _ HInv Hclosed) | ].
  intros Hb1 Hb2. apply closed_eyes_reopen; assumption.
Qed.

Lemma blink_is_over_after_three_ticks_witness :
  let f := fst (gui_run [gui_start_animation_loops 60] (face_init 1)) in
  eyes_open f = false
  /\ eyes_open (_idle_loop 70 (_idle_loop 60 (_idle_loop 50 f))) = true.
Proof.
  cbv zeta. split; [ reflexivity | ].
  apply (proj2 (blink_is_over_after_three_ticks 1 [gui_start_animation_loops 60] 50 60 70));
    [ reflexivity | lia | lia ].
Defined.

(** ** The LEDs of an emotion *)

(** X26.  [set_emotion_led] lights the LED bar only when there is a
    hardware handle.  Without one ([bot] is [None]) it leaves the state as
    it is and only prints the simulation line.  With one it lights the bar
    for every emotion string: in the colour of the emotion, one of red,
    green, blue, yellow and purple (indices 0 to 4), and in blue, the colour
    of neutral, for a string that is no key of [EMOTION_LED_MAP]; it changes
    nothing but the LEDs. *)
Theorem set_emotion_led_lights_a_colour (emotion : string) (env : Env) (s : BigMainApp) :
  set_emotion_led_of false emotion env s
  = (tt, s, [Print ("Sim: LEDs set to emotion: " ++ emotion)])
  /\ exists color_index,
       state_of (set_emotion_led_of true emotion env s)
       = set_bot {| ir_switch := ir_switch (bot s); led := Some color_index;
                    motors_moving := motors_moving (bot s) |} s
       /\ 0 <= color_index <= 4
       /\ (existsb (String.eqb emotion) (map fst EMOTION_LED_MAP) = false ->
           color_index = 2).
Proof.
  split; [ reflexivity | ].
  exists (dict_get EMOTION_LED_MAP emotion (dict_get EMOTION_LED_MAP "neutral" 0)).
  split; [ reflexivity | ].
  cbv beta iota delta [dict_get EMOTION_LED_MAP existsb map fst].
  rewrite !(String.eqb_sym emotion).
  change (String.eqb "neutral" "neutral") with true.
  change (String.eqb "happy" "neutral") with false.
  cbv beta iota.
  repeat match goal with
  | |- context [String.eqb ?a emotion] => destruct (String.eqb a emotion)
  end;
  cbv beta iota delta [orb];
  (split; [ lia | intros H; try discriminate H; reflexivity ]).
Qed.
